(** * server-metrics: a shallow embedding of [run.py]

    The program takes one snapshot of the host (CPU, memory, swap, disks,
    network, processes) through [psutil] and prints it as a CSV header, a CSV
    row, a JSON document or a report for a terminal.

    The embedding follows the source function by function:
    - Python values that reach the snapshot are [value]; a [float] is an IEEE
      754 binary64 number ([spec_float] at precision 53), an [int] is a [Z];
    - a [dict] is an association list in insertion order ([ODict]);
    - the readings of the operating system are a record [Host]; every query
      may raise;
    - a function of the source is a computation [M A]: the events it emits, in
      order (operating-system queries, lines on standard output, lines on the
      error stream), and its result or the exception it raises. *)

From Stdlib Require Import ZArith List String Ascii Bool Lia Permutation.
From Stdlib Require Import Floats.SpecFloat DecimalString.
Import ListNotations.

Local Open Scope string_scope.
Local Open Scope list_scope.
Local Open Scope Z_scope.

(** String concatenation, as Python's [+] on [str] and the pieces of an
    f-string. *)
Infix "+++" := String.append (at level 60, right associativity).

(** ** Exceptions *)

(** The exception classes the program tells apart.  All of them derive from
    [Exception]; [PermissionError] and [FileNotFoundError] are the two that
    [get_disk_metrics] skips without a word. *)
Inductive exn_class : Type :=
| PermissionError
| FileNotFoundError
| OSError
| OverflowError
| ZeroDivisionError
| AttributeError
| KeyError
| TypeError
| ValueError.

(** An exception: its class and [str(e)]. *)
Record exn : Type := mk_exn { exn_cls : exn_class; exn_msg : string }.

(** The outcome of an expression: a value, or an exception raised. *)
Inductive res (A : Type) : Type :=
| Ok (a : A)
| Raise (e : exn).
Arguments Ok {A} a.
Arguments Raise {A} e.

(** [str(n)] for an int. *)
Definition str_int (n : Z) : string :=
  DecimalString.NilEmpty.string_of_int (Z.to_int n).

(** ** Floating point: Python's [float] *)

Module PyFloat.

Definition float : Type := spec_float.

Definition prec : Z := 53.
Definition emax : Z := 1024.

Definition fmul : float -> float -> float := SFmul prec emax.

(** [float(n)] for an int [n] that a binary64 holds exactly or rounds to. *)
Definition of_Z (n : Z) : float := binary_normalize prec emax n 0 false.

(** The quotient of two positive integers, rounded once to the nearest
    binary64 (ties to even); an infinity when it is too large. *)
Definition ratio (s : bool) (a b : positive) : float :=
  let '(q, e, l) := SFdiv_core_binary prec emax (Zpos a) 0 (Zpos b) 0 in
  binary_round_aux prec emax s q e l.

(** [a / b] on ints: true division, correctly rounded.  A zero divisor raises
    [ZeroDivisionError]; a quotient no float holds raises [OverflowError]. *)
Definition int_truediv (a b : Z) : res float :=
  match b with
  | Z0 => Raise (mk_exn ZeroDivisionError "division by zero")
  | _ =>
    match a with
    | Z0 => Ok (S754_zero (b <? 0))
    | _ =>
      match ratio (xorb (a <? 0) (b <? 0)) (Z.to_pos (Z.abs a)) (Z.to_pos (Z.abs b)) with
      | S754_infinity _ =>
        Raise (mk_exn OverflowError "integer division result too large for a float")
      | f => Ok f
      end
    end
  end.

(** [x * n] for a float [x] and an int [n] (the int is converted first). *)
Definition mul_int (x : float) (n : Z) : float := fmul x (of_Z n).

(** The integer nearest to [n / d], ties to the even one ([d > 0]). *)
Definition div_half_even (n d : Z) : Z :=
  let q := n / d in
  let r := n mod d in
  match 2 * r ?= d with
  | Lt => q
  | Gt => q + 1
  | Eq => if Z.even q then q else q + 1
  end.

(** The integer nearest to [m * 2^e * 10^digits], ties to even: the finite
    float of mantissa [m] and exponent [e] counted in units of the last of
    [digits] decimals. *)
Definition decimal_units (digits : nat) (m : positive) (e : Z) : Z :=
  match e with
  | Zneg p => div_half_even (10 ^ Z.of_nat digits * Zpos m) (2 ^ Zpos p)
  | _ => 10 ^ Z.of_nat digits * Zpos m * 2 ^ e
  end.

(** The number of hundredths nearest to [m * 2^e]. *)
Definition hundredths (m : positive) (e : Z) : Z := decimal_units 2 m e.

(** The float nearest to [n / 100], with sign [s]. *)
Definition of_hundredths (s : bool) (n : Z) : float :=
  match n with
  | Zpos p => ratio s p 100
  | _ => S754_zero s
  end.

(** [round(x, 2)] on a float: NaN and the infinities round to themselves; a
    finite [x] is rounded to two decimals on its exact value (ties to even)
    and the float nearest to that decimal is returned, the sign kept. *)
Definition round2 (x : float) : float :=
  match x with
  | S754_finite s m e =>
    match e with
    | Zneg _ => of_hundredths s (hundredths m e)
    | _ => x
    end
  | _ => x
  end.

(** [n] zeros. *)
Fixpoint zeros (n : nat) : string :=
  match n with
  | O => EmptyString
  | S k => String "0" (zeros k)
  end.

(** The decimal numeral of [n >= 0] units of the last of [digits] decimals:
    at least one digit before the point, [digits] after it, and no point when
    [digits] is 0. *)
Definition place_point (digits : nat) (n : Z) : string :=
  let s := str_int n in
  let s := zeros (S digits - String.length s) +++ s in
  let before := (String.length s - digits)%nat in
  match digits with
  | O => s
  | _ => String.substring 0 before s +++ "." +++ String.substring before digits s
  end.

(** [format(x, '.<digits>f')]: the decimal with [digits] decimals nearest to
    the exact value of [x] (ties to even), with the sign of [x]. *)
Definition format_fixed (digits : nat) (x : float) : string :=
  match x with
  | S754_nan => "nan"
  | S754_infinity s => if s then "-inf" else "inf"
  | S754_zero s => (if s then "-" else "") +++ place_point digits 0
  | S754_finite s m e =>
    (if s then "-" else "") +++ place_point digits (decimal_units digits m e)
  end.

End PyFloat.

Export PyFloat(float).

(** ** Strings: the [str] methods the program calls

    A [string] holds the bytes of the text (UTF-8).  Every character the
    program looks for is ASCII, and no byte of a longer UTF-8 sequence is an
    ASCII byte, so the methods below agree with Python's on the text. *)

Module PyStr.

(** [s.replace(a, b)] for one-character [a] and [b]. *)
Fixpoint replace (a b : ascii) (s : string) : string :=
  match s with
  | EmptyString => EmptyString
  | String c r => String (if Ascii.eqb c a then b else c) (replace a b r)
  end.

(** [s.lstrip(c)] for a one-character [c]. *)
Fixpoint lstrip (c : ascii) (s : string) : string :=
  match s with
  | EmptyString => EmptyString
  | String a r => if Ascii.eqb a c then lstrip c r else s
  end.

(** [s.rstrip(c)] for a one-character [c]. *)
Fixpoint rstrip (c : ascii) (s : string) : string :=
  match s with
  | EmptyString => EmptyString
  | String a r =>
    match rstrip c r with
    | EmptyString => if Ascii.eqb a c then EmptyString else String a EmptyString
    | r' => String a r'
    end
  end.

(** [s.strip(c)]. *)
Definition strip (c : ascii) (s : string) : string := rstrip c (lstrip c s).

(** [c in s] for a character [c]. *)
Fixpoint mem (c : ascii) (s : string) : bool :=
  match s with
  | EmptyString => false
  | String a r => Ascii.eqb a c || mem c r
  end.

(** [x in s] for a string [x]: [x] occurs in [s] as a substring. *)
Fixpoint contains (x s : string) : bool :=
  String.prefix x s ||
  match s with
  | EmptyString => false
  | String _ r => contains x r
  end.

(** [os.path.basename(s)] on POSIX: what follows the last ['/']. *)
Fixpoint basename (s : string) : string :=
  match s with
  | EmptyString => EmptyString
  | String a r =>
    if mem "/" r then basename r
    else if Ascii.eqb a "/" then r else s
  end.

(** [sep.join(l)]. *)
Fixpoint join (sep : string) (l : list string) : string :=
  match l with
  | [] => EmptyString
  | [s] => s
  | s :: r => s +++ sep +++ join sep r
  end.

(** [x in l] for a list of strings [l]. *)
Definition in_list (x : string) (l : list string) : bool :=
  existsb (String.eqb x) l.

(** [c * n]: the character [c] repeated. *)
Fixpoint repeat (c : ascii) (n : nat) : string :=
  match n with
  | O => EmptyString
  | S k => String c (repeat c k)
  end.

(** The line feed and the double quote, as one-character strings. *)
Definition nl : string := String (ascii_of_nat 10) EmptyString.
Definition dquote : ascii := ascii_of_nat 34.

End PyStr.

(** ** Dictionaries in insertion order: Python's [dict] with [str] keys *)

Module ODict.

Definition t (V : Type) : Type := list (string * V).

Section Ops.
Context {V : Type}.

(** [d[k] = v]: the value of a key already there is replaced where it stands,
    a new key goes to the end. *)
Fixpoint set (k : string) (v : V) (d : t V) : t V :=
  match d with
  | [] => [(k, v)]
  | (k', v') :: r =>
    if String.eqb k' k then (k', v) :: r else (k', v') :: set k v r
  end.

(** [d.get(k)]. *)
Fixpoint get (k : string) (d : t V) : option V :=
  match d with
  | [] => None
  | (k', v') :: r => if String.eqb k' k then Some v' else get k r
  end.

(** [d.keys()], [d.values()], [d.items()] and [len(d)]. *)
Definition keys (d : t V) : list string := map fst d.
Definition values (d : t V) : list V := map snd d.
Definition items (d : t V) : list (string * V) := d.
Definition len (d : t V) : Z := Z.of_nat (List.length d).

(** [k in d]. *)
Definition has (k : string) (d : t V) : bool :=
  match get k d with Some _ => true | None => false end.

End Ops.

End ODict.

(** ** Values of the snapshot *)

(** What a key of the snapshot maps to: [None], an int, a float or a str. *)
Inductive value : Type :=
| VNone
| VInt (n : Z)
| VFloat (x : float)
| VStr (s : string).

(** ** The host: what the operating system answers *)

(** [psutil]'s named tuples, with the fields the program reads. *)
Record sdiskpart : Type :=
  mk_part { device : string; mountpoint : string; fstype : string }.

Record sdiskusage : Type :=
  mk_usage { du_total : Z; du_used : Z; du_free : Z; du_percent : float }.

Record svmem : Type :=
  mk_vmem { vm_total : Z; vm_available : Z; vm_used : Z; vm_percent : float }.

Record sswap : Type :=
  mk_swap { sw_total : Z; sw_used : Z; sw_percent : float }.

Record sdiskio : Type := mk_diskio { read_bytes : Z; write_bytes : Z }.

Record snetio : Type := mk_netio { bytes_sent : Z; bytes_recv : Z }.

(** One fixed set of readings.  Every [psutil] and [socket] query either
    answers or raises; [cpu_count], [cpu_freq] and the two IO counters may
    answer [None].

    Standard output is a buffered text stream.  [os_stdout_write] says
    whether it takes a line: an encoding that lacks a character refuses it
    with a [ValueError] ([UnicodeEncodeError]), a full device or a closed pipe
    with an [OSError].  [os_stdout_buffers] says whether the line stays in the
    buffer of the stream until the interpreter exits, as it does when the
    output is redirected and short; a terminal, or [python -u], writes the
    line during the call.  [os_argparse_help] is the help message [argparse]
    formats for this program name and terminal width, without its final line
    feed. *)
Record Host : Type := mk_host {
  os_now_isoformat : string;
  os_gethostname : res string;
  os_cpu_percent : res float;
  os_cpu_percent_percpu : res (list float);
  os_cpu_count : res (option Z);
  os_cpu_freq : res (option float);
  os_virtual_memory : res svmem;
  os_swap_memory : res sswap;
  os_disk_partitions : res (list sdiskpart);
  os_disk_usage : string -> res sdiskusage;
  os_disk_io_counters : res (option sdiskio);
  os_net_io_counters : res (option snetio);
  os_getloadavg : res (float * float * float);
  os_pids : res (list Z);
  os_stdout_write : string -> res unit;
  os_stdout_buffers : string -> bool;
  os_argparse_help : string
}.

(** ** Computations: events and exceptions *)

(** The queries the program sends to the operating system. *)
Inductive os_call : Type :=
| QNow
| QGetHostName
| QCpuPercent (percpu : bool)
| QCpuCount
| QCpuFreq
| QVirtualMemory
| QSwapMemory
| QDiskPartitions
| QDiskUsage (path : string)
| QDiskIoCounters
| QNetIoCounters
| QGetLoadAvg
| QPids.

(** What [argparse] and the interpreter write on the error stream on their
    own account: the usage and error message of a rejected command line, the
    traceback of an exception nothing catches, and the report of a flush of
    standard output that fails when the interpreter exits.  Their texts are
    left open. *)
Inductive report : Type :=
| UsageError
| Traceback (e : exn)
| FlushFailure (e : exn).

(** What a run leaves behind, in order: a query; a line the script writes on
    standard output or on the error stream; a line that [print] left in the
    buffer of standard output and that cannot be written out ([e] is what the
    write fails with); a report on the error stream. *)
Inductive event : Type :=
| Query (q : os_call)
| Stdout (line : string)
| Stderr (line : string)
| Pending (line : string) (e : exn)
| Report (r : report).

(** A computation: the events emitted, then a value or an exception. *)
Definition M (A : Type) : Type := (list event * res A)%type.

Definition ret {A : Type} (a : A) : M A := ([], Ok a).

Definition bind {A B : Type} (m : M A) (f : A -> M B) : M B :=
  match m with
  | (l, Ok a) => let '(l', r) := f a in (l ++ l', r)
  | (l, Raise e) => (l, Raise e)
  end.

Notation "x <- m ;; k" := (bind m (fun x => k))
  (at level 100, m at next level, right associativity).
Notation "m ;;; k" := (bind m (fun _ => k))
  (at level 100, right associativity).

(** An expression that may raise and emits nothing. *)
Definition lift {A : Type} (r : res A) : M A := ([], r).

(** A query to the operating system. *)
Definition query {A : Type} (q : os_call) (r : res A) : M A := ([Query q], r).

(** [try: body except Exception as e: handler(e)]. *)
Definition try_except {A : Type} (body : M A) (handler : exn -> M A) : M A :=
  match body with
  | (l, Ok a) => (l, Ok a)
  | (l, Raise e) => let '(l', r) := handler e in (l ++ l', r)
  end.

(** The classes that derive from [OSError]. *)
Definition is_os_error (e : exn) : bool :=
  match exn_cls e with
  | PermissionError | FileNotFoundError | OSError => true
  | _ => false
  end.

(** [print(line)], and [sys.stdout.write] in general.  A line standard output
    takes is written.  A line it refuses raises during the call, unless the
    refusal is an [OSError] and the line stays in the buffer: then the call
    returns, and the failure comes up when the interpreter exits. *)
Definition print (h : Host) (line : string) : M unit :=
  match os_stdout_write h line with
  | Ok _ => ([Stdout line], Ok tt)
  | Raise e =>
    if is_os_error e && os_stdout_buffers h line
    then ([Pending line e], Ok tt)
    else ([], Raise e)
  end.

(** [print(line, file=sys.stderr)]. *)
Definition print_err (line : string) : M unit := ([Stderr line], Ok tt).

(** The events and the outcome of a run. *)
Definition events {A : Type} (m : M A) : list event := fst m.
Definition outcome {A : Type} (m : M A) : res A := snd m.

(** The lines the script writes on standard output and on the error stream,
    the queries, and the failures that wait in the buffer of standard
    output. *)
Definition stdout_of (l : list event) : list string :=
  flat_map (fun ev => match ev with Stdout s => [s] | _ => [] end) l.
Definition stderr_of (l : list event) : list string :=
  flat_map (fun ev => match ev with Stderr s => [s] | _ => [] end) l.
Definition queries_of (l : list event) : list os_call :=
  flat_map (fun ev => match ev with Query q => [q] | _ => [] end) l.
Definition pending_of (l : list event) : list exn :=
  flat_map (fun ev => match ev with Pending _ e => [e] | _ => [] end) l.

(** ** The collector *)

(** One entry of [disk_metrics]: the dict built at lines 39-50. *)
Record disk_info : Type := mk_info {
  di_mountpoint : string;
  di_device : string;
  di_fstype : string;
  di_total_gb : float;
  di_used_gb : float;
  di_free_gb : float;
  di_percent : float;
  di_total_bytes : Z;
  di_used_bytes : Z;
  di_free_bytes : Z
}.

(** The file-system types [get_disk_metrics] passes over (line 25). *)
Definition special_fstypes : list string :=
  ["tmpfs"; "devtmpfs"; "squashfs"; "overlay"; "proc"; "sysfs"; "cgroup"].

(** The name of a mount in the column names (lines 32-34):
    [mountpoint.replace('/', '_').replace('.', '_').strip('_')], and ['root']
    when nothing is left. *)
Definition mount_name (mountpoint : string) : string :=
  match PyStr.strip "_" (PyStr.replace "." "_" (PyStr.replace "/" "_" mountpoint)) with
  | EmptyString => "root"
  | name => name
  end.

(** [round(n / d, 2)] for ints [n] and [d]. *)
Definition round_div (n d : Z) : M float :=
  x <- lift (PyFloat.int_truediv n d) ;;
  ret (PyFloat.round2 x).

(** The entry of one partition (lines 36-50), given its usage. *)
Definition disk_entry (partition : sdiskpart) (usage : sdiskusage) : M disk_info :=
  let device_name := PyStr.basename (device partition) in
  total_gb <- round_div (du_total usage) (1024 ^ 3) ;;
  used_gb <- round_div (du_used usage) (1024 ^ 3) ;;
  free_gb <- round_div (du_free usage) (1024 ^ 3) ;;
  ret {| di_mountpoint := mountpoint partition;
         di_device := device_name;
         di_fstype := fstype partition;
         di_total_gb := total_gb;
         di_used_gb := used_gb;
         di_free_gb := free_gb;
         di_percent := PyFloat.round2 (du_percent usage);
         di_total_bytes := du_total usage;
         di_used_bytes := du_used usage;
         di_free_bytes := du_free usage |}.

(** Is the exception one of [(PermissionError, FileNotFoundError)]? *)
Definition is_access_error (e : exn) : bool :=
  match exn_cls e with
  | PermissionError | FileNotFoundError => true
  | _ => false
  end.

(** The [for partition in partitions] loop of [get_disk_metrics] (lines
    23-57), from the dict built so far. *)
Fixpoint scan_partitions (h : Host) (partitions : list sdiskpart)
    (disk_metrics : ODict.t disk_info) : M (ODict.t disk_info) :=
  match partitions with
  | [] => ret disk_metrics
  | partition :: rest =>
    if PyStr.in_list (fstype partition) special_fstypes
    then scan_partitions h rest disk_metrics
    else
      disk_metrics' <-
        try_except
          (usage <- query (QDiskUsage (mountpoint partition))
                          (os_disk_usage h (mountpoint partition)) ;;
           info <- disk_entry partition usage ;;
           ret (ODict.set (mount_name (mountpoint partition)) info disk_metrics))
          (fun e =>
             if is_access_error e then ret disk_metrics
             else
               print_err ("Error reading " +++ mountpoint partition +++ ": " +++ exn_msg e) ;;;
               ret disk_metrics) ;;
      scan_partitions h rest disk_metrics'
  end.

(** [get_disk_metrics()] (lines 16-59). *)
Definition get_disk_metrics (h : Host) : M (ODict.t disk_info) :=
  partitions <- query QDiskPartitions (os_disk_partitions h) ;;
  scan_partitions h partitions [].

(** [not any(x in fstype for x in ['overlay', 'squashfs'])] (line 140). *)
Definition counts_in_totals (fstype : string) : bool :=
  negb (existsb (fun x => PyStr.contains x fstype) ["overlay"; "squashfs"]).

(** The six columns of one mount (lines 130-137). *)
Definition add_disk_columns (mount_name : string) (info : disk_info)
    (metrics : ODict.t value) : ODict.t value :=
  let metrics := ODict.set ("disk_" +++ mount_name +++ "_total_gb") (VFloat (di_total_gb info)) metrics in
  let metrics := ODict.set ("disk_" +++ mount_name +++ "_used_gb") (VFloat (di_used_gb info)) metrics in
  let metrics := ODict.set ("disk_" +++ mount_name +++ "_free_gb") (VFloat (di_free_gb info)) metrics in
  let metrics := ODict.set ("disk_" +++ mount_name +++ "_percent") (VFloat (di_percent info)) metrics in
  let metrics := ODict.set ("disk_" +++ mount_name +++ "_device") (VStr (di_device info)) metrics in
  ODict.set ("disk_" +++ mount_name +++ "_fstype") (VStr (di_fstype info)) metrics.

(** The state of the loop of lines 128-142: the snapshot so far,
    [total_disk_used] and [total_disk_size]. *)
Record disk_acc : Type :=
  mk_acc { acc_metrics : ODict.t value; total_disk_used : Z; total_disk_size : Z }.

(** One turn of [for mount_name, disk_info in disk_metrics.items()]. *)
Definition disk_step (acc : disk_acc) (item : string * disk_info) : disk_acc :=
  let '(mount_name, info) := item in
  let metrics := add_disk_columns mount_name info (acc_metrics acc) in
  if counts_in_totals (di_fstype info)
  then mk_acc metrics
              (total_disk_used acc + di_used_bytes info)
              (total_disk_size acc + di_total_bytes info)
  else mk_acc metrics (total_disk_used acc) (total_disk_size acc).

(** [x.attr] on the answer of an IO-counter query that may be [None]. *)
Definition attr_of {A : Type} (o : option A) (name : string) : M A :=
  match o with
  | Some a => ret a
  | None =>
    lift (Raise (mk_exn AttributeError
                        ("'NoneType' object has no attribute '" +++ name +++ "'")))
  end.

(** [round(n / 1024**3, 2) if total > 0 else 0] (lines 108-109). *)
Definition swap_gb (total n : Z) : M value :=
  if total >? 0 then (x <- round_div n (1024 ^ 3) ;; ret (VFloat x)) else ret (VInt 0).

(** Lines 124-153 of [collect_metrics]: the columns of every entry of
    [disk_metrics] are added to the snapshot, then the three totals when the
    total size is positive, then [disk_count]. *)
Definition add_disk_metrics (metrics : ODict.t value)
    (disk_metrics : ODict.t disk_info) : M (ODict.t value) :=
  let acc := fold_left disk_step (ODict.items disk_metrics) (mk_acc metrics 0 0) in
  let metrics := acc_metrics acc in
  metrics <-
    (if total_disk_size acc >? 0 then
       total_all <- round_div (total_disk_size acc) (1024 ^ 3) ;;
       let metrics := ODict.set "disk_total_all_gb" (VFloat total_all) metrics in
       used_all <- round_div (total_disk_used acc) (1024 ^ 3) ;;
       let metrics := ODict.set "disk_used_all_gb" (VFloat used_all) metrics in
       share <- lift (PyFloat.int_truediv (total_disk_used acc) (total_disk_size acc)) ;;
       ret (ODict.set "disk_percent_all"
                      (VFloat (PyFloat.round2 (PyFloat.mul_int share 100))) metrics)
     else ret metrics) ;;
  ret (ODict.set "disk_count" (VInt (ODict.len disk_metrics)) metrics).

(** [collect_metrics()] (lines 61-153): the queries of lines 65-88, the dict
    literal of lines 91-122 (its values are evaluated in the order of the
    keys, [socket.gethostname()] among them), then lines 124-153. *)
Definition collect_metrics (h : Host) : M (ODict.t value) :=
  timestamp <- query QNow (Ok (os_now_isoformat h)) ;;
  cpu_percent <- query (QCpuPercent false) (os_cpu_percent h) ;;
  cpu_percent_per_core <- query (QCpuPercent true) (os_cpu_percent_percpu h) ;;
  cpu_count <- query QCpuCount (os_cpu_count h) ;;
  cpu_freq <- query QCpuFreq (os_cpu_freq h) ;;
  memory <- query QVirtualMemory (os_virtual_memory h) ;;
  swap <- query QSwapMemory (os_swap_memory h) ;;
  disk_metrics <- get_disk_metrics h ;;
  disk_io <- query QDiskIoCounters (os_disk_io_counters h) ;;
  net_io <- query QNetIoCounters (os_net_io_counters h) ;;
  load_avg <- query QGetLoadAvg (os_getloadavg h) ;;
  pids <- query QPids (os_pids h) ;;
  let process_count := Z.of_nat (List.length pids) in
  hostname <- query QGetHostName (os_gethostname h) ;;
  memory_total_gb <- round_div (vm_total memory) (1024 ^ 3) ;;
  memory_available_gb <- round_div (vm_available memory) (1024 ^ 3) ;;
  memory_used_gb <- round_div (vm_used memory) (1024 ^ 3) ;;
  swap_total_gb <- swap_gb (sw_total swap) (sw_total swap) ;;
  swap_used_gb <- swap_gb (sw_total swap) (sw_used swap) ;;
  disk_io_r <- attr_of disk_io "read_bytes" ;;
  disk_io_read_mb <- round_div (read_bytes disk_io_r) (1024 ^ 2) ;;
  disk_io_w <- attr_of disk_io "write_bytes" ;;
  disk_io_write_mb <- round_div (write_bytes disk_io_w) (1024 ^ 2) ;;
  net_io_s <- attr_of net_io "bytes_sent" ;;
  net_mb_sent <- round_div (bytes_sent net_io_s) (1024 ^ 2) ;;
  net_io_r <- attr_of net_io "bytes_recv" ;;
  net_mb_recv <- round_div (bytes_recv net_io_r) (1024 ^ 2) ;;
  add_disk_metrics
    [ ("timestamp", VStr timestamp);
      ("hostname", VStr hostname);
      ("cpu_percent", VFloat (PyFloat.round2 cpu_percent));
      ("cpu_count", match cpu_count with Some n => VInt n | None => VNone end);
      ("cpu_freq_current",
       match cpu_freq with Some f => VFloat (PyFloat.round2 f) | None => VNone end);
      ("load_1min", VFloat (PyFloat.round2 (fst (fst load_avg))));
      ("load_5min", VFloat (PyFloat.round2 (snd (fst load_avg))));
      ("load_15min", VFloat (PyFloat.round2 (snd load_avg)));
      ("memory_total_gb", VFloat memory_total_gb);
      ("memory_available_gb", VFloat memory_available_gb);
      ("memory_used_gb", VFloat memory_used_gb);
      ("memory_percent", VFloat (PyFloat.round2 (vm_percent memory)));
      ("swap_total_gb", swap_total_gb);
      ("swap_used_gb", swap_used_gb);
      ("swap_percent",
       if sw_total swap >? 0 then VFloat (PyFloat.round2 (sw_percent swap)) else VInt 0);
      ("disk_io_read_mb", VFloat disk_io_read_mb);
      ("disk_io_write_mb", VFloat disk_io_write_mb);
      ("net_mb_sent", VFloat net_mb_sent);
      ("net_mb_recv", VFloat net_mb_recv);
      ("process_count", VInt process_count) ]
    disk_metrics.

(** ** The presenters *)

Section Presenter.

(** Two texts of the interpreter and its library: [repr(x)] of a float (also
    [str(x)] and [format(x, '')]: the shortest decimal that reads back as
    [x]) and [json.dumps(d, indent=2)] of a snapshot.  The presenters are
    stated over any such functions. *)
Variable float_repr : float -> string.
Variable json_dumps : ODict.t value -> string.

(** [str(v)], which is what [{v}] puts in an f-string. *)
Definition py_str (v : value) : string :=
  match v with
  | VNone => "None"
  | VInt n => str_int n
  | VFloat x => float_repr x
  | VStr s => s
  end.

(** [d[k]]. *)
Definition getitem (d : ODict.t value) (k : string) : M value :=
  match ODict.get k d with
  | Some v => ret v
  | None => lift (Raise (mk_exn KeyError ("'" +++ k +++ "'")))
  end.

(** [{v:.<digits>f}] in an f-string. *)
Definition format_f (digits : nat) (v : value) : M string :=
  match v with
  | VFloat x => ret (PyFloat.format_fixed digits x)
  | VInt n =>
    match PyFloat.of_Z n with
    | S754_infinity _ =>
      lift (Raise (mk_exn OverflowError "int too large to convert to float"))
    | x => ret (PyFloat.format_fixed digits x)
    end
  | VNone =>
    lift (Raise (mk_exn TypeError "unsupported format string passed to NoneType.__format__"))
  | VStr _ =>
    lift (Raise (mk_exn ValueError "Unknown format code 'f' for object of type 'str'"))
  end.

(** [v > 0]. *)
Definition gt_zero (v : value) : M bool :=
  match v with
  | VInt n => ret (n >? 0)
  | VFloat x => ret (SFltb (S754_zero false) x)
  | VNone =>
    lift (Raise (mk_exn TypeError "'>' not supported between instances of 'NoneType' and 'int'"))
  | VStr _ =>
    lift (Raise (mk_exn TypeError "'>' not supported between instances of 'str' and 'int'"))
  end.

(** [print_csv_header()] (lines 155-158). *)
Definition print_csv_header (h : Host) : M unit :=
  metrics <- collect_metrics h ;;
  print h (PyStr.join "," (ODict.keys metrics)).

(** One field of the row (lines 167-175). *)
Definition csv_field (v : value) : string :=
  match v with
  | VNone => ""
  | VStr s =>
    if PyStr.mem "," s
    then String PyStr.dquote s +++ String PyStr.dquote ""
    else s
  | VInt n => str_int n
  | VFloat x => float_repr x
  end.

(** [print_csv_row()] (lines 160-177). *)
Definition print_csv_row (h : Host) : M unit :=
  metrics <- collect_metrics h ;;
  let row_values := map (fun item => csv_field (snd item)) (ODict.items metrics) in
  print h (PyStr.join "," row_values).

(** [print_json()] (lines 221-224). *)
Definition print_json (h : Host) : M unit :=
  metrics <- collect_metrics h ;;
  print h (json_dumps metrics).

(** The four lines of one disk in the report (lines 201-205). *)
Definition print_disk (h : Host) (info : disk_info) : M unit :=
  print h ("  " +++ di_mountpoint info +++ ":") ;;;
  print h ("    Used: " +++ PyFloat.format_fixed 1 (di_used_gb info) +++ " GB / "
           +++ PyFloat.format_fixed 1 (di_total_gb info) +++ " GB ("
           +++ float_repr (di_percent info) +++ "%)") ;;;
  print h ("    Free: " +++ PyFloat.format_fixed 1 (di_free_gb info) +++ " GB") ;;;
  print h ("    Type: " +++ di_device info +++ " (" +++ di_fstype info +++ ")").

(** [for mount_name, disk_info in disk_metrics.items()] (line 200). *)
Fixpoint print_disks (h : Host) (items : list (string * disk_info)) : M unit :=
  match items with
  | [] => ret tt
  | (_, info) :: rest => print_disk h info ;;; print_disks h rest
  end.

(** The rule of sixty [=] signs. *)
Definition rule : string := PyStr.repeat "=" 60.

(** [print_human_readable()] (lines 179-219). *)
Definition print_human_readable (h : Host) : M unit :=
  metrics <- collect_metrics h ;;
  disk_metrics <- get_disk_metrics h ;;
  print h (PyStr.nl +++ rule) ;;;
  timestamp <- getitem metrics "timestamp" ;;
  print h ("System Metrics Report - " +++ py_str timestamp) ;;;
  print h rule ;;;
  print h (PyStr.nl +++ "📊 CPU Usage:") ;;;
  cpu_percent <- getitem metrics "cpu_percent" ;;
  print h ("  Overall: " +++ py_str cpu_percent +++ "%") ;;;
  load1 <- getitem metrics "load_1min" ;;
  load1 <- format_f 2 load1 ;;
  load5 <- getitem metrics "load_5min" ;;
  load5 <- format_f 2 load5 ;;
  load15 <- getitem metrics "load_15min" ;;
  load15 <- format_f 2 load15 ;;
  print h ("  Load Average: " +++ load1 +++ ", " +++ load5 +++ ", " +++ load15) ;;;
  print h (PyStr.nl +++ "🧠 Memory:") ;;;
  memory_used <- getitem metrics "memory_used_gb" ;;
  memory_used <- format_f 1 memory_used ;;
  memory_total <- getitem metrics "memory_total_gb" ;;
  memory_total <- format_f 1 memory_total ;;
  memory_percent <- getitem metrics "memory_percent" ;;
  print h ("  Used: " +++ memory_used +++ " GB / " +++ memory_total +++ " GB ("
           +++ py_str memory_percent +++ "%)") ;;;
  memory_available <- getitem metrics "memory_available_gb" ;;
  memory_available <- format_f 1 memory_available ;;
  print h ("  Available: " +++ memory_available +++ " GB") ;;;
  swap_total <- getitem metrics "swap_total_gb" ;;
  has_swap <- gt_zero swap_total ;;
  (if has_swap : bool then
     swap_used <- getitem metrics "swap_used_gb" ;;
     swap_used <- format_f 1 swap_used ;;
     swap_total <- format_f 1 swap_total ;;
     swap_percent <- getitem metrics "swap_percent" ;;
     print h ("  Swap: " +++ swap_used +++ " GB / " +++ swap_total +++ " GB ("
              +++ py_str swap_percent +++ "%)")
   else ret tt) ;;;
  print h (PyStr.nl +++ "💾 Disk Usage:") ;;;
  print_disks h (ODict.items disk_metrics) ;;;
  print h (PyStr.nl +++ "📈 Disk IO:") ;;;
  disk_read <- getitem metrics "disk_io_read_mb" ;;
  disk_read <- format_f 1 disk_read ;;
  print h ("  Read: " +++ disk_read +++ " MB") ;;;
  disk_write <- getitem metrics "disk_io_write_mb" ;;
  disk_write <- format_f 1 disk_write ;;
  print h ("  Write: " +++ disk_write +++ " MB") ;;;
  print h (PyStr.nl +++ "🌐 Network:") ;;;
  net_sent <- getitem metrics "net_mb_sent" ;;
  net_sent <- format_f 1 net_sent ;;
  print h ("  Sent: " +++ net_sent +++ " MB") ;;;
  net_recv <- getitem metrics "net_mb_recv" ;;
  net_recv <- format_f 1 net_recv ;;
  print h ("  Received: " +++ net_recv +++ " MB") ;;;
  print h (PyStr.nl +++ "🔢 System:") ;;;
  process_count <- getitem metrics "process_count" ;;
  print h ("  Processes: " +++ py_str process_count) ;;;
  disk_count <- getitem metrics "disk_count" ;;
  print h ("  Disks: " +++ py_str disk_count) ;;;
  print h (PyStr.nl +++ rule).

(** ** The command line *)

(** What [args.format] holds: one of the choices, a [str], or the empty list
    that [argparse] leaves there for [--format=--] (with [nargs=None] it
    strips the [--] from the option's arguments and stores what is left,
    unchecked). *)
Inductive format_value : Type :=
| Choice (s : string)
| EmptyList.
Coercion Choice : string >-> format_value.

(** [args.format == s] for a [str] [s]. *)
Definition format_is (f : format_value) (s : string) : bool :=
  match f with
  | Choice t => String.eqb t s
  | EmptyList => false
  end.

(** [args]: the namespace [parse_args] returns. *)
Record args : Type := mk_args { format : format_value; once : bool }.

(** The option strings of the parser (lines 227-231; [-h] and [--help] are
    added by [ArgumentParser] itself) and the [choices] of [--format]. *)
Definition option_strings : list string := ["-h"; "--help"; "--format"; "--once"].
Definition format_choices : list string := ["csv"; "json"; "header"; "human"].

(** What [parser.parse_args()] comes to: a namespace; the help message
    (printed, then [sys.exit(0)]); or an error (usage and message on the
    error stream, then [sys.exit(2)]). *)
Inductive parsed : Type :=
| Parsed (a : args)
| Help
| ArgError.

(** The part of an option token before its first [=], and what follows it. *)
Fixpoint split_eq (tok : string) : string * option string :=
  match tok with
  | EmptyString => (EmptyString, None)
  | String c r =>
    if Ascii.eqb c "=" then (EmptyString, Some r)
    else let '(name, v) := split_eq r in (String c name, v)
  end.

(** What [argparse] takes a token for: an argument (it does not start with a
    dash, so it can be the value of [--format]); an option of the parser,
    under its full name, with the explicit argument written in the token; or
    anything else (a lone dash, a negative number, an option the parser does
    not have: no such token is a choice, so that it is never a value, and
    outside a value it is left over). *)
Inductive token_kind : Type :=
| KArgument
| KOption (name : string) (explicit : option string)
| KOther.

(** [_parse_optional]: the token kind, or [None] when a prefix matches more
    than one option (an error).  A token is an option when it is an option
    string; or when what precedes its [=] is one; or when it starts with two
    dashes and what precedes its [=] is a prefix of exactly one option
    string; or when it starts with [-h]: then the rest is its explicit
    argument. *)
Definition classify (tok : string) : option token_kind :=
  match tok with
  | EmptyString => Some KArgument
  | String c rest =>
    if negb (Ascii.eqb c "-") then Some KArgument
    else if PyStr.in_list tok option_strings then Some (KOption tok None)
    else
      match rest with
      | EmptyString => Some KOther
      | String c' rest' =>
        let '(name, explicit) := split_eq tok in
        if match explicit with Some _ => PyStr.in_list name option_strings | None => false end
        then Some (KOption name explicit)
        else if Ascii.eqb c' "-" then
          match filter (String.prefix name) option_strings with
          | [] => Some KOther
          | [full] => Some (KOption full explicit)
          | _ => None
          end
        else if Ascii.eqb c' "h" then Some (KOption "-h" (Some rest'))
        else Some KOther
      end
  end.

(** The first pass of [_parse_known_args]: every token is classified, up to
    the first [--]; that token and what follows it are no options. *)
Fixpoint classify_all (argv : list string) : option (list (string * token_kind)) :=
  match argv with
  | [] => Some []
  | tok :: rest =>
    if String.eqb tok "--" then Some (map (fun t => (t, KOther)) argv)
    else
      match classify tok with
      | None => None
      | Some k =>
        match classify_all rest with
        | None => None
        | Some ks => Some ((tok, k) :: ks)
        end
      end
  end.

(** The explicit argument of [-h] is read as more one-letter options: it is
    accepted when it is one or more [h]. *)
Fixpoint all_h (s : string) : bool :=
  match s with
  | EmptyString => false
  | String c EmptyString => Ascii.eqb c "h"
  | String c r => Ascii.eqb c "h" && all_h r
  end.

(** The second pass: the options take their actions from left to right, and
    the first error ends the parse.  [--format] takes the explicit argument,
    or else the next token when that is an argument, and checks it against
    [choices]; an explicit [--] is stripped, which leaves the empty list,
    unchecked.  [--once] and the help options take no argument.  The parser
    has no positional argument, so that every other token is left over,
    which is an error at the end ([extras]). *)
Fixpoint consume (toks : list (string * token_kind)) (a : args) (extras : bool)
    : parsed :=
  match toks with
  | [] => if extras then ArgError else Parsed a
  | (tok, k) :: rest =>
    match k with
    | KArgument | KOther => consume rest a true
    | KOption name explicit =>
      if String.eqb name "--format" then
        match explicit with
        | Some v =>
          if String.eqb v "--" then consume rest (mk_args EmptyList (once a)) extras
          else if PyStr.in_list v format_choices
               then consume rest (mk_args v (once a)) extras
               else ArgError
        | None =>
          match rest with
          | (v, KArgument) :: rest' =>
            if PyStr.in_list v format_choices
            then consume rest' (mk_args v (once a)) extras
            else ArgError
          | _ => ArgError
          end
        end
      else if String.eqb name "--once" then
        match explicit with
        | None => consume rest (mk_args (format a) true) extras
        | Some _ => ArgError
        end
      else
        match explicit with
        | None => Help
        | Some e => if String.eqb name "-h" && all_h e then Help else ArgError
        end
    end
  end.

(** [parser.parse_args()] over the tokens after the program name, as
    [argparse] of CPython 3.11 does it for the parser of lines 227-231; the
    defaults are [human] and [False]. *)
Definition parse_args (argv : list string) : parsed :=
  match classify_all argv with
  | None => ArgError
  | Some toks => consume toks (mk_args "human" false) false
  end.

(** The dispatch of lines 236-243. *)
Definition dispatch (h : Host) (a : args) : M unit :=
  if format_is (format a) "header" then print_csv_header h
  else if format_is (format a) "json" then print_json h
  else if format_is (format a) "human" then print_human_readable h
  else print_csv_row h.

(** The body of [try] (lines 236-246) and its handler (lines 248-250), giving
    the status the script asks for: [sys.exit(0)] and the end of the script
    both give 0 ([SystemExit] is no [Exception], so the handler lets it
    through). *)
Definition run (h : Host) (a : args) : M Z :=
  try_except
    (dispatch h a ;;;
     if negb (once a) then ret 0 else ret 0)
    (fun e =>
       print_err ("Error collecting metrics: " +++ exn_msg e) ;;;
       ret 1).

(** The end of the interpreter.  An exception nothing has caught gives a
    traceback and status 1.  Then standard output is flushed: when a line is
    still in its buffer and cannot be written, the failure is reported on the
    error stream and the status is 120, whatever the script asked for. *)
Definition interpreter_exit (m : M Z) : M Z :=
  let '(l, r) := m in
  let '(l, status) :=
    match r with
    | Ok status => (l, status)
    | Raise e => (l ++ [Report (Traceback e)], 1)
    end in
  match pending_of l with
  | [] => (l, Ok status)
  | e :: _ => (l ++ [Report (FlushFailure e)], Ok 120)
  end.

(** The script (lines 226-250), from the command line to the exit status of
    the process.  The help message goes to standard output like a printed
    line, and nothing catches what that write raises. *)
Definition main (h : Host) (argv : list string) : M Z :=
  interpreter_exit
    match parse_args argv with
    | Parsed a => run h a
    | Help => print h (os_argparse_help h) ;;; ret 0
    | ArgError => ([Report UsageError], Ok 2)
    end.

End Presenter.

(** ** Vocabulary of the properties *)

(** The six column names of a mount, in the order of lines 130-137, and the
    values they get from an entry of [disk_metrics]. *)
Definition disk_suffixes : list string :=
  ["_total_gb"; "_used_gb"; "_free_gb"; "_percent"; "_device"; "_fstype"].

Definition disk_key (name suffix : string) : string := "disk_" +++ name +++ suffix.

Definition disk_keys (name : string) : list string := map (disk_key name) disk_suffixes.

Definition disk_values (info : disk_info) : list value :=
  [ VFloat (di_total_gb info); VFloat (di_used_gb info); VFloat (di_free_gb info);
    VFloat (di_percent info); VStr (di_device info); VStr (di_fstype info) ].

Definition disk_columns (name : string) (info : disk_info) : list (string * value) :=
  combine (disk_keys name) (disk_values info).

(** The keys of the dict literal of lines 91-122. *)
Definition fixed_keys : list string :=
  [ "timestamp"; "hostname"; "cpu_percent"; "cpu_count"; "cpu_freq_current";
    "load_1min"; "load_5min"; "load_15min";
    "memory_total_gb"; "memory_available_gb"; "memory_used_gb"; "memory_percent";
    "swap_total_gb"; "swap_used_gb"; "swap_percent";
    "disk_io_read_mb"; "disk_io_write_mb"; "net_mb_sent"; "net_mb_recv";
    "process_count" ].

(** The keys of lines 146-148. *)
Definition total_keys : list string :=
  ["disk_total_all_gb"; "disk_used_all_gb"; "disk_percent_all"].

(** A string backwards, and [s.endswith(suffix)]. *)
Fixpoint srev (s : string) : string :=
  match s with
  | EmptyString => EmptyString
  | String c r => srev r +++ String c EmptyString
  end.

Definition ends_with (suffix s : string) : bool := String.prefix (srev suffix) (srev s).

(** The shape of the column name of a mount: [disk_..._<suffix>]. *)
Definition is_disk_key (k : string) : bool :=
  String.prefix "disk_" k && existsb (fun suffix => ends_with suffix k) disk_suffixes.

(** The entry [get_disk_metrics] makes for a partition, if it makes one: the
    type is not passed over, the usage query answers and the entry is built
    without an exception. *)
Definition entry_of (h : Host) (p : sdiskpart) : option disk_info :=
  if PyStr.in_list (fstype p) special_fstypes then None
  else
    match os_disk_usage h (mountpoint p) with
    | Ok usage =>
      match outcome (disk_entry p usage) with
      | Ok info => Some info
      | Raise _ => None
      end
    | Raise _ => None
    end.

(** What one partition does to [disk_metrics]. *)
Definition record_partition (h : Host) (d : ODict.t disk_info) (p : sdiskpart)
    : ODict.t disk_info :=
  match entry_of h p with
  | Some info => ODict.set (mount_name (mountpoint p)) info d
  | None => d
  end.

(** The sums of line 141 and line 142 over the entries that count. *)
Definition sum_counted (f : disk_info -> Z) (d : ODict.t disk_info) : Z :=
  fold_right Z.add 0
    (map f (filter (fun info => counts_in_totals (di_fstype info)) (ODict.values d))).

(** What [get_disk_metrics] writes on the error stream for an exception of
    the [try] block (lines 52-57). *)
Definition skip_log (p : sdiskpart) (e : exn) : list event :=
  if is_access_error e then []
  else [Stderr ("Error reading " +++ mountpoint p +++ ": " +++ exn_msg e)].

(** The events of one turn of the loop of [get_disk_metrics]. *)
Definition partition_events (h : Host) (p : sdiskpart) : list event :=
  if PyStr.in_list (fstype p) special_fstypes then []
  else
    Query (QDiskUsage (mountpoint p)) ::
    match os_disk_usage h (mountpoint p) with
    | Ok usage =>
      match outcome (disk_entry p usage) with
      | Ok _ => []
      | Raise e => skip_log p e
      end
    | Raise e => skip_log p e
    end.

(** The columns of all the entries of [disk_metrics], in its order. *)
Definition all_disk_columns (d : ODict.t disk_info) : list (string * value) :=
  flat_map (fun item => disk_columns (fst item) (snd item)) d.

(** The three totals of lines 145-148 as a list of columns: empty unless the
    summed size is positive. *)
Definition disk_totals (d : ODict.t disk_info) : M (list (string * value)) :=
  let size := sum_counted di_total_bytes d in
  let used := sum_counted di_used_bytes d in
  if size >? 0 then
    total_all <- round_div size (1024 ^ 3) ;;
    used_all <- round_div used (1024 ^ 3) ;;
    share <- lift (PyFloat.int_truediv used size) ;;
    ret [ ("disk_total_all_gb", VFloat total_all);
          ("disk_used_all_gb", VFloat used_all);
          ("disk_percent_all", VFloat (PyFloat.round2 (PyFloat.mul_int share 100))) ]
  else ret [].

(** The queries of [collect_metrics] before and after its call of
    [get_disk_metrics], when none of them raises. *)
Definition queries_before : list event :=
  [ Query QNow; Query (QCpuPercent false); Query (QCpuPercent true); Query QCpuCount;
    Query QCpuFreq; Query QVirtualMemory; Query QSwapMemory ].

Definition queries_after : list event :=
  [ Query QDiskIoCounters; Query QNetIoCounters; Query QGetLoadAvg; Query QPids;
    Query QGetHostName ].

(** The host [h] with another answer to [psutil.disk_partitions()]. *)
Definition with_partitions (h : Host) (parts : list sdiskpart) : Host :=
  {| os_now_isoformat := os_now_isoformat h;
     os_gethostname := os_gethostname h;
     os_cpu_percent := os_cpu_percent h;
     os_cpu_percent_percpu := os_cpu_percent_percpu h;
     os_cpu_count := os_cpu_count h;
     os_cpu_freq := os_cpu_freq h;
     os_virtual_memory := os_virtual_memory h;
     os_swap_memory := os_swap_memory h;
     os_disk_partitions := Ok parts;
     os_disk_usage := os_disk_usage h;
     os_disk_io_counters := os_disk_io_counters h;
     os_net_io_counters := os_net_io_counters h;
     os_getloadavg := os_getloadavg h;
     os_pids := os_pids h;
     os_stdout_write := os_stdout_write h;
     os_stdout_buffers := os_stdout_buffers h;
     os_argparse_help := os_argparse_help h |}.

(** The number of fields a reader of CSV finds in a line: a comma outside
    double quotes ends a field, a double quote opens or closes a quoted
    stretch. *)
Fixpoint csv_fields_from (in_quotes : bool) (line : string) : nat :=
  match line with
  | EmptyString => 1
  | String c rest =>
    if Ascii.eqb c PyStr.dquote then csv_fields_from (negb in_quotes) rest
    else if Ascii.eqb c "," && negb in_quotes then S (csv_fields_from false rest)
    else csv_fields_from in_quotes rest
  end.

Definition csv_fields (line : string) : nat := csv_fields_from false line.

(** A text with no comma and no double quote in it. *)
Definition plain (s : string) : bool :=
  negb (PyStr.mem "," s) && negb (PyStr.mem PyStr.dquote s).

(** A field that leaves the reader where it was: outside quotes, with no
    field ended. *)
Definition closed_field (c : string) : Prop :=
  forall t, csv_fields_from false (c +++ t) = csv_fields_from false t.

(** ** Hosts for the examples *)

Module Examples.

Definition gib : Z := 1024 ^ 3.

(** The float nearest to [n / d]. *)
Definition dec (n d : positive) : float := PyFloat.ratio false n d.

(** Usage by mount point: 100 GiB of which 40 GiB are used at [/]; other
    sizes under [/mnt]; [/gone] has vanished, [/locked] is not readable and
    [/bad] fails with an input/output error. *)
Definition usage_of (path : string) : res sdiskusage :=
  if String.eqb path "/gone" then
    Raise (mk_exn FileNotFoundError "[Errno 2] No such file or directory: '/gone'")
  else if String.eqb path "/locked" then
    Raise (mk_exn PermissionError "[Errno 13] Permission denied: '/locked'")
  else if String.eqb path "/bad" then
    Raise (mk_exn OSError "[Errno 5] Input/output error: '/bad'")
  else if String.eqb path "/mnt/a.b" then
    Ok (mk_usage (10 * gib) (5 * gib) (5 * gib) (dec 50 1))
  else if String.eqb path "/mnt/a/b" then
    Ok (mk_usage (20 * gib) (5 * gib) (15 * gib) (dec 25 1))
  else if String.eqb path "/data" then
    Ok (mk_usage 123456789012 100000000000 23456789012 (dec 81 1))
  else
    Ok (mk_usage (100 * gib) (40 * gib) (60 * gib) (dec 40 1)).

(** The help message of the parser at the usual width, for the program name
    [run.py]. *)
Definition help_message : string :=
  "usage: run.py [-h] [--format {csv,json,header,human}] [--once]" +++ PyStr.nl
  +++ PyStr.nl
  +++ "System Metrics Collector" +++ PyStr.nl
  +++ PyStr.nl
  +++ "options:" +++ PyStr.nl
  +++ "  -h, --help            show this help message and exit" +++ PyStr.nl
  +++ "  --format {csv,json,header,human}" +++ PyStr.nl
  +++ "                        Output format" +++ PyStr.nl
  +++ "  --once                Collect once and exit".

(** The scenario of the specification but for the partitions: load averages
    0.50, 0.75 and 1.00, 16 GiB of memory of which 8 GiB are used, no swap. *)
Definition host (parts : list sdiskpart) : Host :=
  {| os_now_isoformat := "2024-05-17T10:30:00.123456";
     os_gethostname := Ok "box";
     os_cpu_percent := Ok (dec 25 2);
     os_cpu_percent_percpu := Ok [dec 10 1; dec 15 1];
     os_cpu_count := Ok (Some 2);
     os_cpu_freq := Ok (Some (dec 2400 1));
     os_virtual_memory := Ok (mk_vmem (16 * gib) (8 * gib) (8 * gib) (dec 50 1));
     os_swap_memory := Ok (mk_swap 0 0 (PyFloat.of_Z 0));
     os_disk_partitions := Ok parts;
     os_disk_usage := usage_of;
     os_disk_io_counters := Ok (Some (mk_diskio (3 * 1024 ^ 2) (1024 ^ 2)));
     os_net_io_counters := Ok (Some (mk_netio (1024 ^ 2) (2 * 1024 ^ 2)));
     os_getloadavg := Ok (dec 1 2, dec 3 4, dec 1 1);
     os_pids := Ok [1; 2; 3];
     os_stdout_write := fun _ => Ok tt;
     os_stdout_buffers := fun _ => false;
     os_argparse_help := help_message |}.

Definition root_part : sdiskpart := mk_part "/dev/sda1" "/" "ext4".
Definition tmpfs_part : sdiskpart := mk_part "tmpfs" "/run" "tmpfs".

(** The scenario of the specification: one ext4 file system, mounted at [/]. *)
Definition root_host : Host := host [root_part].

(** The snapshot of a host whose collection succeeds (empty otherwise). *)
Definition snapshot (h : Host) : ODict.t value :=
  match outcome (collect_metrics h) with
  | Ok m => m
  | Raise _ => []
  end.

(** Two mount points with one sanitized name, and a file system of 10 GiB. *)
Definition dot_part : sdiskpart := mk_part "/dev/sdb1" "/mnt/a.b" "ext4".
Definition slash_part : sdiskpart := mk_part "/dev/sdc1" "/mnt/a/b" "ext4".

(** A rootless container store: its type contains the word [overlay] and is
    none of the special types. *)
Definition overlayfs_part : sdiskpart :=
  mk_part "fuse-overlayfs" "/var/lib/containers" "fuse.overlayfs".






(** A mount point with a comma in its name. *)
Definition comma_part : sdiskpart := mk_part "/dev/sdd1" "/mnt/a,b" "ext4".

(** A stand-in for [repr] of a float and for [json.dumps] in the examples:
    two decimals, and the keys of the snapshot. *)
Definition repr2 (x : float) : string := PyFloat.format_fixed 2 x.
Definition dumps_keys (d : ODict.t value) : string :=
  "{" +++ PyStr.join ", " (ODict.keys d) +++ "}".

End Examples.

(** A character with the path separator and the dot turned into an
    underscore, and a function applied to every character of a string. *)
Definition underscored (c : ascii) : ascii :=
  if Ascii.eqb c "/" || Ascii.eqb c "." then "_"%char else c.

Fixpoint map_chars (f : ascii -> ascii) (s : string) : string :=
  match s with
  | EmptyString => EmptyString
  | String c r => String (f c) (map_chars f r)
  end.

(** Does the partition make an entry of [disk_metrics]? *)
Definition makes_entry (h : Host) (p : sdiskpart) : bool :=
  match entry_of h p with
  | Some _ => true
  | None => false
  end.

(** The names under which the partitions make entries, each once. *)
Definition entry_names (h : Host) (parts : list sdiskpart) : list string :=
  nodup string_dec (map (fun p => mount_name (mountpoint p)) (filter (makes_entry h) parts)).

(** A computation all of whose events satisfy [P]. *)
Definition emits_only (P : event -> Prop) {A : Type} (m : M A) : Prop :=
  Forall P (events m).

(** The events that are not a line on standard output, and those that are
    not a query. *)
Definition not_stdout (ev : event) : Prop :=
  match ev with Stdout _ => False | _ => True end.
Definition not_query (ev : event) : Prop :=
  match ev with Query _ => False | _ => True end.

(** The events that are not a line waiting in the buffer of standard
    output. *)
Definition not_pending (ev : event) : Prop :=
  match ev with Pending _ _ => False | _ => True end.



(** A format the parser can hand to the dispatch: one of the four choices, or
    the empty list. *)
Definition parsed_format (f : format_value) : Prop :=
  match f with
  | Choice s => In s format_choices
  | EmptyList => True
  end.

(** Are the strings of a list pairwise different? *)
Fixpoint distinct (l : list string) : bool :=
  match l with
  | [] => true
  | x :: r => negb (PyStr.in_list x r) && distinct r
  end.

(** ** Vocabulary of the further properties *)

(** The strings of [l] that are not in [seen], in the order of their first
    occurrence and each once. *)
Fixpoint first_occurrences (seen l : list string) : list string :=
  match l with
  | [] => []
  | x :: r =>
    if PyStr.in_list x seen then first_occurrences seen r
    else x :: first_occurrences (x :: seen) r
  end.

(** The names under which the partitions make entries, in the order in which
    each name is first met. *)
Definition first_names (h : Host) (parts : list sdiskpart) : list string :=
  first_occurrences []
    (map (fun p => mount_name (mountpoint p)) (filter (makes_entry h) parts)).


(** The queries of a collection that nothing stops, in order. *)
Definition collection_queries (h : Host) : list os_call :=
  [ QNow; QCpuPercent false; QCpuPercent true; QCpuCount; QCpuFreq; QVirtualMemory;
    QSwapMemory ]
    ++ queries_of (events (get_disk_metrics h))
    ++ [ QDiskIoCounters; QNetIoCounters; QGetLoadAvg; QPids; QGetHostName ].



(** The types of the values of a snapshot. *)
Inductive vtype : Type := TNone | TInt | TFloat | TStr.

Definition type_of (v : value) : vtype :=
  match v with
  | VNone => TNone
  | VInt _ => TInt
  | VFloat _ => TFloat
  | VStr _ => TStr
  end.

(** The types the value of a key can have: what lines 91-122 and 130-151 put
    under it. *)
Definition column_types (k : string) : list vtype :=
  if is_disk_key k then
    if ends_with "_device" k || ends_with "_fstype" k then [TStr] else [TFloat]
  else if PyStr.in_list k ["timestamp"; "hostname"] then [TStr]
  else if String.eqb k "cpu_count" then [TInt; TNone]
  else if String.eqb k "cpu_freq_current" then [TFloat; TNone]
  else if PyStr.in_list k ["swap_total_gb"; "swap_used_gb"; "swap_percent"]
       then [TFloat; TInt]
  else if PyStr.in_list k ["process_count"; "disk_count"] then [TInt]
  else [TFloat].

(** A computation that prints [n] lines on standard output, does nothing
    else and returns [a]. *)
Definition prints {A : Type} (n : nat) (m : M A) (a : A) : Prop :=
  exists lines, m = (map Stdout lines, Ok a) /\ List.length lines = n.

(** The number of swap lines of the report: one when the [swap_total_gb] of
    the snapshot is positive (line 196). *)
Definition swap_lines (metrics : ODict.t value) : nat :=
  match ODict.get "swap_total_gb" metrics with
  | Some (VInt n) => if n >? 0 then 1 else 0
  | Some (VFloat x) => if SFltb (S754_zero false) x then 1 else 0
  | _ => 0
  end.



(** * Properties *)

(** ** Computations *)

Lemma bind_ok_inv {A B : Type} (m : M A) (f : A -> M B) (l : list event) (b : B) :
  bind m f = (l, Ok b) ->
  exists l1 a l2, m = (l1, Ok a) /\ f a = (l2, Ok b) /\ l = l1 ++ l2.
Proof.
  unfold bind. destruct m as [l1 [a | e]]; [ | discriminate ].
  destruct (f a) as [l2 r] eqn:Hf. intros H. inversion H; subst.
  exists l1, a, l2. auto.
Qed.

Lemma bind_events {A B : Type} (m : M A) (f : A -> M B) :
  events (bind m f) =
  events m ++ match outcome m with Ok a => events (f a) | Raise _ => [] end.
Proof.
  destruct m as [l [a | e]]; simpl.
  - destruct (f a); reflexivity.
  - now rewrite app_nil_r.
Qed.


Lemma query_ok_inv {A : Type} (q : os_call) (r : res A) (l : list event) (a : A) :
  query q r = (l, Ok a) -> r = Ok a /\ l = [Query q].
Proof. unfold query. intros H. inversion H. auto. Qed.

Lemma lift_ok_inv {A : Type} (r : res A) (l : list event) (a : A) :
  lift r = (l, Ok a) -> r = Ok a /\ l = [].
Proof. unfold lift. intros H. inversion H. auto. Qed.

Lemma ret_ok_inv {A : Type} (x : A) (l : list event) (a : A) :
  ret x = (l, Ok a) -> a = x /\ l = [].
Proof. unfold ret. intros H. inversion H. auto. Qed.

Lemma round_div_ok_inv (n d : Z) (l : list event) (x : float) :
  round_div n d = (l, Ok x) ->
  exists y, PyFloat.int_truediv n d = Ok y /\ x = PyFloat.round2 y /\ l = [].
Proof.
  unfold round_div, lift, ret, bind.
  destruct (PyFloat.int_truediv n d) as [y | e]; [ | discriminate ].
  intros H. inversion H. eauto.
Qed.

Lemma round_div_events (n d : Z) : events (round_div n d) = [].
Proof.
  unfold round_div, lift, ret, bind.
  now destruct (PyFloat.int_truediv n d).
Qed.

Lemma surjective_M {A : Type} (m : M A) : m = (events m, outcome m).
Proof. now destruct m. Qed.

(** ** Dictionaries *)

Module ODictFacts.
Import ODict.

Section Facts.
Context {V : Type}.
Implicit Types (d : t V) (k : string) (v : V).

Lemma get_set_same k v d : get k (set k v d) = Some v.
Proof.
  induction d as [ | [k' v'] r IH]; simpl.
  - now rewrite String.eqb_refl.
  - destruct (String.eqb k' k) eqn:E; simpl; rewrite E; auto.
Qed.

Lemma get_set_other k k' v d : k <> k' -> get k' (set k v d) = get k' d.
Proof.
  intros Hne. induction d as [ | [k0 v0] r IH]; simpl.
  - apply String.eqb_neq in Hne. now rewrite Hne.
  - destruct (String.eqb k0 k) eqn:E; simpl.
    + apply String.eqb_eq in E. subst k0.
      apply String.eqb_neq in Hne. now rewrite Hne.
    + now rewrite IH.
Qed.

Lemma get_none_notin k d : get k d = None <-> ~ In k (keys d).
Proof.
  induction d as [ | [k' v'] r IH]; simpl.
  - tauto.
  - destruct (String.eqb k' k) eqn:E.
    + apply String.eqb_eq in E. split; [ discriminate | tauto ].
    + apply String.eqb_neq in E. rewrite IH. tauto.
Qed.

Lemma get_some_in k v d : get k d = Some v -> In (k, v) d.
Proof.
  induction d as [ | [k' v'] r IH]; simpl; [ discriminate | ].
  destruct (String.eqb k' k) eqn:E.
  - apply String.eqb_eq in E. intros H. inversion H. subst. auto.
  - auto.
Qed.

Lemma set_fresh k v d : get k d = None -> set k v d = d ++ [(k, v)].
Proof.
  induction d as [ | [k' v'] r IH]; simpl; [ reflexivity | ].
  destruct (String.eqb k' k); [ discriminate | ].
  intros H. now rewrite IH.
Qed.

Lemma keys_set_present k v d : In k (keys d) -> keys (set k v d) = keys d.
Proof.
  induction d as [ | [k' v'] r IH]; simpl; [ tauto | ].
  destruct (String.eqb k' k) eqn:E; simpl; [ reflexivity | ].
  apply String.eqb_neq in E. intros [H | H]; [ contradiction | ].
  now rewrite IH.
Qed.

Lemma length_set_present k v d : In k (keys d) -> List.length (set k v d) = List.length d.
Proof.
  intros H. apply keys_set_present with (v := v) in H.
  unfold keys in H. apply (f_equal (@List.length _)) in H.
  now rewrite !length_map in H.
Qed.

Lemma keys_app d1 d2 : keys (d1 ++ d2) = keys d1 ++ keys d2.
Proof. apply map_app. Qed.

Lemma get_app k d1 d2 :
  get k (d1 ++ d2) = match get k d1 with Some v => Some v | None => get k d2 end.
Proof.
  induction d1 as [ | [k' v'] r IH]; simpl; [ reflexivity | ].
  now destruct (String.eqb k' k).
Qed.

Lemma in_keys_set k k' v d : In k' (keys (set k v d)) <-> k' = k \/ In k' (keys d).
Proof.
  induction d as [ | [k0 v0] r IH]; simpl.
  - intuition.
  - destruct (String.eqb k0 k) eqn:E; simpl.
    + apply String.eqb_eq in E. subst. intuition.
    + rewrite IH. intuition.
Qed.

Lemma NoDup_keys_set k v d : NoDup (keys d) -> NoDup (keys (set k v d)).
Proof.
  intros Hnd. destruct (get k d) eqn:E.
  - rewrite keys_set_present; auto.
    destruct (in_dec string_dec k (keys d)) as [Hin | Hin]; auto.
    apply get_none_notin in Hin. congruence.
  - rewrite set_fresh by assumption. rewrite keys_app. simpl.
    apply get_none_notin in E.
    apply NoDup_app; [ assumption | repeat constructor; auto | ].
    intros x Hx [Hy | []]. subst. contradiction.
Qed.

End Facts.
End ODictFacts.

(** ** Strings and column names *)

Lemma append_nil_r (s : string) : s +++ "" = s.
Proof. induction s; simpl; congruence. Qed.

Lemma append_assoc (a b c : string) : (a +++ b) +++ c = a +++ (b +++ c).
Proof. induction a; simpl; congruence. Qed.

Lemma srev_append (a b : string) : srev (a +++ b) = srev b +++ srev a.
Proof.
  induction a as [ | c a IH]; simpl.
  - now rewrite append_nil_r.
  - now rewrite IH, append_assoc.
Qed.

Lemma srev_involutive (s : string) : srev (srev s) = s.
Proof.
  induction s as [ | c s IH]; simpl; [ reflexivity | ].
  rewrite srev_append. simpl. now rewrite IH.
Qed.

Lemma srev_inj (a b : string) : srev a = srev b -> a = b.
Proof.
  intros H. rewrite <- (srev_involutive a), <- (srev_involutive b). now rewrite H.
Qed.

Lemma prefix_append (a b : string) : String.prefix a (a +++ b) = true.
Proof.
  induction a as [ | c a IH]; simpl.
  - now destruct b.
  - destruct (ascii_dec c c); [ assumption | contradiction ].
Qed.

Lemma ends_with_append (a suffix : string) : ends_with suffix (a +++ suffix) = true.
Proof. unfold ends_with. rewrite srev_append. apply prefix_append. Qed.

Lemma is_disk_key_disk_key (name suffix : string) :
  In suffix disk_suffixes -> is_disk_key (disk_key name suffix) = true.
Proof.
  intros Hin. unfold is_disk_key, disk_key.
  rewrite prefix_append, Bool.andb_true_l.
  apply existsb_exists. exists suffix. split; [ assumption | ].
  rewrite <- append_assoc. apply ends_with_append.
Qed.

Lemma is_disk_key_fixed (k : string) :
  In k (fixed_keys ++ total_keys ++ ["disk_count"]) -> is_disk_key k = false.
Proof.
  simpl. intros H.
  repeat (destruct H as [<- | H]; [ reflexivity | ]). contradiction.
Qed.

Lemma disk_key_inj (a b s1 s2 : string) :
  In s1 disk_suffixes -> In s2 disk_suffixes ->
  disk_key a s1 = disk_key b s2 -> a = b /\ s1 = s2.
Proof.
  unfold disk_key. intros H1 H2 H. simpl in H.
  injection H as H. apply (f_equal srev) in H. rewrite !srev_append in H.
  simpl in H1, H2.
  repeat (destruct H1 as [<- | H1]; [ | ]); try contradiction;
    repeat (destruct H2 as [<- | H2]; [ | ]); try contradiction;
    simpl in H; try discriminate;
    injection H as H; apply srev_inj in H; auto.
Qed.

Lemma NoDup_map_on {A B : Type} (f : A -> B) (l : list A) :
  (forall x y, In x l -> In y l -> f x = f y -> x = y) ->
  NoDup l -> NoDup (map f l).
Proof.
  intros Hinj Hnd. induction Hnd as [ | x l Hx Hnd IH]; simpl; constructor.
  - rewrite in_map_iff. intros [y [Hy Hin]].
    apply Hinj in Hy; simpl; auto. subst. contradiction.
  - apply IH. intros a b Ha Hb. apply Hinj; simpl; auto.
Qed.

Lemma NoDup_disk_keys (name : string) : NoDup (disk_keys name).
Proof.
  unfold disk_keys. apply NoDup_map_on.
  - intros s1 s2 H1 H2 H. now apply disk_key_inj in H.
  - repeat constructor; simpl; intuition discriminate.
Qed.

Lemma in_disk_keys (k name : string) :
  In k (disk_keys name) <-> exists suffix, In suffix disk_suffixes /\ k = disk_key name suffix.
Proof.
  unfold disk_keys. rewrite in_map_iff. split; intros [s [H1 H2]]; exists s; auto.
Qed.

Lemma disk_keys_disjoint (a b k : string) :
  In k (disk_keys a) -> In k (disk_keys b) -> a = b.
Proof.
  rewrite !in_disk_keys. intros [s1 [H1 ->]] [s2 [H2 H]].
  now apply disk_key_inj in H.
Qed.

Lemma is_disk_key_in_disk_keys (k name : string) :
  In k (disk_keys name) -> is_disk_key k = true.
Proof.
  rewrite in_disk_keys. intros [s [H ->]]. now apply is_disk_key_disk_key.
Qed.

(** ** The disk scan *)

Lemma disk_entry_events (p : sdiskpart) (u : sdiskusage) : events (disk_entry p u) = [].
Proof.
  unfold disk_entry.
  repeat (rewrite bind_events, round_div_events; simpl;
          destruct (outcome (round_div _ _)); [ | reflexivity ]).
  reflexivity.
Qed.

Lemma record_partition_special (h : Host) (p : sdiskpart) (d : ODict.t disk_info) :
  PyStr.in_list (fstype p) special_fstypes = true ->
  partition_events h p = [] /\ record_partition h d p = d.
Proof.
  intros E. unfold partition_events, record_partition, entry_of. now rewrite E.
Qed.

Lemma scan_step (h : Host) (p : sdiskpart) (d : ODict.t disk_info) :
  PyStr.in_list (fstype p) special_fstypes = false ->
  try_except
    (usage <- query (QDiskUsage (mountpoint p)) (os_disk_usage h (mountpoint p)) ;;
     info <- disk_entry p usage ;;
     ret (ODict.set (mount_name (mountpoint p)) info d))
    (fun e =>
       if is_access_error e then ret d
       else
         print_err ("Error reading " +++ mountpoint p +++ ": " +++ exn_msg e) ;;;
         ret d) =
  (partition_events h p, Ok (record_partition h d p)).
Proof.
  intros E. unfold partition_events, record_partition, entry_of. rewrite E.
  unfold query, try_except, bind, ret.
  destruct (os_disk_usage h (mountpoint p)) as [u | e].
  - pose proof (disk_entry_events p u) as Hev.
    destruct (disk_entry p u) as [l [info | e]]; cbn [events fst] in Hev; subst l;
      cbn [outcome snd app].
    + reflexivity.
    + unfold skip_log, print_err. now destruct (is_access_error e).
  - unfold skip_log, print_err. now destruct (is_access_error e).
Qed.

Lemma scan_partitions_eq (h : Host) (parts : list sdiskpart) (d : ODict.t disk_info) :
  scan_partitions h parts d =
  (flat_map (partition_events h) parts, Ok (fold_left (record_partition h) parts d)).
Proof.
  revert d. induction parts as [ | p rest IH]; intros d; [ reflexivity | ].
  cbn [scan_partitions flat_map fold_left].
  destruct (PyStr.in_list (fstype p) special_fstypes) eqn:E.
  - destruct (record_partition_special h p d E) as [-> ->]. apply IH.
  - rewrite (scan_step h p d E). unfold bind. now rewrite IH.
Qed.

Lemma get_disk_metrics_eq (h : Host) :
  get_disk_metrics h =
  match os_disk_partitions h with
  | Ok parts =>
    (Query QDiskPartitions :: flat_map (partition_events h) parts,
     Ok (fold_left (record_partition h) parts []))
  | Raise e => ([Query QDiskPartitions], Raise e)
  end.
Proof.
  unfold get_disk_metrics, query. simpl.
  destruct (os_disk_partitions h) as [parts | e]; [ | reflexivity ].
  now rewrite scan_partitions_eq.
Qed.

Lemma NoDup_keys_scan (h : Host) (parts : list sdiskpart) (d : ODict.t disk_info) :
  NoDup (ODict.keys d) -> NoDup (ODict.keys (fold_left (record_partition h) parts d)).
Proof.
  revert d. induction parts as [ | p rest IH]; intros d Hd; simpl; [ assumption | ].
  apply IH. unfold record_partition.
  destruct (entry_of h p); [ now apply ODictFacts.NoDup_keys_set | assumption ].
Qed.

(** The entry of a name is that of the last partition that makes one under
    that name. *)
Lemma get_scan_last (h : Host) (l1 l2 : list sdiskpart) (p : sdiskpart)
    (info : disk_info) (d : ODict.t disk_info) :
  entry_of h p = Some info ->
  (forall q, In q l2 -> entry_of h q <> None ->
             mount_name (mountpoint q) <> mount_name (mountpoint p)) ->
  ODict.get (mount_name (mountpoint p))
            (fold_left (record_partition h) (l1 ++ p :: l2) d) = Some info.
Proof.
  intros Hp Hl2. rewrite fold_left_app. simpl.
  set (d1 := fold_left (record_partition h) l1 d). clearbody d1.
  assert (Hget : ODict.get (mount_name (mountpoint p)) (record_partition h d1 p) = Some info).
  { unfold record_partition. rewrite Hp. apply ODictFacts.get_set_same. }
  revert Hget. generalize (record_partition h d1 p). clear d1.
  induction l2 as [ | q l2 IH]; intros d2 Hget; simpl; [ assumption | ].
  apply IH.
  - intros q' Hq'. apply Hl2. now right.
  - unfold record_partition. destruct (entry_of h q) eqn:Eq; [ | assumption ].
    rewrite ODictFacts.get_set_other; [ assumption | ].
    apply Hl2; [ now left | congruence ].
Qed.

(** The names in [disk_metrics] are those of the partitions that make an
    entry. *)
Lemma in_keys_scan (h : Host) (parts : list sdiskpart) (d : ODict.t disk_info) (n : string) :
  In n (ODict.keys (fold_left (record_partition h) parts d)) <->
  In n (ODict.keys d) \/
  exists p, In p parts /\ entry_of h p <> None /\ mount_name (mountpoint p) = n.
Proof.
  revert d. induction parts as [ | p rest IH]; intros d; simpl.
  - split; [ auto | intros [H | [p [[] _]]]; assumption ].
  - rewrite IH. unfold record_partition. destruct (entry_of h p) eqn:Ep.
    + rewrite ODictFacts.in_keys_set. split.
      * intros [[-> | H] | [q [Hq [Hq1 Hq2]]]]; auto.
        -- right. exists p. rewrite Ep. repeat split; auto. discriminate.
        -- right. exists q. auto.
      * intros [H | [q [[<- | Hq] [Hq1 Hq2]]]]; auto.
        right. exists q. auto.
    + split.
      * intros [H | [q [Hq [Hq1 Hq2]]]]; auto. right. exists q. auto.
      * intros [H | [q [[<- | Hq] [Hq1 Hq2]]]]; auto.
        -- contradiction.
        -- right. exists q. auto.
Qed.

(** ** The columns of the disks *)

Lemma set_columns_fresh {V : Type} (cols : list (string * V)) (d : ODict.t V) :
  NoDup (map fst cols) ->
  (forall k, In k (map fst cols) -> ODict.get k d = None) ->
  fold_left (fun d kv => ODict.set (fst kv) (snd kv) d) cols d = d ++ cols.
Proof.
  revert d. induction cols as [ | [k v] cols IH]; intros d Hnd Hfresh; simpl.
  - now rewrite app_nil_r.
  - inversion Hnd as [ | k' l' Hk Hnd']; subst.
    rewrite ODictFacts.set_fresh by (apply Hfresh; now left).
    rewrite IH; [ now rewrite <- app_assoc | assumption | ].
    intros k' Hk'. rewrite ODictFacts.get_app, Hfresh by now right.
    simpl. destruct (String.eqb k k') eqn:E; [ | reflexivity ].
    apply String.eqb_eq in E. subst. contradiction.
Qed.

Lemma keys_disk_columns (name : string) (info : disk_info) :
  ODict.keys (disk_columns name info) = disk_keys name.
Proof. reflexivity. Qed.

Lemma add_disk_columns_fresh (name : string) (info : disk_info) (d : ODict.t value) :
  (forall k, In k (disk_keys name) -> ODict.get k d = None) ->
  add_disk_columns name info d = d ++ disk_columns name info.
Proof.
  intros Hfresh.
  change (add_disk_columns name info d)
    with (fold_left (fun d kv => ODict.set (fst kv) (snd kv) d) (disk_columns name info) d).
  apply set_columns_fresh.
  - apply NoDup_disk_keys.
  - exact Hfresh.
Qed.

Lemma keys_all_disk_columns (d : ODict.t disk_info) :
  ODict.keys (all_disk_columns d) = flat_map disk_keys (ODict.keys d).
Proof.
  induction d as [ | [n info] d IH]; [ reflexivity | ].
  unfold all_disk_columns in *. cbn [flat_map ODict.keys map fst snd] in *.
  rewrite map_app. unfold ODict.keys in IH. now rewrite IH.
Qed.

Lemma in_keys_all_disk_columns (d : ODict.t disk_info) (k : string) :
  In k (ODict.keys (all_disk_columns d)) <->
  exists n, In n (ODict.keys d) /\ In k (disk_keys n).
Proof. rewrite keys_all_disk_columns. apply in_flat_map. Qed.

Lemma is_disk_key_all_disk_columns (d : ODict.t disk_info) (k : string) :
  In k (ODict.keys (all_disk_columns d)) -> is_disk_key k = true.
Proof.
  rewrite in_keys_all_disk_columns. intros [n [_ H]].
  now apply is_disk_key_in_disk_keys in H.
Qed.

Lemma sum_counted_cons (f : disk_info -> Z) (n : string) (info : disk_info)
    (d : ODict.t disk_info) :
  sum_counted f ((n, info) :: d) =
  (if counts_in_totals (di_fstype info) then f info else 0) + sum_counted f d.
Proof.
  unfold sum_counted, ODict.values. cbn [map snd filter].
  destruct (counts_in_totals (di_fstype info)); cbn [map fold_right]; lia.
Qed.

Lemma fold_disk_step (items : ODict.t disk_info) (acc : disk_acc) :
  NoDup (ODict.keys items) ->
  (forall n k, In n (ODict.keys items) -> In k (disk_keys n) ->
               ODict.get k (acc_metrics acc) = None) ->
  fold_left disk_step items acc =
  mk_acc (acc_metrics acc ++ all_disk_columns items)
         (total_disk_used acc + sum_counted di_used_bytes items)
         (total_disk_size acc + sum_counted di_total_bytes items).
Proof.
  revert acc. induction items as [ | [n info] items IH]; intros acc Hnd Hfresh.
  - cbn [fold_left all_disk_columns flat_map]. unfold sum_counted. simpl.
    rewrite app_nil_r, !Z.add_0_r. now destruct acc.
  - cbn [fold_left]. cbn [ODict.keys map fst] in Hnd, Hfresh.
    inversion Hnd as [ | n' l' Hn Hnd']; subst.
    assert (Hstep : acc_metrics (disk_step acc (n, info)) =
                    acc_metrics acc ++ disk_columns n info).
    { unfold disk_step.
      rewrite add_disk_columns_fresh by (intros k Hk; apply (Hfresh n); simpl; auto).
      now destruct (counts_in_totals (di_fstype info)). }
    rewrite IH; [ | assumption | ].
    + rewrite Hstep, !sum_counted_cons. unfold all_disk_columns.
      cbn [flat_map fst snd]. rewrite <- app_assoc.
      unfold disk_step.
      destruct (counts_in_totals (di_fstype info)); cbn [total_disk_used total_disk_size];
        f_equal; lia.
    + intros n' k Hn' Hk. rewrite Hstep, ODictFacts.get_app.
      rewrite (Hfresh n' k) by (simpl; auto).
      apply ODictFacts.get_none_notin. rewrite keys_disk_columns. intros Hk'.
      assert (n' = n) by (eapply disk_keys_disjoint; eassumption).
      subst. contradiction.
Qed.

(** The snapshot is the fixed columns, the columns of the disks, the totals
    and [disk_count], in this order. *)
Lemma add_disk_metrics_ok (fixed : ODict.t value) (dm : ODict.t disk_info)
    (l : list event) (m : ODict.t value) :
  NoDup (ODict.keys dm) ->
  (forall k, In k (ODict.keys fixed) -> is_disk_key k = false) ->
  (forall k, In k (total_keys ++ ["disk_count"]) -> ~ In k (ODict.keys fixed)) ->
  add_disk_metrics fixed dm = (l, Ok m) ->
  exists totals,
    disk_totals dm = ([], Ok totals) /\
    m = fixed ++ all_disk_columns dm ++ totals ++ [("disk_count", VInt (ODict.len dm))] /\
    l = [].
Proof.
  intros Hnd Hfixed Hnew. unfold add_disk_metrics, ODict.items.
  rewrite fold_disk_step; [ | assumption | ].
  2:{ intros n k Hn Hk. cbn [acc_metrics]. apply ODictFacts.get_none_notin.
      intros Hin. apply Hfixed in Hin.
      apply is_disk_key_in_disk_keys in Hk. congruence. }
  cbn [acc_metrics total_disk_used total_disk_size]. rewrite !Z.add_0_l.
  assert (Hfresh : forall k rest,
             In k (total_keys ++ ["disk_count"]) ->
             ~ In k (ODict.keys rest) ->
             ODict.get k ((fixed ++ all_disk_columns dm) ++ rest) = None).
  { intros k rest Hk Hrest. apply ODictFacts.get_none_notin.
    rewrite !ODictFacts.keys_app, !in_app_iff. intros [[H | H] | H].
    - now apply Hnew in Hk.
    - apply is_disk_key_all_disk_columns in H.
      rewrite is_disk_key_fixed in H by (rewrite in_app_iff; auto). discriminate.
    - contradiction. }
  unfold disk_totals.
  destruct (sum_counted di_total_bytes dm >? 0).
  - intros H.
    apply bind_ok_inv in H. destruct H as (l1 & m1 & l2 & H1 & H2 & ->).
    apply ret_ok_inv in H2. destruct H2 as [-> ->].
    apply bind_ok_inv in H1. destruct H1 as (l3 & x & l4 & Hx & H1 & ->).
    apply bind_ok_inv in H1. destruct H1 as (l5 & y & l6 & Hy & H1 & ->).
    apply bind_ok_inv in H1. destruct H1 as (l7 & z & l8 & Hz & H1 & ->).
    apply ret_ok_inv in H1. destruct H1 as [-> ->].
    pose proof Hx as Hx'. pose proof Hy as Hy'.
    apply round_div_ok_inv in Hx'. destruct Hx' as (x' & _ & _ & ->).
    apply round_div_ok_inv in Hy'. destruct Hy' as (y' & _ & _ & ->).
    pose proof Hz as Hz'. apply lift_ok_inv in Hz'. destruct Hz' as [Hz' ->].
    rewrite Hx, Hy. unfold lift in *. rewrite Hz'. cbn [bind ret app].
    eexists. split; [ reflexivity | ]. split; [ | reflexivity ].
    rewrite <- (app_nil_r (fixed ++ all_disk_columns dm)) at 1.
    rewrite (ODictFacts.set_fresh "disk_total_all_gb")
      by (apply Hfresh; simpl; intuition discriminate).
    rewrite app_nil_r.
    rewrite (ODictFacts.set_fresh "disk_used_all_gb")
      by (apply Hfresh; simpl; intuition discriminate).
    rewrite <- app_assoc.
    rewrite (ODictFacts.set_fresh "disk_percent_all")
      by (apply Hfresh; simpl; intuition discriminate).
    rewrite <- app_assoc.
    rewrite (ODictFacts.set_fresh "disk_count")
      by (apply Hfresh; simpl; intuition discriminate).
    now rewrite <- !app_assoc.
  - intros H.
    apply bind_ok_inv in H. destruct H as (l1 & m1 & l2 & H1 & H2 & ->).
    apply ret_ok_inv in H2. destruct H2 as [-> ->].
    apply ret_ok_inv in H1. destruct H1 as [-> ->].
    exists []. split; [ reflexivity | ]. split; [ | reflexivity ].
    rewrite <- (app_nil_r (fixed ++ all_disk_columns dm)) at 1.
    rewrite (ODictFacts.set_fresh "disk_count")
      by (apply Hfresh; simpl; intuition discriminate).
    now rewrite app_nil_r, <- !app_assoc.
Qed.

(** ** The snapshot *)

Ltac inv_bind H :=
  let l1 := fresh "l" in
  let a := fresh "a" in
  let l2 := fresh "l" in
  let Hq := fresh "Hq" in
  apply bind_ok_inv in H; destruct H as (l1 & a & l2 & Hq & H & ->).

Lemma get_disk_metrics_ok_inv (h : Host) (l : list event) (dm : ODict.t disk_info) :
  get_disk_metrics h = (l, Ok dm) ->
  exists parts,
    os_disk_partitions h = Ok parts /\
    dm = fold_left (record_partition h) parts [] /\
    l = Query QDiskPartitions :: flat_map (partition_events h) parts.
Proof.
  rewrite get_disk_metrics_eq. destruct (os_disk_partitions h) as [parts | e].
  - intros H. inversion H. eauto.
  - discriminate.
Qed.

Lemma swap_gb_zero (n : Z) (l : list event) (v : value) :
  swap_gb 0 n = (l, Ok v) -> v = VInt 0.
Proof. unfold swap_gb. simpl. intros H. now inversion H. Qed.

Lemma swap_gb_events (total n : Z) : events (swap_gb total n) = [].
Proof.
  unfold swap_gb. destruct (total >? 0); [ | reflexivity ].
  rewrite bind_events, round_div_events. now destruct (outcome (round_div _ _)).
Qed.

Lemma attr_of_events {A : Type} (o : option A) (name : string) : events (attr_of o name) = [].
Proof. now destruct o. Qed.

Lemma events_nil_eq {A : Type} (m : M A) (l : list event) (a : A) :
  events m = [] -> m = (l, Ok a) -> l = [].
Proof. intros H ->. exact H. Qed.

(** A snapshot that is returned has this shape. *)
Lemma collect_metrics_ok (h : Host) (ev : list event) (m : ODict.t value) :
  collect_metrics h = (ev, Ok m) ->
  exists fixed dm totals,
    outcome (get_disk_metrics h) = Ok dm /\
    NoDup (ODict.keys dm) /\
    ODict.keys fixed = fixed_keys /\
    disk_totals dm = ([], Ok totals) /\
    m = fixed ++ all_disk_columns dm ++ totals ++ [("disk_count", VInt (ODict.len dm))] /\
    ev = queries_before ++ events (get_disk_metrics h) ++ queries_after /\
    (forall swap, os_swap_memory h = Ok swap -> sw_total swap = 0 ->
       ODict.get "swap_total_gb" fixed = Some (VInt 0) /\
       ODict.get "swap_used_gb" fixed = Some (VInt 0) /\
       ODict.get "swap_percent" fixed = Some (VInt 0)).
Proof.
  unfold collect_metrics. intros H.
  do 26 inv_bind H.
  repeat match goal with
         | Hq : query _ _ = (_, Ok _) |- _ =>
           apply query_ok_inv in Hq; destruct Hq as [? ->]
         | Hq : round_div _ _ = (?l, Ok _) |- _ =>
           apply (events_nil_eq _ _ _ (round_div_events _ _)) in Hq; subst l
         | Hq : attr_of _ _ = (?l, Ok _) |- _ =>
           apply (events_nil_eq _ _ _ (attr_of_events _ _)) in Hq; subst l
         end.
  match goal with
  | Hq : get_disk_metrics h = (?l, Ok ?dm) |- _ =>
    rename dm into disk_metrics; rename Hq into Hdm
  end.
  assert (Hnd : NoDup (ODict.keys disk_metrics)).
  { destruct (get_disk_metrics_ok_inv _ _ _ Hdm) as (parts & _ & -> & _).
    apply NoDup_keys_scan. constructor. }
  match goal with
  | Hs1 : swap_gb _ (sw_total ?s) = (?la, Ok ?v1), Hs2 : swap_gb _ (sw_used ?s) = (?lb, Ok ?v2) |- _ =>
    pose proof (events_nil_eq _ _ _ (swap_gb_events _ _) Hs1);
    pose proof (events_nil_eq _ _ _ (swap_gb_events _ _) Hs2);
    subst la lb; rename Hs1 into Hswap1; rename Hs2 into Hswap2
  end.
  match type of H with
  | add_disk_metrics ?f _ = _ => set (fixed := f) in *
  end.
  apply add_disk_metrics_ok in H; [ | assumption | | ].
  - destruct H as (totals & Ht & -> & ->).
    exists fixed, disk_metrics, totals.
    split; [ now rewrite Hdm | ].
    split; [ assumption | ].
    split; [ reflexivity | ].
    split; [ assumption | ].
    split; [ reflexivity | ].
    split; [ rewrite Hdm; cbn [events fst]; simpl; rewrite ?app_nil_r; reflexivity | ].
    intros swap Hsw Hzero.
    match goal with
    | Hos : os_swap_memory h = Ok ?s |- _ =>
      rewrite Hos in Hsw; inversion Hsw; subst s
    end.
    rewrite Hzero in Hswap1, Hswap2.
    apply swap_gb_zero in Hswap1, Hswap2. subst fixed. subst.
    cbn. rewrite Hzero. auto.
  - intros k Hk. apply is_disk_key_fixed. apply in_app_iff. now left.
  - intros k Hk Hin. cbn in Hk, Hin.
    repeat (destruct Hk as [<- | Hk]; [ intuition discriminate | ]). contradiction.
Qed.

Lemma in_get {V : Type} (d : ODict.t V) (k : string) (v : V) :
  NoDup (ODict.keys d) -> In (k, v) d -> ODict.get k d = Some v.
Proof.
  induction d as [ | [k' v'] r IH]; simpl; [ tauto | ].
  intros Hnd [H | H]; inversion Hnd as [ | x l Hx Hnd']; subst.
  - inversion H; subst. now rewrite String.eqb_refl.
  - destruct (String.eqb k' k) eqn:E; [ | auto ].
    apply String.eqb_eq in E. subst. exfalso. apply Hx.
    change k with (fst (k, v)). now apply in_map.
Qed.

Lemma get_disk_columns (n : string) (info : disk_info) (k : string) (v : value) :
  In (k, v) (disk_columns n info) -> ODict.get k (disk_columns n info) = Some v.
Proof. apply in_get. rewrite keys_disk_columns. apply NoDup_disk_keys. Qed.

Lemma in_disk_columns_key (n : string) (info : disk_info) (k : string) (v : value) :
  In (k, v) (disk_columns n info) -> In k (disk_keys n).
Proof.
  intros H. rewrite <- (keys_disk_columns n info).
  change k with (fst (k, v)). now apply in_map.
Qed.

Lemma get_all_disk_columns (dm : ODict.t disk_info) (n : string) (info : disk_info)
    (k : string) (v : value) :
  ODict.get n dm = Some info ->
  In (k, v) (disk_columns n info) ->
  ODict.get k (all_disk_columns dm) = Some v.
Proof.
  intros Hget Hin. induction dm as [ | [n0 i0] r IH]; [ discriminate | ].
  unfold all_disk_columns in *. cbn [flat_map fst snd]. cbn [ODict.get] in Hget.
  rewrite ODictFacts.get_app. destruct (String.eqb n0 n) eqn:E.
  - apply String.eqb_eq in E. inversion Hget; subst.
    now rewrite (get_disk_columns _ _ _ _ Hin).
  - apply String.eqb_neq in E.
    assert (Hnone : ODict.get k (disk_columns n0 i0) = None).
    { apply ODictFacts.get_none_notin. rewrite keys_disk_columns. intros Hk.
      apply E. eapply disk_keys_disjoint; [ eassumption | ].
      eapply in_disk_columns_key; eassumption. }
    rewrite Hnone. auto.
Qed.

Lemma get_fixed_none_disk_key (fixed : ODict.t value) (k : string) :
  ODict.keys fixed = fixed_keys -> is_disk_key k = true -> ODict.get k fixed = None.
Proof.
  intros Hk Hd. apply ODictFacts.get_none_notin. rewrite Hk. intros Hin.
  rewrite is_disk_key_fixed in Hd by (apply in_app_iff; now left). discriminate.
Qed.

(** The columns of an entry of [disk_metrics] are in the snapshot, with the
    values of the entry. *)
Lemma snapshot_disk_columns (h : Host) (ev : list event) (m : ODict.t value)
    (dm : ODict.t disk_info) (n : string) (info : disk_info) (k : string) (v : value) :
  collect_metrics h = (ev, Ok m) ->
  outcome (get_disk_metrics h) = Ok dm ->
  ODict.get n dm = Some info ->
  In (k, v) (disk_columns n info) ->
  ODict.get k m = Some v.
Proof.
  intros Hc Hdm Hn Hin.
  destruct (collect_metrics_ok _ _ _ Hc) as (fixed & dm' & totals & Hdm' & _ & Hk & _ & -> & _).
  rewrite Hdm in Hdm'. inversion Hdm'; subst dm'.
  rewrite ODictFacts.get_app, get_fixed_none_disk_key; [ | assumption | ].
  - now rewrite ODictFacts.get_app, (get_all_disk_columns _ _ _ _ _ Hn Hin).
  - eapply is_disk_key_in_disk_keys, in_disk_columns_key; eassumption.
Qed.

(** A fixed column keeps the value of the dict literal. *)
Lemma snapshot_fixed_column (fixed : ODict.t value) (rest : list (string * value))
    (k : string) (v : value) :
  ODict.get k fixed = Some v -> ODict.get k (fixed ++ rest) = Some v.
Proof. intros H. now rewrite ODictFacts.get_app, H. Qed.

Lemma outcome_get_disk_metrics (h : Host) (parts : list sdiskpart) :
  os_disk_partitions h = Ok parts ->
  outcome (get_disk_metrics h) = Ok (fold_left (record_partition h) parts []).
Proof. intros H. now rewrite get_disk_metrics_eq, H. Qed.

(** The columns of the last partition that makes an entry under its name. *)
Lemma snapshot_of_partition (h : Host) (ev : list event) (m : ODict.t value)
    (l1 l2 : list sdiskpart) (p : sdiskpart) (info : disk_info) (k : string) (v : value) :
  collect_metrics h = (ev, Ok m) ->
  os_disk_partitions h = Ok (l1 ++ p :: l2) ->
  entry_of h p = Some info ->
  (forall q, In q l2 -> entry_of h q <> None ->
             mount_name (mountpoint q) <> mount_name (mountpoint p)) ->
  In (k, v) (disk_columns (mount_name (mountpoint p)) info) ->
  ODict.get k m = Some v.
Proof.
  intros Hc Hparts Hp Hl2 Hin.
  eapply snapshot_disk_columns; [ eassumption | | | eassumption ].
  - apply outcome_get_disk_metrics. eassumption.
  - now apply get_scan_last.
Qed.

Lemma disk_entry_ok_inv (p : sdiskpart) (u : sdiskusage) (info : disk_info) :
  outcome (disk_entry p u) = Ok info ->
  exists total used free,
    PyFloat.int_truediv (du_total u) (1024 ^ 3) = Ok total /\
    PyFloat.int_truediv (du_used u) (1024 ^ 3) = Ok used /\
    PyFloat.int_truediv (du_free u) (1024 ^ 3) = Ok free /\
    info = {| di_mountpoint := mountpoint p;
              di_device := PyStr.basename (device p);
              di_fstype := fstype p;
              di_total_gb := PyFloat.round2 total;
              di_used_gb := PyFloat.round2 used;
              di_free_gb := PyFloat.round2 free;
              di_percent := PyFloat.round2 (du_percent u);
              di_total_bytes := du_total u;
              di_used_bytes := du_used u;
              di_free_bytes := du_free u |}.
Proof.
  intros H0. destruct (disk_entry p u) as [l r] eqn:H.
  cbn [outcome snd] in H0. subst r. unfold disk_entry in H.
  do 3 inv_bind H.
  apply ret_ok_inv in H. destruct H as [-> _].
  repeat match goal with
         | Hq : round_div _ _ = _ |- _ =>
           apply round_div_ok_inv in Hq; destruct Hq as (? & ? & -> & _)
         end.
  eauto 10.
Qed.

Lemma entry_of_some_inv (h : Host) (p : sdiskpart) (info : disk_info) :
  entry_of h p = Some info ->
  PyStr.in_list (fstype p) special_fstypes = false /\
  exists usage,
    os_disk_usage h (mountpoint p) = Ok usage /\
    outcome (disk_entry p usage) = Ok info.
Proof.
  unfold entry_of.
  destruct (PyStr.in_list (fstype p) special_fstypes); [ discriminate | ].
  destruct (os_disk_usage h (mountpoint p)) as [u | e]; [ | discriminate ].
  destruct (outcome (disk_entry p u)) as [i | e] eqn:E; [ | discriminate ].
  intros H. inversion H; subst. eauto.
Qed.

(** ** Sanitized names *)

Lemma replace_replace (s : string) :
  PyStr.replace "." "_" (PyStr.replace "/" "_" s) = map_chars underscored s.
Proof.
  induction s as [ | c s IH]; [ reflexivity | ].
  cbn [PyStr.replace map_chars]. rewrite IH. f_equal.
  unfold underscored.
  destruct (Ascii.eqb c "/") eqn:E1; [ reflexivity | ].
  destruct (Ascii.eqb c ".") eqn:E2; reflexivity.
Qed.

Lemma lstrip_split (c : ascii) (s : string) :
  exists a, s = PyStr.repeat c a +++ PyStr.lstrip c s.
Proof.
  induction s as [ | x s [a IH]].
  - now exists O.
  - cbn [PyStr.lstrip]. destruct (Ascii.eqb x c) eqn:E.
    + apply Ascii.eqb_eq in E. subst x. exists (S a). simpl. congruence.
    + now exists O.
Qed.

Lemma lstrip_head (c : ascii) (s t : string) : PyStr.lstrip c s <> String c t.
Proof.
  induction s as [ | x s IH]; [ discriminate | ].
  cbn [PyStr.lstrip]. destruct (Ascii.eqb x c) eqn:E; [ assumption | ].
  apply Ascii.eqb_neq in E. congruence.
Qed.

Lemma rstrip_split (c : ascii) (s : string) :
  exists b, s = PyStr.rstrip c s +++ PyStr.repeat c b.
Proof.
  induction s as [ | x s [b IH]].
  - now exists O.
  - cbn [PyStr.rstrip]. destruct (PyStr.rstrip c s) as [ | y r] eqn:Er.
    + destruct (Ascii.eqb x c) eqn:E.
      * apply Ascii.eqb_eq in E. subst x. exists (S b). simpl in *. congruence.
      * exists b. simpl in *. congruence.
    + exists b. simpl in *. congruence.
Qed.

Lemma append_single_nonempty (t : string) (c : ascii) : t +++ String c "" <> "".
Proof. destruct t; discriminate. Qed.

Lemma rstrip_last (c : ascii) (s t : string) : PyStr.rstrip c s <> t +++ String c "".
Proof.
  revert t. induction s as [ | x s IH]; intros t.
  - intros H. symmetry in H. now apply append_single_nonempty in H.
  - cbn [PyStr.rstrip]. destruct (PyStr.rstrip c s) as [ | y r] eqn:Er.
    + destruct (Ascii.eqb x c) eqn:E.
      * intros H. symmetry in H. now apply append_single_nonempty in H.
      * apply Ascii.eqb_neq in E. destruct t as [ | z t]; simpl; intros H.
        -- congruence.
        -- injection H as _ H. symmetry in H. now apply append_single_nonempty in H.
    + destruct t as [ | z t]; simpl; intros H.
      * discriminate.
      * injection H as _ H. now apply IH in H.
Qed.

Lemma rstrip_head (c : ascii) (s : string) :
  (forall t, s <> String c t) -> forall t, PyStr.rstrip c s <> String c t.
Proof.
  destruct s as [ | x s]; intros Hs t; [ discriminate | ].
  cbn [PyStr.rstrip]. destruct (PyStr.rstrip c s) as [ | y r].
  - destruct (Ascii.eqb x c) eqn:E; [ discriminate | ].
    apply Ascii.eqb_neq in E. congruence.
  - intros H. injection H as -> _. now apply (Hs s).
Qed.

(** The name is what is left of the mount point, with every ['/'] and ['.']
    made an underscore, between its leading and its trailing underscores;
    ['root'] when nothing is left. *)
Lemma mount_name_spec (mp : string) :
  exists (a b : nat) (core : string),
    map_chars underscored mp = PyStr.repeat "_" a +++ core +++ PyStr.repeat "_" b /\
    (forall t, core <> String "_" t) /\
    (forall t, core <> t +++ "_") /\
    mount_name mp = match core with EmptyString => "root" | _ => core end.
Proof.
  unfold mount_name, PyStr.strip. rewrite replace_replace.
  set (s := map_chars underscored mp).
  destruct (lstrip_split "_" s) as [a Ha].
  destruct (rstrip_split "_" (PyStr.lstrip "_" s)) as [b Hb].
  exists a, b, (PyStr.rstrip "_" (PyStr.lstrip "_" s)).
  split; [ now rewrite <- Hb | ].
  split; [ apply rstrip_head, lstrip_head | ].
  split; [ apply rstrip_last | ].
  now destruct (PyStr.rstrip "_" (PyStr.lstrip "_" s)).
Qed.

Lemma mount_name_head (mp : string) :
  exists c r, mount_name mp = String c r /\ c <> "_"%char.
Proof.
  destruct (mount_name_spec mp) as (a & b & core & _ & Hhead & _ & ->).
  destruct core as [ | c r].
  - exists "r"%char, "oot". split; [ reflexivity | discriminate ].
  - exists c, r. split; [ reflexivity | ]. intros ->. now apply (Hhead r).
Qed.

Lemma prefix_cons_eq (a : ascii) (s t : string) :
  String.prefix (String a s) (String a t) = String.prefix s t.
Proof. cbn [String.prefix]. destruct (ascii_dec a a); [ reflexivity | contradiction ]. Qed.

Lemma prefix_cons_neq (a b : ascii) (s t : string) :
  a <> b -> String.prefix (String a s) (String b t) = false.
Proof. intros H. cbn [String.prefix]. destruct (ascii_dec a b); [ contradiction | reflexivity ]. Qed.

Lemma disk_key_no_double_underscore (mp suffix : string) :
  String.prefix "disk__" (disk_key (mount_name mp) suffix) = false.
Proof.
  destruct (mount_name_head mp) as (c & r & -> & Hc).
  unfold disk_key. cbn [String.append].
  rewrite !prefix_cons_eq. apply prefix_cons_neq. congruence.
Qed.

(** ** Partitions that are passed over *)


Lemma entry_of_with_partitions (h : Host) (parts : list sdiskpart) (p : sdiskpart) :
  entry_of (with_partitions h parts) p = entry_of h p.
Proof. reflexivity. Qed.

Lemma record_partition_with_partitions (h : Host) (parts l : list sdiskpart)
    (d : ODict.t disk_info) :
  fold_left (record_partition (with_partitions h parts)) l d =
  fold_left (record_partition h) l d.
Proof. reflexivity. Qed.





Lemma in_entry_names (h : Host) (parts : list sdiskpart) (n : string) :
  In n (entry_names h parts) <->
  exists p, In p parts /\ entry_of h p <> None /\ mount_name (mountpoint p) = n.
Proof.
  unfold entry_names. rewrite nodup_In, in_map_iff. split.
  - intros [p [Hn Hp]]. apply filter_In in Hp. destruct Hp as [Hp He].
    exists p. repeat split; auto. unfold makes_entry in He.
    destruct (entry_of h p); [ discriminate | discriminate ].
  - intros [p [Hp [He Hn]]]. exists p. split; [ assumption | ].
    apply filter_In. split; [ assumption | ]. unfold makes_entry.
    destruct (entry_of h p); [ reflexivity | contradiction ].
Qed.

(** [disk_count] is the number of names under which partitions make entries. *)
Lemma len_scan (h : Host) (parts : list sdiskpart) :
  ODict.len (fold_left (record_partition h) parts []) =
  Z.of_nat (List.length (entry_names h parts)).
Proof.
  unfold ODict.len. f_equal.
  rewrite <- (length_map fst). apply Permutation_length, NoDup_Permutation.
  - apply (NoDup_keys_scan h parts []). constructor.
  - apply NoDup_nodup.
  - intros n. rewrite in_entry_names.
    pose proof (in_keys_scan h parts [] n) as H. unfold ODict.keys in H.
    rewrite H. simpl. tauto.
Qed.

Lemma stderr_of_app (l1 l2 : list event) : stderr_of (l1 ++ l2) = stderr_of l1 ++ stderr_of l2.
Proof. apply flat_map_app. Qed.

Lemma stdout_of_app (l1 l2 : list event) : stdout_of (l1 ++ l2) = stdout_of l1 ++ stdout_of l2.
Proof. apply flat_map_app. Qed.

Lemma queries_of_app (l1 l2 : list event) :
  queries_of (l1 ++ l2) = queries_of l1 ++ queries_of l2.
Proof. apply flat_map_app. Qed.

Lemma events_get_disk_metrics (h : Host) (parts : list sdiskpart) :
  os_disk_partitions h = Ok parts ->
  events (get_disk_metrics h) = Query QDiskPartitions :: flat_map (partition_events h) parts.
Proof. intros H. now rewrite get_disk_metrics_eq, H. Qed.

Lemma disk_totals_keys (d : ODict.t disk_info) (l : list event)
    (totals : list (string * value)) :
  disk_totals d = (l, Ok totals) ->
  forall k, In k (ODict.keys totals) -> In k total_keys.
Proof.
  unfold disk_totals. intros Ht k.
  destruct (sum_counted di_total_bytes d >? 0).
  - do 3 inv_bind Ht. apply ret_ok_inv in Ht. destruct Ht as [-> _].
    simpl. tauto.
  - apply ret_ok_inv in Ht. destruct Ht as [-> _]. simpl. tauto.
Qed.

(** ** The totals *)

Lemma in_set {V : Type} (k : string) (v : V) (d : ODict.t V) (x : string * V) :
  In x (ODict.set k v d) -> x = (k, v) \/ In x d.
Proof.
  induction d as [ | [k' v'] r IH]; simpl.
  - intros [<- | []]. now left.
  - destruct (String.eqb k' k) eqn:E; simpl.
    + apply String.eqb_eq in E. subst. intros [<- | H]; auto.
    + intros [<- | H]; auto. apply IH in H. tauto.
Qed.

Lemma in_scan (h : Host) (parts : list sdiskpart) (d : ODict.t disk_info)
    (n : string) (info : disk_info) :
  In (n, info) (fold_left (record_partition h) parts d) ->
  In (n, info) d \/
  exists p, In p parts /\ entry_of h p = Some info /\ mount_name (mountpoint p) = n.
Proof.
  revert d. induction parts as [ | p rest IH]; intros d; cbn [fold_left]; [ auto | ].
  intros H. apply IH in H. destruct H as [H | (q & Hq & He & Hn)].
  - unfold record_partition in H. destruct (entry_of h p) eqn:Ep.
    + apply in_set in H. destruct H as [H | H]; [ | auto ].
      inversion H; subst. right. exists p. simpl. auto.
    + auto.
  - right. exists q. simpl. auto.
Qed.

Lemma entry_fstype (h : Host) (p : sdiskpart) (info : disk_info) :
  entry_of h p = Some info ->
  di_fstype info = fstype p /\ PyStr.in_list (fstype p) special_fstypes = false.
Proof.
  intros H. destruct (entry_of_some_inv _ _ _ H) as (Hsp & usage & _ & He).
  destruct (disk_entry_ok_inv _ _ _ He) as (? & ? & ? & _ & _ & _ & ->).
  auto.
Qed.

Lemma prefix_spec (x s : string) : String.prefix x s = true <-> exists b, s = x +++ b.
Proof.
  revert s. induction x as [ | c x IH]; intros s.
  - split; [ intros _; now exists s | intros _; now destruct s ].
  - destruct s as [ | c' s]; cbn [String.prefix].
    + split; [ discriminate | intros [b Hb]; discriminate ].
    + destruct (ascii_dec c c') as [<- | Hne].
      * rewrite IH. split; intros [b Hb]; exists b; simpl in *; congruence.
      * split; [ discriminate | intros [b Hb]; simpl in Hb; congruence ].
Qed.

(** [x in s] holds when [x] occurs somewhere in [s]. *)
Lemma contains_spec (x s : string) :
  PyStr.contains x s = true <-> exists a b, s = a +++ x +++ b.
Proof.
  induction s as [ | c s IH].
  - cbn [PyStr.contains]. rewrite Bool.orb_false_r, prefix_spec. split.
    + intros [b Hb]. now exists "", b.
    + intros [a [b Hb]]. destruct a; [ now exists b | discriminate ].
  - cbn [PyStr.contains]. rewrite Bool.orb_true_iff, prefix_spec, IH. split.
    + intros [[b Hb] | [a [b Hab]]].
      * now exists "", b.
      * exists (String c a), b. simpl. congruence.
    + intros [a [b Hab]]. destruct a as [ | c' a].
      * left. now exists b.
      * right. exists a, b. simpl in Hab. congruence.
Qed.

Lemma counts_in_totals_spec (fs : string) :
  counts_in_totals fs = true <->
  ~ (exists a b, fs = a +++ "overlay" +++ b) /\ ~ (exists a b, fs = a +++ "squashfs" +++ b).
Proof.
  unfold counts_in_totals. cbn [existsb].
  rewrite Bool.negb_true_iff, Bool.orb_false_r, Bool.orb_false_iff.
  rewrite <- !contains_spec, !Bool.not_true_iff_false. tauto.
Qed.

(** ** Colliding names *)

Lemma NoDup_flat_map_disk_keys (names : list string) :
  NoDup names -> NoDup (flat_map disk_keys names).
Proof.
  induction 1 as [ | n names Hn Hnd IH]; cbn [flat_map]; [ constructor | ].
  apply NoDup_app; [ apply NoDup_disk_keys | assumption | ].
  intros k Hk Hk'. apply in_flat_map in Hk'. destruct Hk' as (n' & Hn' & Hk').
  assert (n = n') by (eapply disk_keys_disjoint; eassumption).
  subst. contradiction.
Qed.

Lemma in_list_In (x : string) (l : list string) : PyStr.in_list x l = true <-> In x l.
Proof.
  unfold PyStr.in_list. rewrite existsb_exists. split.
  - intros [y [Hy E]]. apply String.eqb_eq in E. now subst.
  - intros H. exists x. split; [ assumption | apply String.eqb_refl ].
Qed.

Lemma distinct_NoDup (l : list string) : distinct l = true -> NoDup l.
Proof.
  induction l as [ | x r IH]; cbn [distinct]; [ constructor | ].
  intros H. apply Bool.andb_true_iff in H. destruct H as [Hx Hr].
  constructor; [ | now apply IH ].
  intros Hin. apply in_list_In in Hin. rewrite Hin in Hx. discriminate.
Qed.

Lemma NoDup_fixed_keys : NoDup (fixed_keys ++ total_keys ++ ["disk_count"]).
Proof. apply distinct_NoDup. vm_compute. reflexivity. Qed.

Lemma NoDup_app_disjoint {A : Type} (l1 l2 : list A) :
  NoDup (l1 ++ l2) -> forall x, In x l1 -> ~ In x l2.
Proof.
  induction l1 as [ | a l1 IH]; simpl; intros Hnd x Hx Hx'; [ contradiction | ].
  inversion Hnd as [ | a' l' Ha Hnd']; subst. destruct Hx as [<- | Hx].
  - apply Ha. apply in_or_app. now right.
  - now apply (IH Hnd' x).
Qed.

Lemma NoDup_app_without_middle {A : Type} (l1 l2 l3 : list A) :
  NoDup (l1 ++ l2 ++ l3) -> NoDup (l1 ++ l3).
Proof.
  intros H. apply NoDup_app.
  - now apply NoDup_app_remove_r in H.
  - now apply NoDup_app_remove_l, NoDup_app_remove_l in H.
  - intros x Hx Hx'. apply (NoDup_app_disjoint _ _ H x Hx).
    apply in_or_app. now right.
Qed.

Lemma NoDup_app_middle {A : Type} (l1 l2 l3 : list A) :
  NoDup (l1 ++ l3) -> NoDup l2 ->
  (forall x, In x l2 -> ~ In x (l1 ++ l3)) ->
  NoDup (l1 ++ l2 ++ l3).
Proof.
  intros H13 H2 Hd. apply NoDup_app_remove_l in H13 as H3.
  apply NoDup_app_remove_r in H13 as H1.
  apply NoDup_app; [ assumption | | ].
  - apply NoDup_app; [ assumption | assumption | ].
    intros x Hx Hx'. apply (Hd x Hx). apply in_or_app. now right.
  - intros x Hx Hx'. apply in_app_or in Hx'. destruct Hx' as [Hx' | Hx'].
    + apply (Hd x Hx'). apply in_or_app. now left.
    + now apply (NoDup_app_disjoint _ _ H13 x Hx).
Qed.

(** The keys of a snapshot are pairwise different. *)
Lemma snapshot_keys_NoDup (h : Host) (ev : list event) (m : ODict.t value) :
  collect_metrics h = (ev, Ok m) -> NoDup (ODict.keys m).
Proof.
  intros Hc.
  destruct (collect_metrics_ok _ _ _ Hc)
    as (fixed & dm & totals & _ & Hnd & Hk & Ht & -> & _).
  rewrite !ODictFacts.keys_app, Hk, keys_all_disk_columns.
  change (ODict.keys [("disk_count", VInt (ODict.len dm))]) with ["disk_count"].
  assert (Hfix : NoDup (fixed_keys ++ ODict.keys totals ++ ["disk_count"])).
  { unfold disk_totals in Ht. destruct (sum_counted di_total_bytes dm >? 0).
    - apply bind_ok_inv in Ht. destruct Ht as (? & ? & ? & _ & Ht & _).
      apply bind_ok_inv in Ht. destruct Ht as (? & ? & ? & _ & Ht & _).
      apply bind_ok_inv in Ht. destruct Ht as (? & ? & ? & _ & Ht & _).
      apply ret_ok_inv in Ht. destruct Ht as [-> _]. exact NoDup_fixed_keys.
    - apply ret_ok_inv in Ht. destruct Ht as [-> _].
      exact (NoDup_app_without_middle _ _ _ NoDup_fixed_keys). }
  apply NoDup_app_middle; [ assumption | now apply NoDup_flat_map_disk_keys | ].
  intros k Hk' Hin. apply in_flat_map in Hk'. destruct Hk' as (n & _ & Hkn).
  apply is_disk_key_in_disk_keys in Hkn.
  assert (Hf : In k (fixed_keys ++ total_keys ++ ["disk_count"])).
  { rewrite !in_app_iff in *. destruct Hin as [H | [H | H]]; auto.
    right. left. eapply disk_totals_keys; eassumption. }
  apply is_disk_key_fixed in Hf. congruence.
Qed.

Lemma partition_events_entry (h : Host) (p : sdiskpart) :
  entry_of h p <> None -> partition_events h p = [Query (QDiskUsage (mountpoint p))].
Proof.
  unfold entry_of, partition_events.
  destruct (PyStr.in_list (fstype p) special_fstypes); [ contradiction | ].
  destruct (os_disk_usage h (mountpoint p)) as [u | e]; [ | contradiction ].
  destruct (outcome (disk_entry p u)); [ reflexivity | contradiction ].
Qed.

Lemma stderr_of_entries (h : Host) (parts : list sdiskpart) :
  (forall p, In p parts -> entry_of h p <> None) ->
  stderr_of (flat_map (partition_events h) parts) = [].
Proof.
  induction parts as [ | p rest IH]; intros Hall; [ reflexivity | ].
  cbn [flat_map]. rewrite stderr_of_app, partition_events_entry by (apply Hall; now left).
  rewrite IH by (intros p' Hp'; apply Hall; now right). reflexivity.
Qed.

Lemma snapshot_disk_count (h : Host) (ev : list event) (m : ODict.t value)
    (parts : list sdiskpart) :
  collect_metrics h = (ev, Ok m) ->
  os_disk_partitions h = Ok parts ->
  ODict.get "disk_count" m = Some (VInt (Z.of_nat (List.length (entry_names h parts)))).
Proof.
  intros Hc Hparts. pose proof (snapshot_keys_NoDup _ _ _ Hc) as Hnd.
  destruct (collect_metrics_ok _ _ _ Hc)
    as (fixed & dm & totals & Hdm & _ & _ & _ & -> & _).
  rewrite (outcome_get_disk_metrics _ _ Hparts) in Hdm. inversion Hdm; subst dm.
  apply in_get; [ assumption | ]. rewrite len_scan.
  apply in_or_app. right. apply in_or_app. right. apply in_or_app. right. now left.
Qed.

(** ** What a computation emits *)

Section EmitsOnly.
Variable P : event -> Prop.

Lemma emits_only_bind {A B : Type} (m : M A) (f : A -> M B) :
  emits_only P m -> (forall a, emits_only P (f a)) -> emits_only P (bind m f).
Proof.
  unfold emits_only. intros Hm Hf. rewrite bind_events.
  apply Forall_app. split; [ assumption | ].
  destruct (outcome m); [ apply Hf | constructor ].
Qed.

Lemma emits_only_ret {A : Type} (a : A) : emits_only P (ret a).
Proof. constructor. Qed.

Lemma emits_only_lift {A : Type} (r : res A) : emits_only P (lift r).
Proof. constructor. Qed.

Lemma emits_only_query {A : Type} (q : os_call) (r : res A) :
  P (Query q) -> emits_only P (query q r).
Proof. intros H. repeat constructor. exact H. Qed.

Lemma emits_only_print (h : Host) (line : string) :
  P (Stdout line) -> (forall e, P (Pending line e)) -> emits_only P (print h line).
Proof.
  intros H H'. unfold emits_only, print.
  destruct (os_stdout_write h line) as [u | e]; [ repeat constructor; exact H | ].
  destruct (is_os_error e && os_stdout_buffers h line); repeat constructor. apply H'.
Qed.

Lemma emits_only_round_div (n d : Z) : emits_only P (round_div n d).
Proof. unfold emits_only. rewrite round_div_events. constructor. Qed.

Lemma emits_only_swap_gb (total n : Z) : emits_only P (swap_gb total n).
Proof. unfold emits_only. rewrite swap_gb_events. constructor. Qed.

Lemma emits_only_attr_of {A : Type} (o : option A) (name : string) :
  emits_only P (attr_of o name).
Proof. unfold emits_only. rewrite attr_of_events. constructor. Qed.

Lemma emits_only_add_disk_metrics (metrics : ODict.t value) (dm : ODict.t disk_info) :
  emits_only P (add_disk_metrics metrics dm).
Proof.
  unfold add_disk_metrics. apply emits_only_bind; [ | intros; apply emits_only_ret ].
  destruct (_ >? 0); [ | apply emits_only_ret ].
  repeat (apply emits_only_bind;
          [ first [ apply emits_only_round_div | apply emits_only_lift ] | intros ]).
  apply emits_only_ret.
Qed.

End EmitsOnly.

Lemma partition_events_not_stdout (h : Host) (p : sdiskpart) :
  Forall not_stdout (partition_events h p).
Proof.
  unfold partition_events, skip_log.
  destruct (PyStr.in_list _ _); [ constructor | ].
  constructor; [ exact I | ].
  destruct (os_disk_usage h (mountpoint p)) as [u | e].
  - destruct (outcome (disk_entry p u)) as [ | e]; [ constructor | ].
    destruct (is_access_error e); repeat constructor.
  - destruct (is_access_error e); repeat constructor.
Qed.

Lemma get_disk_metrics_not_stdout (h : Host) : emits_only not_stdout (get_disk_metrics h).
Proof.
  unfold emits_only. rewrite get_disk_metrics_eq.
  destruct (os_disk_partitions h) as [parts | e]; cbn [events fst].
  - constructor; [ exact I | ]. induction parts as [ | p rest IH]; cbn [flat_map].
    + constructor.
    + apply Forall_app. split; [ apply partition_events_not_stdout | assumption ].
  - repeat constructor.
Qed.

(** Collecting writes nothing to standard output. *)
Lemma collect_metrics_not_stdout (h : Host) : emits_only not_stdout (collect_metrics h).
Proof.
  unfold collect_metrics.
  do 7 (apply emits_only_bind; [ apply emits_only_query; exact I | intros ]).
  apply emits_only_bind; [ apply get_disk_metrics_not_stdout | intros ].
  do 5 (apply emits_only_bind; [ apply emits_only_query; exact I | intros ]).
  repeat (apply emits_only_bind;
          [ first [ apply emits_only_round_div | apply emits_only_swap_gb
                  | apply emits_only_attr_of ] | intros ]).
  apply emits_only_add_disk_metrics.
Qed.

Lemma stdout_of_nil (l : list event) : Forall not_stdout l -> stdout_of l = [].
Proof.
  induction 1 as [ | ev l Hev _ IH]; [ reflexivity | ].
  cbn [stdout_of flat_map]. fold (stdout_of l). rewrite IH.
  destruct ev; [ reflexivity | contradiction | reflexivity | reflexivity | reflexivity ].
Qed.

Lemma queries_of_nil (l : list event) : Forall not_query l -> queries_of l = [].
Proof.
  induction 1 as [ | ev l Hev _ IH]; [ reflexivity | ].
  cbn [queries_of flat_map]. fold (queries_of l). rewrite IH.
  destruct ev; [ contradiction | reflexivity | reflexivity | reflexivity | reflexivity ].
Qed.

Lemma collect_metrics_stdout (h : Host) : stdout_of (events (collect_metrics h)) = [].
Proof. apply stdout_of_nil, collect_metrics_not_stdout. Qed.

(** ** The presenters *)

Section PresenterFacts.
Variable float_repr : float -> string.
Variable json_dumps : ODict.t value -> string.



Lemma run_ok (h : Host) (a : args) (u : unit) :
  outcome (dispatch float_repr json_dumps h a) = Ok u ->
  run float_repr json_dumps h a = (events (dispatch float_repr json_dumps h a), Ok 0).
Proof.
  unfold run. destruct (dispatch float_repr json_dumps h a) as [l r].
  cbn [outcome snd events fst]. intros ->. cbn [bind try_except].
  destruct (negb (once a)); cbn; now rewrite app_nil_r.
Qed.

Lemma run_raise (h : Host) (a : args) (e : exn) :
  outcome (dispatch float_repr json_dumps h a) = Raise e ->
  run float_repr json_dumps h a =
  (events (dispatch float_repr json_dumps h a)
     ++ [Stderr ("Error collecting metrics: " +++ exn_msg e)],
   Ok 1).
Proof.
  unfold run. destruct (dispatch float_repr json_dumps h a) as [l r].
  cbn [outcome snd events fst]. intros ->. reflexivity.
Qed.

End PresenterFacts.

(** ** The queries of the presenters *)

Section PresenterQueries.
Variable float_repr : float -> string.
Variable json_dumps : ODict.t value -> string.

Lemma queries_bind {A B : Type} (m : M A) (f : A -> M B) :
  queries_of (events (bind m f)) =
  queries_of (events m)
    ++ match outcome m with Ok a => queries_of (events (f a)) | Raise _ => [] end.
Proof.
  rewrite bind_events, queries_of_app. now destruct (outcome m).
Qed.

Lemma print_no_query (h : Host) (line : string) : emits_only not_query (print h line).
Proof. apply emits_only_print; [ exact I | intros e; exact I ]. Qed.

Lemma getitem_no_query (d : ODict.t value) (k : string) :
  emits_only not_query (getitem d k).
Proof. unfold getitem. destruct (ODict.get k d); constructor. Qed.

Lemma format_f_no_query (digits : nat) (v : value) :
  emits_only not_query (format_f digits v).
Proof.
  destruct v; try constructor. unfold format_f.
  destruct (PyFloat.of_Z n); constructor.
Qed.

Lemma gt_zero_no_query (v : value) : emits_only not_query (gt_zero v).
Proof. destruct v; constructor. Qed.

Lemma print_disks_no_query (h : Host) (items : list (string * disk_info)) :
  emits_only not_query (print_disks float_repr h items).
Proof.
  induction items as [ | [n info] rest IH]; [ constructor | ].
  cbn [print_disks]. apply emits_only_bind; [ | intros; exact IH ].
  unfold print_disk.
  repeat (apply emits_only_bind; [ apply print_no_query | intros ]).
  apply print_no_query.
Qed.

Ltac no_query_step :=
  first [ apply print_no_query | apply getitem_no_query | apply format_f_no_query
        | apply gt_zero_no_query | apply print_disks_no_query | apply emits_only_ret ].

(** After its two calls the report only reads the snapshot and prints. *)
Lemma human_queries (h : Host) :
  queries_of (events (print_human_readable float_repr h)) =
  queries_of (events (collect_metrics h))
    ++ match outcome (collect_metrics h) with
       | Ok _ => queries_of (events (get_disk_metrics h))
       | Raise _ => []
       end.
Proof.
  unfold print_human_readable. rewrite queries_bind. f_equal.
  destruct (outcome (collect_metrics h)) as [metrics | e]; [ | reflexivity ].
  rewrite queries_bind. rewrite <- (app_nil_r (queries_of (events (get_disk_metrics h)))) at 2.
  f_equal. destruct (outcome (get_disk_metrics h)) as [disk_metrics | e]; [ | reflexivity ].
  apply queries_of_nil.
  repeat (apply emits_only_bind; [ no_query_step | intros ]).
  apply emits_only_bind.
  - match goal with |- emits_only _ (if ?b then _ else _) => destruct b end.
    + repeat (apply emits_only_bind; [ no_query_step | intros ]). no_query_step.
    + no_query_step.
  - intros. repeat (apply emits_only_bind; [ no_query_step | intros ]). no_query_step.
Qed.

Lemma one_collection_queries {B : Type} (h : Host) (k : ODict.t value -> M B) :
  (forall m, emits_only not_query (k m)) ->
  queries_of (events (bind (collect_metrics h) k)) = queries_of (events (collect_metrics h)).
Proof.
  intros Hk. rewrite queries_bind.
  destruct (outcome (collect_metrics h)) as [m | e]; [ | apply app_nil_r ].
  rewrite (queries_of_nil (events (k m))) by apply Hk. apply app_nil_r.
Qed.

End PresenterQueries.

(** ** The command line *)

Lemma pending_of_app (l1 l2 : list event) :
  pending_of (l1 ++ l2) = pending_of l1 ++ pending_of l2.
Proof. apply flat_map_app. Qed.

Lemma pending_of_nil (l : list event) : Forall not_pending l -> pending_of l = [].
Proof.
  induction 1 as [ | ev l Hev _ IH]; [ reflexivity | ].
  cbn [pending_of flat_map]. fold (pending_of l). rewrite IH.
  destruct ev; [ reflexivity | reflexivity | reflexivity | contradiction | reflexivity ].
Qed.

Lemma partition_events_not_pending (h : Host) (p : sdiskpart) :
  Forall not_pending (partition_events h p).
Proof.
  unfold partition_events.
  destruct (PyStr.in_list (fstype p) special_fstypes); [ constructor | ].
  constructor; [ exact I | ].
  assert (E : forall e, Forall not_pending (skip_log p e)).
  { intros e. unfold skip_log. destruct (is_access_error e); repeat constructor. }
  destruct (os_disk_usage h (mountpoint p)) as [usage | e]; [ | apply E ].
  destruct (outcome (disk_entry p usage)); [ constructor | apply E ].
Qed.

Lemma get_disk_metrics_not_pending (h : Host) : emits_only not_pending (get_disk_metrics h).
Proof.
  unfold emits_only. rewrite get_disk_metrics_eq.
  destruct (os_disk_partitions h) as [parts | e]; cbn [events fst];
    (constructor; [ exact I | ]); [ | constructor ].
  induction parts as [ | p rest IH]; [ constructor | ].
  cbn [flat_map]. apply Forall_app. split; [ apply partition_events_not_pending | exact IH ].
Qed.

(** Collecting leaves nothing in the buffer of standard output. *)
Lemma collect_metrics_not_pending (h : Host) : emits_only not_pending (collect_metrics h).
Proof.
  unfold collect_metrics.
  do 7 (apply emits_only_bind; [ apply emits_only_query; exact I | intros ]).
  apply emits_only_bind; [ apply get_disk_metrics_not_pending | intros ].
  do 5 (apply emits_only_bind; [ apply emits_only_query; exact I | intros ]).
  repeat (apply emits_only_bind;
          [ first [ apply emits_only_round_div | apply emits_only_swap_gb
                  | apply emits_only_attr_of ] | intros ]).
  apply emits_only_add_disk_metrics.
Qed.


Lemma pending_of_map_Stdout (lines : list string) : pending_of (map Stdout lines) = [].
Proof. induction lines as [ | s r IH]; [ reflexivity | exact IH ]. Qed.

(** The end of the interpreter when nothing waits in the buffer. *)
Lemma interpreter_exit_flushed (l : list event) (status : Z) :
  pending_of l = [] -> interpreter_exit (l, Ok status) = (l, Ok status).
Proof. intros H. unfold interpreter_exit. now rewrite H. Qed.


Lemma print_not_pending (h : Host) (line : string) :
  (exists u, os_stdout_write h line = Ok u) \/ os_stdout_buffers h line = false ->
  emits_only not_pending (print h line).
Proof.
  intros H. unfold emits_only, print.
  destruct (os_stdout_write h line) as [u | e]; [ repeat constructor | ].
  destruct H as [[u H] | H]; [ discriminate | ].
  rewrite H, Bool.andb_false_r. constructor.
Qed.

Section PresenterPending.
Variable float_repr : float -> string.
Variable json_dumps : ODict.t value -> string.
Variable h : Host.
Hypothesis direct :
  forall line,
    (exists u, os_stdout_write h line = Ok u) \/ os_stdout_buffers h line = false.

Lemma getitem_not_pending (d : ODict.t value) (k : string) :
  emits_only not_pending (getitem d k).
Proof. unfold getitem. destruct (ODict.get k d); constructor. Qed.

Lemma format_f_not_pending (digits : nat) (v : value) :
  emits_only not_pending (format_f digits v).
Proof.
  destruct v; try constructor. unfold format_f.
  destruct (PyFloat.of_Z n); constructor.
Qed.

Lemma gt_zero_not_pending (v : value) : emits_only not_pending (gt_zero v).
Proof. destruct v; constructor. Qed.

Lemma print_disks_not_pending (items : list (string * disk_info)) :
  emits_only not_pending (print_disks float_repr h items).
Proof.
  induction items as [ | [n info] rest IH]; [ constructor | ].
  cbn [print_disks]. apply emits_only_bind; [ | intros; exact IH ].
  unfold print_disk.
  repeat (apply emits_only_bind; [ apply print_not_pending, direct | intros ]).
  apply print_not_pending, direct.
Qed.

Ltac not_pending_step :=
  first [ apply print_not_pending, direct | apply getitem_not_pending
        | apply format_f_not_pending | apply gt_zero_not_pending
        | apply print_disks_not_pending | apply emits_only_ret
        | apply collect_metrics_not_pending | apply get_disk_metrics_not_pending ].

(** When every line is written during the call or taken, no presenter leaves
    anything in the buffer. *)
Lemma dispatch_not_pending (a : args) :
  pending_of (events (dispatch float_repr json_dumps h a)) = [].
Proof.
  apply pending_of_nil. unfold dispatch.
  destruct (format_is (format a) "header");
    [ unfold print_csv_header; apply emits_only_bind; [ | intros ]; not_pending_step | ].
  destruct (format_is (format a) "json");
    [ unfold print_json; apply emits_only_bind; [ | intros ]; not_pending_step | ].
  destruct (format_is (format a) "human");
    [ | unfold print_csv_row; apply emits_only_bind; [ | intros ]; not_pending_step ].
  unfold print_human_readable.
  repeat (apply emits_only_bind; [ not_pending_step | intros ]).
  apply emits_only_bind.
  - match goal with |- emits_only _ (if ?b then _ else _) => destruct b end.
    + repeat (apply emits_only_bind; [ not_pending_step | intros ]). not_pending_step.
    + not_pending_step.
  - intros. repeat (apply emits_only_bind; [ not_pending_step | intros ]). not_pending_step.
Qed.

End PresenterPending.

Section ScriptExit.
Variable float_repr : float -> string.
Variable json_dumps : ODict.t value -> string.

Lemma pending_of_run (h : Host) (a : args) :
  pending_of (events (run float_repr json_dumps h a))
  = pending_of (events (dispatch float_repr json_dumps h a)).
Proof.
  destruct (outcome (dispatch float_repr json_dumps h a)) as [[] | e] eqn:Hd.
  - now rewrite (run_ok _ _ _ _ _ Hd).
  - rewrite (run_raise _ _ _ _ _ Hd). cbn [events fst].
    rewrite pending_of_app. apply app_nil_r.
Qed.

Lemma main_parsed (h : Host) (argv : list string) (a : args) :
  parse_args argv = Parsed a ->
  main float_repr json_dumps h argv = interpreter_exit (run float_repr json_dumps h a).
Proof. intros H. unfold main. now rewrite H. Qed.

Lemma main_arg_error (h : Host) (argv : list string) :
  parse_args argv = ArgError ->
  main float_repr json_dumps h argv = ([Report UsageError], Ok 2).
Proof. intros H. unfold main. now rewrite H. Qed.

(** The script under a command line the parser takes, when nothing waits in
    the buffer. *)
Lemma main_flushed (h : Host) (argv : list string) (a : args) :
  parse_args argv = Parsed a ->
  pending_of (events (dispatch float_repr json_dumps h a)) = [] ->
  main float_repr json_dumps h argv = run float_repr json_dumps h a.
Proof.
  intros Hp Hd. rewrite (main_parsed _ _ _ Hp).
  rewrite (surjective_M (run float_repr json_dumps h a)).
  assert (Hrun : exists status, outcome (run float_repr json_dumps h a) = Ok status).
  { destruct (outcome (dispatch float_repr json_dumps h a)) as [[] | e] eqn:E.
    - rewrite (run_ok _ _ _ _ _ E). now exists 0.
    - rewrite (run_raise _ _ _ _ _ E). now exists 1. }
  destruct Hrun as [status Hrun]. rewrite Hrun.
  apply interpreter_exit_flushed. now rewrite pending_of_run.
Qed.


End ScriptExit.


Lemma in_list_notin (x : string) (l : list string) :
  ~ In x l -> PyStr.in_list x l = false.
Proof.
  intros H. destruct (PyStr.in_list x l) eqn:E; [ | reflexivity ].
  apply in_list_In in E. contradiction.
Qed.

Lemma classify_double_dash_format : classify "--format" = Some (KOption "--format" None).
Proof. reflexivity. Qed.

Lemma split_eq_format_eq (v : string) : split_eq ("--format=" +++ v) = ("--format", Some v).
Proof. reflexivity. Qed.

Lemma classify_format_eq (v : string) :
  classify ("--format=" +++ v) = Some (KOption "--format" (Some v)).
Proof. reflexivity. Qed.

(** The formats the second pass hands over. *)
Lemma consume_format (n : nat) (toks : list (string * token_kind)) (a0 a : args)
    (extras : bool) :
  (List.length toks <= n)%nat ->
  parsed_format (format a0) ->
  consume toks a0 extras = Parsed a ->
  parsed_format (format a).
Proof.
  revert toks a0 extras. induction n as [ | n IH]; intros toks a0 extras Hlen H0.
  - destruct toks; [ | simpl in Hlen; lia ]. cbn [consume].
    destruct extras; [ discriminate | ]. intros H. inversion H; subst. exact H0.
  - destruct toks as [ | [tok k] rest]; cbn [consume].
    + destruct extras; [ discriminate | ]. intros H. inversion H; subst. exact H0.
    + cbn [List.length] in Hlen.
      destruct k as [ | name explicit | ]; try (apply IH; [ lia | exact H0 ]).
      destruct (String.eqb name "--format").
      { destruct explicit as [v | ].
        - destruct (String.eqb v "--"); [ apply IH; [ lia | exact I ] | ].
          destruct (PyStr.in_list v format_choices) eqn:E; [ | discriminate ].
          apply IH; [ lia | ]. cbn [format parsed_format]. now apply in_list_In.
        - destruct rest as [ | [v [ | name' explicit' | ]] rest']; try discriminate.
          destruct (PyStr.in_list v format_choices) eqn:E; [ | discriminate ].
          apply IH; [ cbn [List.length] in Hlen; lia | ].
          cbn [format parsed_format]. now apply in_list_In. }
      destruct (String.eqb name "--once").
      { destruct explicit; [ discriminate | ]. apply IH; [ lia | exact H0 ]. }
      destruct explicit as [e | ]; [ | discriminate ].
      destruct (String.eqb name "-h" && all_h e); discriminate.
Qed.

(** The parser hands the dispatch one of the four choices, or the empty
    list. *)
Lemma parse_args_format (argv : list string) (a : args) :
  parse_args argv = Parsed a -> parsed_format (format a).
Proof.
  unfold parse_args. destruct (classify_all argv) as [toks | ]; [ | discriminate ].
  apply (consume_format (List.length toks)); [ lia | ]. cbn. auto.
Qed.

(** A value that is no choice, after [--format]. *)
Lemma parse_args_no_choice (v : string) :
  ~ In v format_choices -> parse_args ["--format"; v] = ArgError.
Proof.
  intros Hv. apply in_list_notin in Hv. unfold parse_args. cbn [classify_all].
  change (String.eqb "--format" "--") with false. cbv iota.
  rewrite classify_double_dash_format.
  destruct (String.eqb v "--").
  - reflexivity.
  - destruct (classify v) as [k | ]; [ | reflexivity ].
    cbn [consume]. change (String.eqb "--format" "--format") with true. cbv iota.
    destruct k; [ now rewrite Hv | reflexivity | reflexivity ].
Qed.

Lemma parse_args_no_choice_eq (v : string) :
  ~ In v format_choices -> v <> "--" -> parse_args ["--format=" +++ v] = ArgError.
Proof.
  intros Hv Hd. apply in_list_notin in Hv. apply String.eqb_neq in Hd.
  unfold parse_args. cbn [classify_all].
  change (String.eqb ("--format=" +++ v) "--") with false. cbv iota.
  rewrite classify_format_eq. cbn [consume].
  change (String.eqb "--format" "--format") with true. cbv iota.
  now rewrite Hd, Hv.
Qed.

(** [--format=--] leaves the empty list in the namespace. *)
Lemma parse_args_empty_list :
  parse_args ["--format=--"] = Parsed (mk_args EmptyList false).
Proof. reflexivity. Qed.

(** ** The header and the row *)

Lemma csv_plain (s t : string) (q : bool) :
  plain s = true -> csv_fields_from q (s +++ t) = csv_fields_from q t.
Proof.
  unfold plain. induction s as [ | c s IH]; [ reflexivity | ].
  cbn [PyStr.mem String.append csv_fields_from].
  rewrite !Bool.negb_orb. intros H.
  apply Bool.andb_true_iff in H. destruct H as [H1 H2].
  apply Bool.andb_true_iff in H1, H2. destruct H1 as [Hc1 Hs1], H2 as [Hc2 Hs2].
  apply Bool.negb_true_iff in Hc1, Hc2. rewrite Hc2, Hc1. cbn [andb].
  apply IH. now rewrite Hs1, Hs2.
Qed.

Lemma csv_inside_quotes (s t : string) :
  PyStr.mem PyStr.dquote s = false ->
  csv_fields_from true (s +++ t) = csv_fields_from true t.
Proof.
  induction s as [ | c s IH]; [ reflexivity | ].
  cbn [PyStr.mem String.append csv_fields_from]. intros H.
  apply Bool.orb_false_iff in H. destruct H as [Hc Hs]. rewrite Hc.
  cbn [negb]. rewrite Bool.andb_false_r. now apply IH.
Qed.

Lemma csv_quoted (s t : string) :
  PyStr.mem PyStr.dquote s = false ->
  csv_fields_from false ((String PyStr.dquote s +++ String PyStr.dquote "") +++ t)
  = csv_fields_from false t.
Proof.
  intros H. cbn [String.append csv_fields_from]. rewrite Ascii.eqb_refl. cbn [negb].
  rewrite append_assoc, csv_inside_quotes by assumption.
  cbn [String.append csv_fields_from]. now rewrite Ascii.eqb_refl.
Qed.

Lemma csv_comma (t : string) :
  csv_fields_from false ("," +++ t) = S (csv_fields_from false t).
Proof. reflexivity. Qed.

Lemma csv_fields_join (cells : list string) :
  cells <> [] -> Forall closed_field cells ->
  csv_fields (PyStr.join "," cells) = List.length cells.
Proof.
  unfold csv_fields. intros Hne Hall. induction Hall as [ | c rest Hc Hrest IH].
  - contradiction.
  - destruct rest as [ | c' rest].
    + cbn [PyStr.join List.length]. rewrite <- (append_nil_r c), Hc. reflexivity.
    + change (PyStr.join "," (c :: c' :: rest))
        with (c +++ "," +++ PyStr.join "," (c' :: rest)).
      rewrite Hc, csv_comma, IH by discriminate. reflexivity.
Qed.

Lemma mem_string_of_uint (c : ascii) (d : Decimal.uint) :
  (nat_of_ascii c < 45)%nat ->
  PyStr.mem c (NilEmpty.string_of_uint d) = false.
Proof.
  intros Hc. induction d; cbn [NilEmpty.string_of_uint PyStr.mem]; [ reflexivity | .. ];
    rewrite IHd, Bool.orb_false_r; apply Ascii.eqb_neq; intros <-;
    vm_compute in Hc; lia.
Qed.

Lemma mem_str_int (c : ascii) (n : Z) :
  (nat_of_ascii c < 45)%nat -> PyStr.mem c (str_int n) = false.
Proof.
  intros Hc. unfold str_int. destruct (Z.to_int n) as [d | d];
    cbn [NilEmpty.string_of_int PyStr.mem].
  - now apply mem_string_of_uint.
  - rewrite mem_string_of_uint by assumption. rewrite Bool.orb_false_r.
    apply Ascii.eqb_neq. intros <-. vm_compute in Hc. lia.
Qed.

Lemma plain_str_int (n : Z) : plain (str_int n) = true.
Proof.
  unfold plain. rewrite !mem_str_int; [ reflexivity | vm_compute; lia | vm_compute; lia ].
Qed.

Lemma closed_plain (s : string) : plain s = true -> closed_field s.
Proof. intros H t. now apply csv_plain. Qed.

Section Parity.
Variable float_repr : float -> string.
Hypothesis float_repr_plain : forall x, plain (float_repr x) = true.

Lemma closed_csv_field (v : value) :
  (forall s, v = VStr s -> PyStr.mem PyStr.dquote s = false) ->
  closed_field (csv_field float_repr v).
Proof.
  intros Hv. destruct v as [ | n | x | s]; cbn [csv_field].
  - intros t. reflexivity.
  - apply closed_plain, plain_str_int.
  - apply closed_plain, float_repr_plain.
  - specialize (Hv s eq_refl). destruct (PyStr.mem "," s) eqn:E.
    + intros t. now apply csv_quoted.
    + apply closed_plain. unfold plain. now rewrite E, Hv.
Qed.

Lemma snapshot_nonempty (h : Host) (m : ODict.t value) :
  outcome (collect_metrics h) = Ok m -> ODict.keys m <> [].
Proof.
  intros Hm. destruct (collect_metrics h) as [ev r] eqn:Hc. cbn [outcome snd] in Hm. subst r.
  destruct (collect_metrics_ok _ _ _ Hc) as (fixed & dm & totals & _ & _ & Hk & _ & -> & _).
  rewrite ODictFacts.keys_app, Hk. discriminate.
Qed.

(** The header is the keys joined by commas: as many fields as keys when no
    key has a comma or a double quote in it. *)
Lemma header_field_count (h : Host) (m : ODict.t value) :
  outcome (collect_metrics h) = Ok m ->
  (forall line, os_stdout_write h line = Ok tt) ->
  (forall k, In k (ODict.keys m) -> plain k = true) ->
  stdout_of (events (print_csv_header h)) = [PyStr.join "," (ODict.keys m)] /\
  csv_fields (PyStr.join "," (ODict.keys m)) = List.length (ODict.keys m).
Proof.
  intros Hm Hout Hkeys. split.
  - unfold print_csv_header.
    rewrite !bind_events, Hm, !stdout_of_app, collect_metrics_stdout.
    unfold print. rewrite !Hout. reflexivity.
  - apply csv_fields_join; [ now apply (snapshot_nonempty h) | ].
    apply Forall_forall. intros k Hk. apply closed_plain. now apply Hkeys.
Qed.

(** The row has one field for every key when no text in the snapshot has a
    double quote in it. *)
Lemma row_field_count (h : Host) (m : ODict.t value) :
  outcome (collect_metrics h) = Ok m ->
  (forall line, os_stdout_write h line = Ok tt) ->
  (forall k s, In (k, VStr s) m -> PyStr.mem PyStr.dquote s = false) ->
  stdout_of (events (print_csv_row float_repr h))
    = [PyStr.join "," (map (fun item => csv_field float_repr (snd item)) (ODict.items m))] /\
  csv_fields (PyStr.join "," (map (fun item => csv_field float_repr (snd item))
                                  (ODict.items m)))
    = List.length (ODict.keys m).
Proof.
  intros Hm Hout Hvals. split.
  - unfold print_csv_row.
    rewrite !bind_events, Hm, !stdout_of_app, collect_metrics_stdout.
    unfold print. rewrite !Hout. reflexivity.
  - rewrite csv_fields_join.
    + unfold ODict.keys, ODict.items. now rewrite !length_map.
    + pose proof (snapshot_nonempty h m Hm) as Hne.
      destruct m; [ now contradiction Hne | discriminate ].
    + apply Forall_forall. intros c Hc. apply in_map_iff in Hc.
      destruct Hc as ([k v] & Hc & Hin). subst c. cbn [snd]. apply closed_csv_field.
      intros s ->. now apply (Hvals k).
Qed.

End Parity.

Lemma mem_append (c : ascii) (a b : string) :
  PyStr.mem c (a +++ b) = PyStr.mem c a || PyStr.mem c b.
Proof.
  induction a as [ | x a IH]; [ reflexivity | ].
  cbn [String.append PyStr.mem]. now rewrite IH, Bool.orb_assoc.
Qed.

Lemma plain_append (a b : string) : plain (a +++ b) = plain a && plain b.
Proof.
  unfold plain. rewrite !mem_append, !Bool.negb_orb.
  destruct (PyStr.mem "," a), (PyStr.mem "," b), (PyStr.mem PyStr.dquote a),
    (PyStr.mem PyStr.dquote b); reflexivity.
Qed.

Lemma mem_replace (c a b : ascii) (s : string) :
  c <> b -> PyStr.mem c s = false -> PyStr.mem c (PyStr.replace a b s) = false.
Proof.
  intros Hcb. induction s as [ | x s IH]; [ reflexivity | ].
  cbn [PyStr.replace PyStr.mem]. intros H.
  apply Bool.orb_false_iff in H. destruct H as [Hx Hs]. rewrite (IH Hs), Bool.orb_false_r.
  destruct (Ascii.eqb x a); [ | assumption ].
  apply Ascii.eqb_neq. congruence.
Qed.

Lemma mem_lstrip (c x : ascii) (s : string) :
  PyStr.mem c s = false -> PyStr.mem c (PyStr.lstrip x s) = false.
Proof.
  induction s as [ | y s IH]; [ reflexivity | ].
  cbn [PyStr.lstrip]. intros H. destruct (Ascii.eqb y x); [ | assumption ].
  cbn [PyStr.mem] in H. apply Bool.orb_false_iff in H. now apply IH.
Qed.

Lemma mem_rstrip (c x : ascii) (s : string) :
  PyStr.mem c s = false -> PyStr.mem c (PyStr.rstrip x s) = false.
Proof.
  induction s as [ | y s IH]; [ reflexivity | ].
  cbn [PyStr.rstrip PyStr.mem]. intros H.
  apply Bool.orb_false_iff in H. destruct H as [Hy Hs]. specialize (IH Hs).
  destruct (PyStr.rstrip x s) as [ | z r].
  - destruct (Ascii.eqb y x); [ reflexivity | ].
    cbn [PyStr.mem]. now rewrite Hy.
  - cbn [PyStr.mem] in *. now rewrite Hy, IH.
Qed.

Lemma mem_mount_name (c : ascii) (mp : string) :
  c <> "_"%char -> PyStr.mem c "root" = false ->
  PyStr.mem c mp = false -> PyStr.mem c (mount_name mp) = false.
Proof.
  intros Hc Hroot Hmp. unfold mount_name, PyStr.strip.
  assert (H : PyStr.mem c (PyStr.rstrip "_" (PyStr.lstrip "_"
                (PyStr.replace "." "_" (PyStr.replace "/" "_" mp)))) = false).
  { apply mem_rstrip, mem_lstrip, mem_replace; [ assumption | ].
    now apply mem_replace. }
  destruct (PyStr.rstrip _ _); assumption.
Qed.

Lemma plain_mount_name (mp : string) : plain mp = true -> plain (mount_name mp) = true.
Proof.
  unfold plain. intros H. apply Bool.andb_true_iff in H. destruct H as [H1 H2].
  apply Bool.negb_true_iff in H1, H2.
  rewrite !mem_mount_name; try reflexivity; try assumption; discriminate.
Qed.

Lemma plain_disk_keys (n k : string) :
  plain n = true -> In k (disk_keys n) -> plain k = true.
Proof.
  intros Hn Hk. apply in_disk_keys in Hk. destruct Hk as (suffix & Hs & ->).
  unfold disk_key. rewrite !plain_append, Hn.
  cbn in Hs. repeat (destruct Hs as [<- | Hs]; [ reflexivity | ]). contradiction.
Qed.

(** When no mount point has a comma or a double quote in it, no key has. *)
Lemma plain_keys (h : Host) (ev : list event) (m : ODict.t value)
    (parts : list sdiskpart) :
  collect_metrics h = (ev, Ok m) ->
  os_disk_partitions h = Ok parts ->
  (forall p, In p parts -> plain (mountpoint p) = true) ->
  forall k, In k (ODict.keys m) -> plain k = true.
Proof.
  intros Hc Hparts Hplain k.
  destruct (collect_metrics_ok _ _ _ Hc)
    as (fixed & dm & totals & Hdm & _ & Hk & Ht & -> & _).
  rewrite (outcome_get_disk_metrics _ _ Hparts) in Hdm. inversion Hdm; subst dm.
  rewrite !ODictFacts.keys_app, !in_app_iff, Hk.
  intros [H | [H | [H | H]]].
  - cbn in H. repeat (destruct H as [<- | H]; [ reflexivity | ]). contradiction.
  - apply in_keys_all_disk_columns in H. destruct H as (n & Hn & Hkn).
    apply in_keys_scan in Hn. destruct Hn as [[] | (p & Hp & _ & <-)].
    eapply plain_disk_keys; [ | eassumption ]. apply plain_mount_name. now apply Hplain.
  - apply (disk_totals_keys _ _ _ Ht) in H. cbn in H.
    repeat (destruct H as [<- | H]; [ reflexivity | ]). contradiction.
  - cbn in H. destruct H as [<- | []]. reflexivity.
Qed.

Lemma mem_substring (c : ascii) (s : string) (n len : nat) :
  PyStr.mem c s = false -> PyStr.mem c (String.substring n len s) = false.
Proof.
  revert n len. induction s as [ | x s IH]; intros n len H.
  - destruct n, len; reflexivity.
  - cbn [PyStr.mem] in H. apply Bool.orb_false_iff in H. destruct H as [Hx Hs].
    destruct n as [ | n]; cbn [String.substring].
    + destruct len as [ | len]; [ reflexivity | ].
      cbn [PyStr.mem]. rewrite Hx. now apply IH.
    + now apply IH.
Qed.

Lemma mem_zeros (c : ascii) (n : nat) :
  c <> "0"%char -> PyStr.mem c (PyFloat.zeros n) = false.
Proof.
  intros Hc. induction n as [ | n IH]; [ reflexivity | ].
  cbn [PyFloat.zeros PyStr.mem]. rewrite IH, Bool.orb_false_r.
  apply Ascii.eqb_neq. congruence.
Qed.

Lemma mem_place_point (c : ascii) (digits : nat) (n : Z) :
  (nat_of_ascii c < 45)%nat ->
  PyStr.mem c (PyFloat.place_point digits n) = false.
Proof.
  intros Hc. unfold PyFloat.place_point.
  assert (H0 : c <> "0"%char) by (intros ->; vm_compute in Hc; lia).
  assert (Hs : PyStr.mem c (PyFloat.zeros (S digits - String.length (str_int n))
                            +++ str_int n) = false).
  { now rewrite mem_append, mem_zeros, mem_str_int. }
  destruct digits; [ exact Hs | ].
  rewrite !mem_append, !mem_substring by exact Hs.
  cbn [PyStr.mem orb]. rewrite ?Bool.orb_false_r.
  apply Ascii.eqb_neq. intros <-. vm_compute in Hc. lia.
Qed.

Lemma mem_format_fixed (c : ascii) (digits : nat) (x : float) :
  (nat_of_ascii c < 45)%nat ->
  PyStr.mem c (PyFloat.format_fixed digits x) = false.
Proof.
  intros Hc.
  assert (Hsign : forall s : bool, PyStr.mem c (if s then "-" else "") = false).
  { intros [ | ]; [ | reflexivity ]. cbn [PyStr.mem]. rewrite Bool.orb_false_r.
    apply Ascii.eqb_neq. intros <-. vm_compute in Hc. lia. }
  assert (Hword : forall w, In w ["nan"; "inf"; "-inf"] -> PyStr.mem c w = false).
  { intros w Hw. cbn in Hw.
    repeat (destruct Hw as [<- | Hw];
            [ cbn [PyStr.mem]; rewrite ?Bool.orb_false_r;
              repeat (apply Bool.orb_false_iff; split);
              apply Ascii.eqb_neq; intros <-; vm_compute in Hc; lia | ]).
    contradiction. }
  destruct x as [s | s | | s m e]; cbn [PyFloat.format_fixed].
  - now rewrite mem_append, Hsign, mem_place_point.
  - destruct s; apply Hword; cbn; auto.
  - apply Hword; cbn; auto.
  - now rewrite mem_append, Hsign, mem_place_point.
Qed.

(** The text of [format(x, '.<digits>f')] has no comma and no double quote. *)
Lemma plain_format_fixed (digits : nat) (x : float) :
  plain (PyFloat.format_fixed digits x) = true.
Proof.
  unfold plain. rewrite !mem_format_fixed; [ reflexivity | vm_compute; lia | vm_compute; lia ].
Qed.

(** ** Rounding to hundredths *)




(** * Lemmas for the further properties *)

(** ** The order of the keys *)

Lemma first_occurrences_seen (s1 s2 l : list string) :
  (forall x, In x s1 <-> In x s2) ->
  first_occurrences s1 l = first_occurrences s2 l.
Proof.
  revert s1 s2. induction l as [ | x r IH]; intros s1 s2 Hs; [ reflexivity | ].
  cbn [first_occurrences].
  assert (E : PyStr.in_list x s1 = PyStr.in_list x s2).
  { apply Bool.eq_true_iff_eq. rewrite !in_list_In. apply Hs. }
  rewrite E. destruct (PyStr.in_list x s2).
  - now apply IH.
  - f_equal. apply IH. intros y. simpl. rewrite Hs. tauto.
Qed.

(** [disk_metrics] keeps a name where it was first entered. *)
Lemma keys_scan_order (h : Host) (parts : list sdiskpart) (d : ODict.t disk_info) :
  ODict.keys (fold_left (record_partition h) parts d) =
  ODict.keys d ++
  first_occurrences (ODict.keys d)
    (map (fun p => mount_name (mountpoint p)) (filter (makes_entry h) parts)).
Proof.
  revert d. induction parts as [ | p rest IH]; intros d.
  - cbn. now rewrite app_nil_r.
  - cbn [fold_left filter]. rewrite IH. unfold record_partition, makes_entry.
    destruct (entry_of h p) as [info | ]; [ | reflexivity ].
    cbn [map first_occurrences].
    destruct (PyStr.in_list (mount_name (mountpoint p)) (ODict.keys d)) eqn:E.
    + apply in_list_In in E. now rewrite ODictFacts.keys_set_present.
    + assert (Hnone : ODict.get (mount_name (mountpoint p)) d = None).
      { apply ODictFacts.get_none_notin. intros Hin. apply in_list_In in Hin. congruence. }
      rewrite ODictFacts.set_fresh, ODictFacts.keys_app by assumption.
      cbn [ODict.keys map fst]. rewrite <- app_assoc. cbn [app]. do 2 f_equal.
      apply first_occurrences_seen. intros x. rewrite in_app_iff. simpl. tauto.
Qed.

Lemma keys_scan_first_names (h : Host) (parts : list sdiskpart) :
  ODict.keys (fold_left (record_partition h) parts []) = first_names h parts.
Proof. now rewrite keys_scan_order. Qed.

Lemma length_flat_map_disk_keys (names : list string) :
  List.length (flat_map disk_keys names) = (6 * List.length names)%nat.
Proof.
  induction names as [ | n names IH]; [ reflexivity | ].
  cbn [flat_map]. rewrite length_app, IH. cbn [List.length disk_keys map disk_suffixes]. lia.
Qed.

Lemma keys_disk_totals (d : ODict.t disk_info) (l : list event)
    (totals : list (string * value)) :
  disk_totals d = (l, Ok totals) ->
  ODict.keys totals = if sum_counted di_total_bytes d >? 0 then total_keys else [].
Proof.
  unfold disk_totals. destruct (sum_counted di_total_bytes d >? 0); intros Ht.
  - do 3 inv_bind Ht. apply ret_ok_inv in Ht. now destruct Ht as [-> _].
  - apply ret_ok_inv in Ht. now destruct Ht as [-> _].
Qed.

(** The keys of a snapshot, in order. *)
Lemma snapshot_keys (h : Host) (ev : list event) (m : ODict.t value)
    (parts : list sdiskpart) :
  collect_metrics h = (ev, Ok m) ->
  os_disk_partitions h = Ok parts ->
  ODict.keys m =
  fixed_keys
    ++ flat_map disk_keys (first_names h parts)
    ++ (if sum_counted di_total_bytes (fold_left (record_partition h) parts []) >? 0
        then total_keys else [])
    ++ ["disk_count"].
Proof.
  intros Hc Hparts.
  destruct (collect_metrics_ok _ _ _ Hc)
    as (fixed & dm & totals & Hdm & _ & Hk & Ht & -> & _).
  rewrite (outcome_get_disk_metrics _ _ Hparts) in Hdm. inversion Hdm; subst dm.
  rewrite !ODictFacts.keys_app, Hk, keys_all_disk_columns, keys_scan_first_names.
  now rewrite (keys_disk_totals _ _ _ Ht).
Qed.

(** ** The queries of the scan and of the collection *)




Ltac query_step :=
  rewrite queries_bind;
  cbn [query events outcome fst snd queries_of flat_map app];
  match goal with
  | |- context [match ?r with Ok _ => _ | Raise _ => _ end] => destruct r
  end;
  [ | eexists; cbn [app]; rewrite <- ?app_assoc; cbn [app]; reflexivity ].

Lemma collect_metrics_query_prefix (h : Host) :
  exists rest,
    collection_queries h = queries_of (events (collect_metrics h)) ++ rest.
Proof.
  unfold collection_queries, collect_metrics. cbn [app].
  set (scan := queries_of (events (get_disk_metrics h))).
  rewrite queries_bind. cbn [query events outcome fst snd queries_of flat_map app].
  do 6 query_step.
  rewrite queries_bind. fold scan.
  destruct (outcome (get_disk_metrics h)) as [dm | e];
    [ | eexists; cbn [app]; rewrite <- ?app_assoc; cbn [app]; reflexivity ].
  do 5 query_step.
  exists []. rewrite app_nil_r.
  match goal with
  | |- context [queries_of (events ?m)] =>
    rewrite (queries_of_nil (events m))
  end.
  - cbn [app]. now rewrite <- ?app_assoc.
  - repeat (apply emits_only_bind;
            [ first [ apply emits_only_round_div | apply emits_only_swap_gb
                    | apply emits_only_attr_of ] | intros ]).
    apply emits_only_add_disk_metrics.
Qed.

(** ** When a collection succeeds *)









(** ** The types of the values *)

Lemma swap_gb_type (total n : Z) (l : list event) (v : value) :
  swap_gb total n = (l, Ok v) ->
  ((total >? 0) = true /\ type_of v = TFloat) \/ ((total >? 0) = false /\ v = VInt 0).
Proof.
  unfold swap_gb. destruct (total >? 0); intros H.
  - inv_bind H. apply ret_ok_inv in H. destruct H as [-> _]. now left.
  - apply ret_ok_inv in H. destruct H as [-> _]. now right.
Qed.

Lemma column_types_disk_key (n suffix : string) :
  In suffix disk_suffixes ->
  column_types (disk_key n suffix) =
  if String.eqb suffix "_device" || String.eqb suffix "_fstype" then [TStr] else [TFloat].
Proof.
  intros Hs. unfold column_types. rewrite (is_disk_key_disk_key _ _ Hs).
  assert (Hend : forall s, ends_with s (disk_key n s) = true).
  { intros s. unfold disk_key. rewrite <- append_assoc. apply ends_with_append. }
  cbn in Hs.
  do 4 (destruct Hs as [<- | Hs];
        [ unfold ends_with, disk_key; rewrite !srev_append; vm_compute; reflexivity | ]).
  destruct Hs as [<- | [<- | []]]; rewrite Hend, ?Bool.orb_true_r; reflexivity.
Qed.

Lemma disk_columns_types (n : string) (info : disk_info) (k : string) (v : value) :
  In (k, v) (disk_columns n info) -> In (type_of v) (column_types k).
Proof.
  unfold disk_columns, disk_keys, disk_values, disk_suffixes. cbn [map combine].
  intros H.
  repeat (destruct H as [H | H];
          [ inversion H; subst; rewrite column_types_disk_key by (cbn; tauto);
            cbn; tauto | ]).
  contradiction.
Qed.

Lemma all_disk_columns_types (dm : ODict.t disk_info) (k : string) (v : value) :
  In (k, v) (all_disk_columns dm) -> In (type_of v) (column_types k).
Proof.
  unfold all_disk_columns. rewrite in_flat_map. intros ([n info] & _ & H).
  now apply disk_columns_types in H.
Qed.

Lemma disk_totals_types (dm : ODict.t disk_info) (l : list event)
    (totals : list (string * value)) (k : string) (v : value) :
  disk_totals dm = (l, Ok totals) -> In (k, v) totals ->
  In (type_of v) (column_types k).
Proof.
  unfold disk_totals. destruct (sum_counted di_total_bytes dm >? 0); intros Ht.
  - do 3 inv_bind Ht. apply ret_ok_inv in Ht. destruct Ht as [-> _]. intros H.
    repeat (destruct H as [H | H]; [ inversion H; subst; vm_compute; tauto | ]).
    contradiction.
  - apply ret_ok_inv in Ht. destruct Ht as [-> _]. contradiction.
Qed.

Ltac typed_column :=
  match goal with
  | |- In _ (column_types ?k) =>
    let l := eval vm_compute in (column_types k) in
    change (column_types k) with l; cbn [In];
    first [ left; reflexivity | right; left; reflexivity ]
  end.

(** The snapshot with the types of what the dict literal holds. *)
Lemma collect_metrics_typed (h : Host) (ev : list event) (m : ODict.t value) :
  collect_metrics h = (ev, Ok m) ->
  exists fixed dm totals,
    outcome (get_disk_metrics h) = Ok dm /\
    disk_totals dm = ([], Ok totals) /\
    m = fixed ++ all_disk_columns dm ++ totals ++ [("disk_count", VInt (ODict.len dm))] /\
    ODict.keys fixed = fixed_keys /\
    (forall k v, In (k, v) fixed -> In (type_of v) (column_types k)) /\
    (exists swap, os_swap_memory h = Ok swap /\
       forall k, In k ["swap_total_gb"; "swap_used_gb"; "swap_percent"] ->
       exists v, ODict.get k fixed = Some v /\
                 (((sw_total swap >? 0) = true /\ type_of v = TFloat) \/
                  ((sw_total swap >? 0) = false /\ v = VInt 0))).
Proof.
  unfold collect_metrics. intros H.
  do 26 inv_bind H.
  repeat match goal with
         | Hq : query _ _ = (_, Ok _) |- _ =>
           apply query_ok_inv in Hq; destruct Hq as [? ->]
         | Hq : round_div _ _ = (?l, Ok _) |- _ =>
           apply (events_nil_eq _ _ _ (round_div_events _ _)) in Hq; subst l
         | Hq : attr_of _ _ = (?l, Ok _) |- _ =>
           apply (events_nil_eq _ _ _ (attr_of_events _ _)) in Hq; subst l
         end.
  match goal with
  | Hq : get_disk_metrics h = (?l, Ok ?dm) |- _ =>
    rename dm into disk_metrics; rename Hq into Hdm
  end.
  assert (Hnd : NoDup (ODict.keys disk_metrics)).
  { destruct (get_disk_metrics_ok_inv _ _ _ Hdm) as (parts & _ & -> & _).
    apply NoDup_keys_scan. constructor. }
  match goal with
  | Hs1 : swap_gb _ (sw_total ?s) = (_, Ok ?v1), Hs2 : swap_gb _ (sw_used ?s) = (_, Ok ?v2) |- _ =>
    apply swap_gb_type in Hs1, Hs2; rename Hs1 into Hswap1; rename Hs2 into Hswap2
  end.
  match type of H with
  | add_disk_metrics ?f _ = _ => set (fixed := f) in *
  end.
  apply add_disk_metrics_ok in H; [ | assumption | | ].
  - destruct H as (totals & Ht & -> & _).
    exists fixed, disk_metrics, totals.
    split; [ now rewrite Hdm | ].
    split; [ assumption | ].
    split; [ reflexivity | ].
    split; [ reflexivity | ].
    split.
    + intros k v Hin. subst fixed. cbn [In] in Hin.
      repeat (destruct Hin as [Hin | Hin];
              [ injection Hin as <- <-;
                try (cbn [type_of]; typed_column) | ]); try contradiction.
      * destruct a2; cbn [type_of]; typed_column.
      * destruct a3; cbn [type_of]; typed_column.
      * destruct Hswap1 as [[_ E] | [_ ->]]; [ rewrite E | ]; cbn [type_of]; typed_column.
      * destruct Hswap2 as [[_ E] | [_ ->]]; [ rewrite E | ]; cbn [type_of]; typed_column.
      * destruct (sw_total _ >? 0); cbn [type_of]; typed_column.
    + match goal with
      | Hos : os_swap_memory h = Ok ?s |- _ =>
        rename s into swap; exists swap; split; [ exact Hos | ]
      end.
      intros k Hk.
      assert (Hnd' : NoDup (ODict.keys fixed)).
      { apply distinct_NoDup. vm_compute. reflexivity. }
      cbn [In] in Hk.
      destruct Hk as [<- | [<- | [<- | []]]]; eexists;
        (split; [ apply (in_get _ _ _ Hnd'); subst fixed; cbn [In];
                  do 12 right; first [ left; reflexivity
                                     | right; left; reflexivity
                                     | right; right; left; reflexivity ] | ]).
      * assumption.
      * assumption.
      * destruct (sw_total swap >? 0); [ left | right ]; split; reflexivity.
  - intros k Hk. apply is_disk_key_fixed. apply in_app_iff. now left.
  - intros k Hk Hin. cbn in Hk, Hin.
    repeat (destruct Hk as [<- | Hk]; [ intuition discriminate | ]). contradiction.
Qed.




(** ** The command line *)

Section CommandLine.
Variable float_repr : float -> string.
Variable json_dumps : ODict.t value -> string.

Lemma run_once_irrelevant (h : Host) (f : format_value) (o : bool) :
  run float_repr json_dumps h (mk_args f o) = run float_repr json_dumps h (mk_args f false).
Proof. unfold run, dispatch. cbn [format once]. now destruct o. Qed.

(** [--once] sets the flag and changes nothing else of the parse. *)
Lemma consume_once (n : nat) (toks : list (string * token_kind)) (f : format_value)
    (o extras : bool) :
  (List.length toks <= n)%nat ->
  consume toks (mk_args f true) extras =
  match consume toks (mk_args f o) extras with
  | Parsed a => Parsed (mk_args (format a) true)
  | Help => Help
  | ArgError => ArgError
  end.
Proof.
  revert toks f o extras. induction n as [ | n IH]; intros toks f o extras Hlen.
  - destruct toks; [ now destruct extras | cbn in Hlen; lia ].
  - destruct toks as [ | [tok k] rest]; [ now destruct extras | ].
    cbn [List.length] in Hlen. cbn [consume format once].
    destruct k as [ | name explicit | ]; try (apply IH; lia).
    destruct (String.eqb name "--format").
    { destruct explicit as [v | ].
      - destruct (String.eqb v "--"); [ apply IH; lia | ].
        destruct (PyStr.in_list v format_choices); [ apply IH; lia | reflexivity ].
      - destruct rest as [ | [v [ | name' explicit' | ]] rest']; try reflexivity.
        destruct (PyStr.in_list v format_choices); [ | reflexivity ].
        apply IH. cbn [List.length] in Hlen. lia. }
    destruct (String.eqb name "--once").
    { destruct explicit; [ reflexivity | ].
      rewrite (IH rest f true) by lia.
      now destruct (consume rest (mk_args f true) extras). }
    destruct explicit as [e | ]; [ | reflexivity ].
    now destruct (String.eqb name "-h" && all_h e).
Qed.

Lemma parse_args_once (argv : list string) :
  parse_args ("--once" :: argv) =
  match parse_args argv with
  | Parsed a => Parsed (mk_args (format a) true)
  | Help => Help
  | ArgError => ArgError
  end.
Proof.
  unfold parse_args. cbn [classify_all].
  change (String.eqb "--once" "--") with false. cbv iota.
  change (classify "--once") with (Some (KOption "--once" None)). cbv iota.
  destruct (classify_all argv) as [toks | ]; [ | reflexivity ].
  cbn [consume]. change (String.eqb "--once" "--format") with false.
  change (String.eqb "--once" "--once") with true. cbv iota. cbn [format].
  apply (consume_once (List.length toks)). apply Nat.le_refl.
Qed.

Lemma main_once_irrelevant (h : Host) (argv : list string) :
  main float_repr json_dumps h ("--once" :: argv) = main float_repr json_dumps h argv.
Proof.
  unfold main. rewrite parse_args_once.
  destruct (parse_args argv) as [a | | ]; [ | reflexivity | reflexivity ].
  destruct a as [f o]. cbn [format].
  now rewrite run_once_irrelevant, (run_once_irrelevant h f o).
Qed.

End CommandLine.

(** ** The names of the mounts *)

Lemma mem_replaced (a b : ascii) (s : string) :
  a <> b -> PyStr.mem a (PyStr.replace a b s) = false.
Proof.
  intros Hab. induction s as [ | c r IH]; [ reflexivity | ].
  cbn [PyStr.replace PyStr.mem]. rewrite IH, Bool.orb_false_r.
  destruct (Ascii.eqb c a) eqn:E; [ | assumption ].
  apply Ascii.eqb_neq. congruence.
Qed.

Lemma replace_absent (a b : ascii) (s : string) :
  PyStr.mem a s = false -> PyStr.replace a b s = s.
Proof.
  induction s as [ | c r IH]; [ reflexivity | ].
  cbn [PyStr.replace PyStr.mem]. intros H.
  apply Bool.orb_false_iff in H. destruct H as [H1 H2].
  now rewrite H1, IH.
Qed.

Lemma lstrip_id (c : ascii) (s : string) :
  (forall t, s <> String c t) -> PyStr.lstrip c s = s.
Proof.
  destruct s as [ | a r]; [ reflexivity | ]. intros H. cbn [PyStr.lstrip].
  destruct (Ascii.eqb a c) eqn:E; [ | reflexivity ].
  apply Ascii.eqb_eq in E. subst a. now elim (H r).
Qed.

Lemma rstrip_id (c : ascii) (s : string) :
  (forall t, s <> t +++ String c "") -> PyStr.rstrip c s = s.
Proof.
  induction s as [ | a r IH]; [ reflexivity | ]. intros H. cbn [PyStr.rstrip].
  destruct r as [ | a' r'].
  - cbn [PyStr.rstrip]. destruct (Ascii.eqb a c) eqn:E; [ | reflexivity ].
    apply Ascii.eqb_eq in E. subst a. now elim (H "").
  - rewrite IH; [ reflexivity | ].
    intros t Ht. apply (H (String a t)). cbn [append]. now rewrite <- Ht.
Qed.

Lemma mem_repeat_other (c x : ascii) (n : nat) :
  c <> x -> PyStr.mem c (PyStr.repeat x n) = false.
Proof.
  intros H. induction n as [ | n IH]; [ reflexivity | ].
  cbn [PyStr.repeat PyStr.mem]. rewrite IH, Bool.orb_false_r.
  apply Ascii.eqb_neq. congruence.
Qed.

Lemma mem_map_chars_kept (c : ascii) (s : string) :
  c <> "/"%char -> c <> "."%char ->
  PyStr.mem c s = true -> PyStr.mem c (map_chars underscored s) = true.
Proof.
  intros H1 H2. induction s as [ | a r IH]; [ discriminate | ].
  cbn [map_chars PyStr.mem]. intros H. apply Bool.orb_true_iff in H.
  apply Bool.orb_true_iff. destruct H as [H | H]; [ left | right; auto ].
  apply Ascii.eqb_eq in H. subst a. unfold underscored.
  apply Ascii.eqb_neq in H1, H2. rewrite H1, H2. apply Ascii.eqb_refl.
Qed.

Lemma mount_name_no_separator (mp : string) :
  PyStr.mem "/" (mount_name mp) = false /\ PyStr.mem "." (mount_name mp) = false.
Proof.
  unfold mount_name, PyStr.strip.
  assert (H1 : PyStr.mem "/" (PyStr.rstrip "_" (PyStr.lstrip "_"
                 (PyStr.replace "." "_" (PyStr.replace "/" "_" mp)))) = false).
  { apply mem_rstrip, mem_lstrip, mem_replace; [ discriminate | ].
    apply mem_replaced. discriminate. }
  assert (H2 : PyStr.mem "." (PyStr.rstrip "_" (PyStr.lstrip "_"
                 (PyStr.replace "." "_" (PyStr.replace "/" "_" mp)))) = false).
  { apply mem_rstrip, mem_lstrip, mem_replaced. discriminate. }
  destruct (PyStr.rstrip "_" _); [ split; reflexivity | split; assumption ].
Qed.

Lemma mount_name_edges (mp : string) :
  (forall t, mount_name mp <> String "_" t) /\
  (forall t, mount_name mp <> t +++ "_") /\
  mount_name mp <> "".
Proof.
  destruct (mount_name_spec mp) as (a & b & core & _ & Hh & Ht & ->).
  destruct core as [ | c r].
  - repeat split.
    + intros t. discriminate.
    + intros t H. apply (f_equal srev) in H. rewrite srev_append in H. discriminate H.
    + discriminate.
  - repeat split; [ assumption | assumption | discriminate ].
Qed.

Lemma mount_name_idempotent (mp : string) : mount_name (mount_name mp) = mount_name mp.
Proof.
  destruct (mount_name_no_separator mp) as [H1 H2].
  destruct (mount_name_edges mp) as (Hh & Ht & Hne).
  unfold mount_name at 1, PyStr.strip.
  rewrite (replace_absent "/" "_" _ H1), (replace_absent "." "_" _ H2).
  rewrite lstrip_id by assumption. rewrite rstrip_id by assumption.
  destruct (mount_name mp); [ now elim Hne | reflexivity ].
Qed.

Lemma mount_name_keeps (c : ascii) (mp : string) :
  c <> "/"%char -> c <> "."%char -> c <> "_"%char ->
  PyStr.mem c mp = true -> PyStr.mem c (mount_name mp) = true.
Proof.
  intros H1 H2 H3 Hin.
  destruct (mount_name_spec mp) as (a & b & core & Hsplit & _ & _ & ->).
  apply (mem_map_chars_kept c mp H1 H2) in Hin.
  rewrite Hsplit, !mem_append, !(mem_repeat_other c "_") in Hin by assumption.
  rewrite Bool.orb_false_l, Bool.orb_false_r in Hin.
  destruct core; [ discriminate | assumption ].
Qed.

(** ** Printing a snapshot *)

Lemma prints_ret {A : Type} (a : A) : prints 0 (ret a) a.
Proof. now exists []. Qed.

Lemma prints_bind {A B : Type} (n n' : nat) (m : M A) (a : A) (k : A -> M B) (b : B) :
  prints n m a -> prints n' (k a) b -> prints (n + n') (bind m k) b.
Proof.
  intros (l1 & -> & <-) (l2 & Hk & <-). exists (l1 ++ l2).
  unfold bind. rewrite Hk, map_app, length_app. now split.
Qed.

Lemma prints_print (h : Host) (line : string) :
  os_stdout_write h line = Ok tt -> prints 1 (print h line) tt.
Proof. intros H. exists [line]. unfold print. now rewrite H. Qed.

Lemma prints_count {A : Type} (n n' : nat) (m : M A) (a : A) :
  prints n m a -> n = n' -> prints n' m a.
Proof. now intros H <-. Qed.

Lemma stdout_of_map_Stdout (lines : list string) : stdout_of (map Stdout lines) = lines.
Proof.
  induction lines as [ | s r IH]; [ reflexivity | ].
  cbn [map stdout_of flat_map app]. fold (stdout_of (map Stdout r)). now rewrite IH.
Qed.

Section Printing.
Variable float_repr : float -> string.
Variable json_dumps : ODict.t value -> string.

Lemma prints_getitem (d : ODict.t value) (k : string) (v : value) :
  ODict.get k d = Some v -> prints 0 (getitem d k) v.
Proof. intros H. unfold getitem. rewrite H. apply prints_ret. Qed.

Lemma prints_format_f (digits : nat) (x : float) :
  prints 0 (format_f digits (VFloat x)) (PyFloat.format_fixed digits x).
Proof. apply prints_ret. Qed.

Lemma prints_print_disks (h : Host) (items : list (string * disk_info)) :
  (forall line, os_stdout_write h line = Ok tt) ->
  prints (4 * List.length items) (print_disks float_repr h items) tt.
Proof.
  intros Hout. induction items as [ | [n info] rest IH].
  - apply prints_ret.
  - cbn [print_disks]. eapply prints_count.
    + eapply prints_bind; [ | exact IH ].
      unfold print_disk.
      repeat (eapply prints_bind; [ apply prints_print, Hout | ]).
      apply prints_print, Hout.
    + cbn [List.length]. lia.
Qed.

End Printing.

Lemma snapshot_get_fixed (h : Host) (ev : list event) (m : ODict.t value) (k : string) :
  collect_metrics h = (ev, Ok m) ->
  PyStr.in_list k fixed_keys = true ->
  exists v, ODict.get k m = Some v /\ In (type_of v) (column_types k).
Proof.
  intros Hc Hk. apply in_list_In in Hk.
  destruct (collect_metrics_typed _ _ _ Hc)
    as (fixed & dm & totals & _ & _ & -> & Hkeys & Hfixed & _).
  rewrite <- Hkeys in Hk.
  destruct (ODict.get k fixed) as [v | ] eqn:Hget.
  - exists v. split; [ now rewrite ODictFacts.get_app, Hget | ].
    apply Hfixed. now apply ODictFacts.get_some_in.
  - apply ODictFacts.get_none_notin in Hget. contradiction.
Qed.

Lemma snapshot_get_float (h : Host) (ev : list event) (m : ODict.t value) (k : string) :
  collect_metrics h = (ev, Ok m) ->
  PyStr.in_list k fixed_keys = true ->
  column_types k = [TFloat] ->
  exists x, ODict.get k m = Some (VFloat x).
Proof.
  intros Hc Hk Hty. destruct (snapshot_get_fixed _ _ _ _ Hc Hk) as (v & Hv & Hin).
  rewrite Hty in Hin. destruct Hin as [Hin | []].
  destruct v; try discriminate Hin. eauto.
Qed.

(** The three swap values are floats together, or 0 together. *)
Lemma snapshot_get_swap (h : Host) (ev : list event) (m : ODict.t value) :
  collect_metrics h = (ev, Ok m) ->
  (exists x y z,
     ODict.get "swap_total_gb" m = Some (VFloat x) /\
     ODict.get "swap_used_gb" m = Some (VFloat y) /\
     ODict.get "swap_percent" m = Some (VFloat z)) \/
  (ODict.get "swap_total_gb" m = Some (VInt 0) /\
   ODict.get "swap_used_gb" m = Some (VInt 0) /\
   ODict.get "swap_percent" m = Some (VInt 0)).
Proof.
  intros Hc.
  destruct (collect_metrics_typed _ _ _ Hc)
    as (fixed & dm & totals & _ & _ & -> & _ & _ & swap & _ & Hswap).
  destruct (Hswap "swap_total_gb") as (v1 & H1 & C1); [ cbn; tauto | ].
  destruct (Hswap "swap_used_gb") as (v2 & H2 & C2); [ cbn; tauto | ].
  destruct (Hswap "swap_percent") as (v3 & H3 & C3); [ cbn; tauto | ].
  rewrite !ODictFacts.get_app, H1, H2, H3.
  destruct C1 as [[E T1] | [E ->]].
  - left.
    destruct C2 as [[_ T2] | [E2 _]]; [ | congruence ].
    destruct C3 as [[_ T3] | [E3 _]]; [ | congruence ].
    destruct v1; try discriminate T1. destruct v2; try discriminate T2.
    destruct v3; try discriminate T3. do 3 eexists. repeat split.
  - right.
    destruct C2 as [[E2 _] | [_ ->]]; [ congruence | ].
    destruct C3 as [[E3 _] | [_ ->]]; [ congruence | ]. auto.
Qed.

Section Report.
Variable float_repr : float -> string.
Variable json_dumps : ODict.t value -> string.

Ltac prints_all Hout :=
  first [ apply prints_print, Hout
        | apply prints_getitem; eassumption
        | apply prints_format_f
        | apply prints_print_disks, Hout
        | apply prints_ret
        | eapply prints_bind; [ prints_all Hout | cbv beta; prints_all Hout ] ].

Ltac prints_step Hout :=
  eapply prints_bind; [ prints_all Hout | cbv beta ].

(** What the report prints once the snapshot and the disks are there. *)
Lemma human_report_prints (h : Host) (ev : list event) (m : ODict.t value)
    (evd : list event) (dm : ODict.t disk_info) :
  collect_metrics h = (ev, Ok m) ->
  get_disk_metrics h = (evd, Ok dm) ->
  (forall line, os_stdout_write h line = Ok tt) ->
  exists lines,
    print_human_readable float_repr h = (ev ++ evd ++ map Stdout lines, Ok tt) /\
    List.length lines = (20 + swap_lines m + 4 * List.length dm)%nat.
Proof.
  intros Hc Hdm Hout.
  destruct (snapshot_get_fixed _ _ _ "timestamp" Hc eq_refl) as (ts & Hts & _).
  destruct (snapshot_get_fixed _ _ _ "cpu_percent" Hc eq_refl) as (cpu & Hcpu & _).
  destruct (snapshot_get_float _ _ _ "load_1min" Hc eq_refl eq_refl) as (l1 & Hl1).
  destruct (snapshot_get_float _ _ _ "load_5min" Hc eq_refl eq_refl) as (l5 & Hl5).
  destruct (snapshot_get_float _ _ _ "load_15min" Hc eq_refl eq_refl) as (l15 & Hl15).
  destruct (snapshot_get_float _ _ _ "memory_used_gb" Hc eq_refl eq_refl) as (mu & Hmu).
  destruct (snapshot_get_float _ _ _ "memory_total_gb" Hc eq_refl eq_refl) as (mt & Hmt).
  destruct (snapshot_get_fixed _ _ _ "memory_percent" Hc eq_refl) as (mp & Hmp & _).
  destruct (snapshot_get_float _ _ _ "memory_available_gb" Hc eq_refl eq_refl)
    as (ma & Hma).
  destruct (snapshot_get_float _ _ _ "disk_io_read_mb" Hc eq_refl eq_refl) as (dr & Hdr).
  destruct (snapshot_get_float _ _ _ "disk_io_write_mb" Hc eq_refl eq_refl) as (dw & Hdw).
  destruct (snapshot_get_float _ _ _ "net_mb_sent" Hc eq_refl eq_refl) as (ns & Hns).
  destruct (snapshot_get_float _ _ _ "net_mb_recv" Hc eq_refl eq_refl) as (nr & Hnr).
  destruct (snapshot_get_fixed _ _ _ "process_count" Hc eq_refl) as (pc & Hpc & _).
  assert (Hdc : exists dc, ODict.get "disk_count" m = Some dc).
  { destruct (get_disk_metrics_ok_inv _ _ _ Hdm) as (parts & Hparts & _).
    rewrite (snapshot_disk_count _ _ _ _ Hc Hparts). eauto. }
  destruct Hdc as [dc Hdc].
  unfold print_human_readable.
  match goal with
  | |- context [bind (collect_metrics h) ?k] => set (after_collect := k)
  end.
  assert (Hrest : exists k2, after_collect m = bind (get_disk_metrics h) k2 /\
                             prints (20 + swap_lines m + 4 * List.length dm) (k2 dm) tt).
  { subst after_collect. cbv beta. eexists. split; [ reflexivity | ]. cbv beta.
    unfold swap_lines.
    destruct (snapshot_get_swap _ _ _ Hc)
      as [(x & y & z & Hst & Hsu & Hsp) | (Hst & Hsu & Hsp)]; rewrite Hst.
    - destruct (SFltb (S754_zero false) x) eqn:E.
      + eapply prints_count.
        * repeat prints_step Hout. rewrite E. prints_all Hout.
        * unfold ODict.items. lia.
      + eapply prints_count.
        * repeat prints_step Hout. rewrite E. prints_all Hout.
        * unfold ODict.items. lia.
    - change (0 >? 0) with false. cbv iota. eapply prints_count.
      + prints_all Hout.
      + unfold ODict.items. lia. }
  destruct Hrest as (k2 & Hk2 & lines & Hlines & Hlen).
  exists lines. split; [ | exact Hlen ].
  rewrite Hc. unfold bind at 1. rewrite Hk2, Hdm. unfold bind at 1. now rewrite Hlines.
Qed.

End Report.

Lemma stderr_of_map_Stdout (lines : list string) : stderr_of (map Stdout lines) = [].
Proof. induction lines as [ | s r IH]; [ reflexivity | exact IH ]. Qed.

Lemma collect_metrics_stderr (h : Host) (ev : list event) (m : ODict.t value) :
  collect_metrics h = (ev, Ok m) -> stderr_of ev = stderr_of (events (get_disk_metrics h)).
Proof.
  intros Hc.
  destruct (collect_metrics_ok _ _ _ Hc) as (fixed & dm & totals & _ & _ & _ & _ & _ & -> & _).
  rewrite !stderr_of_app. cbn [queries_before queries_after stderr_of flat_map app].
  now rewrite app_nil_r.
Qed.

(** ** Rounded values *)






(** * The claims *)

(** C1 (header/row parity) at a mount point with a comma in its name,
    [/mnt/a,b]: the snapshot has 30 keys and the row has 30 fields, but the
    header, which joins the keys as they are, has 36. *)
Theorem header_row_mismatch_on_comma_mount (float_repr : float -> string) :
  (forall x, plain (float_repr x) = true) ->
  exists header row,
    stdout_of (events (print_csv_header (Examples.host [Examples.comma_part]))) = [header] /\
    stdout_of (events (print_csv_row float_repr (Examples.host [Examples.comma_part])))
      = [row] /\
    List.length (ODict.keys (Examples.snapshot (Examples.host [Examples.comma_part])))
      = 30%nat /\
    csv_fields header = 36%nat /\
    csv_fields row = 30%nat.
Proof.
  intros Hrepr.
  destruct (row_field_count float_repr Hrepr (Examples.host [Examples.comma_part])
              (Examples.snapshot (Examples.host [Examples.comma_part])))
    as [Hr Hrn].
  - vm_compute. reflexivity.
  - reflexivity.
  - intros k s Hin. vm_compute in Hin.
    repeat (destruct Hin as [Hin | Hin]; [ inversion Hin; subst; reflexivity | ]).
    contradiction.
  - eexists _, _. split; [ vm_compute; reflexivity | ].
    split; [ exact Hr | ]. split; [ vm_compute; reflexivity | ].
    split; [ vm_compute; reflexivity | ]. rewrite Hrn. vm_compute. reflexivity.
Qed.

Lemma header_row_mismatch_on_comma_mount_witness :
  exists header row,
    stdout_of (events (print_csv_header (Examples.host [Examples.comma_part]))) = [header] /\
    stdout_of (events (print_csv_row Examples.repr2 (Examples.host [Examples.comma_part])))
      = [row] /\
    List.length (ODict.keys (Examples.snapshot (Examples.host [Examples.comma_part])))
      = 30%nat /\
    csv_fields header = 36%nat /\
    csv_fields row = 30%nat.
Proof.
  apply (header_row_mismatch_on_comma_mount Examples.repr2).
  intros x. apply plain_format_fixed.
Defined.

(** C2 (collisions of sanitized names) at the mount points [/mnt/a.b] and
    [/mnt/a/b].  They differ, both make an entry, and both are named
    [mnt_a_b]: the snapshot has the columns of that name once, with the
    readings of the second one; the device of the first is nowhere in it, one
    disk is counted, and nothing is written to the error stream. *)
Lemma colliding_mounts_overwrite_silently :
  mountpoint Examples.dot_part <> mountpoint Examples.slash_part /\
  mount_name (mountpoint Examples.dot_part) = mount_name (mountpoint Examples.slash_part) /\
  makes_entry (Examples.host [Examples.dot_part; Examples.slash_part]) Examples.dot_part = true /\
  makes_entry (Examples.host [Examples.dot_part; Examples.slash_part]) Examples.slash_part = true /\
  ODict.get "disk_mnt_a_b_device"
    (Examples.snapshot (Examples.host [Examples.dot_part; Examples.slash_part]))
    = Some (VStr "sdc1") /\
  ODict.get "disk_mnt_a_b_total_gb"
    (Examples.snapshot (Examples.host [Examples.dot_part; Examples.slash_part]))
    = Some (VFloat (PyFloat.of_Z 20)) /\
  ~ In (VStr "sdb1")
       (ODict.values (Examples.snapshot (Examples.host [Examples.dot_part; Examples.slash_part]))) /\
  ODict.get "disk_count"
    (Examples.snapshot (Examples.host [Examples.dot_part; Examples.slash_part]))
    = Some (VInt 1) /\
  stderr_of (events (collect_metrics (Examples.host [Examples.dot_part; Examples.slash_part])))
    = [].
Proof.
  vm_compute. repeat split; try reflexivity; try discriminate.
  intros H. repeat (destruct H as [H | H]; [ discriminate | ]). exact H.
Qed.

(** C3, against the claim as stated.  An unrecognized [--format] does not
    give a row: the parser rejects the command line and the run ends with
    status 2, before any collection and with nothing on standard output. *)
Lemma unrecognized_format_is_an_error :
  parse_args ["--format"; "xml"] = ArgError /\
  main Examples.repr2 Examples.dumps_keys Examples.root_host ["--format"; "xml"]
  = ([Report UsageError], Ok 2).
Proof. split; vm_compute; reflexivity. Qed.

(** C3 (format selection), amended.  The dispatch itself sends every format
    other than [header], [json] and [human] to the row; but the parser hands
    over one of the four choices only, or the empty list.  So the row is what
    [--format csv] selects; a value outside the choices ends the run with
    status 2 and a usage error on the error stream, with nothing collected
    and nothing on standard output; the one value that is no choice and
    still gives a row is [--], written as [--format=--], which [argparse]
    strips from the arguments of the option. *)
Theorem format_selection (float_repr : float -> string)
    (json_dumps : ODict.t value -> string) (h : Host) :
  (forall a, format a <> "header" -> format a <> "json" -> format a <> "human" ->
     dispatch float_repr json_dumps h a = print_csv_row float_repr h) /\
  (forall argv a, parse_args argv = Parsed a ->
     (format a = "csv" /\
      dispatch float_repr json_dumps h a = print_csv_row float_repr h) \/
     (format a = "json" /\
      dispatch float_repr json_dumps h a = print_json json_dumps h) \/
     (format a = "header" /\
      dispatch float_repr json_dumps h a = print_csv_header h) \/
     (format a = "human" /\
      dispatch float_repr json_dumps h a = print_human_readable float_repr h) \/
     (format a = EmptyList /\
      dispatch float_repr json_dumps h a = print_csv_row float_repr h)) /\
  parse_args ["--format"; "csv"] = Parsed (mk_args "csv" false) /\
  dispatch float_repr json_dumps h (mk_args "csv" false) = print_csv_row float_repr h /\
  (forall v, ~ In v format_choices ->
     main float_repr json_dumps h ["--format"; v] = ([Report UsageError], Ok 2) /\
     (v <> "--" ->
      main float_repr json_dumps h ["--format=" +++ v] = ([Report UsageError], Ok 2))) /\
  parse_args ["--format=--"] = Parsed (mk_args EmptyList false).
Proof.
  assert (Hfall : forall a, format a <> "header" -> format a <> "json" ->
                            format a <> "human" ->
                            dispatch float_repr json_dumps h a = print_csv_row float_repr h).
  { intros a H1 H2 H3. unfold dispatch. destruct (format a) as [s | ]; [ | reflexivity ].
    cbn [format_is].
    assert (E1 : String.eqb s "header" = false) by (apply String.eqb_neq; congruence).
    assert (E2 : String.eqb s "json" = false) by (apply String.eqb_neq; congruence).
    assert (E3 : String.eqb s "human" = false) by (apply String.eqb_neq; congruence).
    now rewrite E1, E2, E3. }
  split; [ exact Hfall | ].
  split.
  { intros argv a Hp. apply parse_args_format in Hp. unfold dispatch.
    destruct (format a) as [s | ]; [ | do 4 right; split; reflexivity ].
    cbn in Hp.
    destruct Hp as [E | [E | [E | [E | []]]]]; rewrite <- E; cbn; auto 7. }
  split; [ reflexivity | ].
  split; [ reflexivity | ].
  split; [ | reflexivity ].
  intros v Hv. split.
  - apply main_arg_error. now apply parse_args_no_choice.
  - intros Hd. apply main_arg_error. now apply parse_args_no_choice_eq.
Qed.

Lemma format_selection_witness :
  main Examples.repr2 Examples.dumps_keys Examples.root_host ["--format=xml"]
  = ([Report UsageError], Ok 2).
Proof.
  destruct (format_selection Examples.repr2 Examples.dumps_keys Examples.root_host)
    as (_ & _ & _ & _ & Hbad & _).
  destruct (Hbad "xml") as (_ & H).
  - cbn. intuition discriminate.
  - apply H. discriminate.
Defined.

(** C4, against the claim as stated.  The report for the terminal asks the
    operating system for the partitions and their usage a second time, after
    its collection. *)
Lemma human_report_queries_disks_twice :
  queries_of (events (print_human_readable Examples.repr2 Examples.root_host))
    = queries_of (events (collect_metrics Examples.root_host))
      ++ [QDiskPartitions; QDiskUsage "/"] /\
  queries_of (events (print_human_readable Examples.repr2 Examples.root_host))
    <> queries_of (events (collect_metrics Examples.root_host)).
Proof.
  split; [ vm_compute; reflexivity | ].
  intros H. apply (f_equal (@List.length os_call)) in H. vm_compute in H. discriminate.
Qed.

(** C4 (presenter purity), amended.  The header, the row and the JSON
    document each come from one collection and send the operating system no
    query of their own.  The report for the terminal makes one collection and
    then, when it succeeded, calls [get_disk_metrics] once more: it asks for
    the partitions and their usage a second time; after that it sends no
    query. *)
Theorem presenter_queries (float_repr : float -> string)
    (json_dumps : ODict.t value -> string) (h : Host) :
  queries_of (events (print_csv_header h)) = queries_of (events (collect_metrics h)) /\
  queries_of (events (print_csv_row float_repr h)) = queries_of (events (collect_metrics h)) /\
  queries_of (events (print_json json_dumps h)) = queries_of (events (collect_metrics h)) /\
  queries_of (events (print_human_readable float_repr h)) =
    queries_of (events (collect_metrics h))
      ++ match outcome (collect_metrics h) with
         | Ok _ => queries_of (events (get_disk_metrics h))
         | Raise _ => []
         end /\
  exists rest, queries_of (events (get_disk_metrics h)) = QDiskPartitions :: rest.
Proof.
  split; [ | split; [ | split; [ | split ] ] ].
  - apply one_collection_queries. intros m. apply print_no_query.
  - apply one_collection_queries. intros m. apply print_no_query.
  - apply one_collection_queries. intros m. apply print_no_query.
  - apply human_queries.
  - rewrite get_disk_metrics_eq. destruct (os_disk_partitions h); eexists; reflexivity.
Qed.




(** C6, against the claim as stated.  The filter of line 140 is not the one
    of line 25: a type that contains [overlay] without being [overlay] passes
    the first and fails the second.  The store of a rootless container engine
    has its six columns in the snapshot and is counted by [disk_count], and
    is left out of the totals. *)
Lemma totals_filter_is_not_the_upstream_filter :
  PyStr.in_list "fuse.overlayfs" special_fstypes = false /\
  counts_in_totals "fuse.overlayfs" = false /\
  ODict.get "disk_count" (Examples.snapshot (Examples.host [Examples.overlayfs_part]))
    = Some (VInt 1) /\
  ODict.get "disk_var_lib_containers_fstype"
            (Examples.snapshot (Examples.host [Examples.overlayfs_part]))
    = Some (VStr "fuse.overlayfs") /\
  ODict.get "disk_total_all_gb" (Examples.snapshot (Examples.host [Examples.overlayfs_part]))
    = None.
Proof. vm_compute. repeat split; reflexivity. Qed.

(** C6 (aggregate disk totals), amended.  The totals are summed over the
    entries of [disk_metrics] whose type contains neither [overlay] nor
    [squashfs] as a substring (a test of its own: the entries already have
    none of the seven special types); the three total columns are in the
    snapshot exactly when the summed size is positive, after the columns of
    the disks and before [disk_count]; [disk_percent_all] is
    [round(used / size * 100, 2)]. *)
Theorem aggregate_disk_totals (h : Host) (ev : list event) (m : ODict.t value) :
  collect_metrics h = (ev, Ok m) ->
  exists fixed dm totals,
    outcome (get_disk_metrics h) = Ok dm /\
    ODict.keys fixed = fixed_keys /\
    m = fixed ++ all_disk_columns dm ++ totals ++ [("disk_count", VInt (ODict.len dm))] /\
    (forall n info, In (n, info) dm ->
       PyStr.in_list (di_fstype info) special_fstypes = false) /\
    (forall fs, counts_in_totals fs = true <->
       ~ (exists a b, fs = a +++ "overlay" +++ b) /\
       ~ (exists a b, fs = a +++ "squashfs" +++ b)) /\
    (sum_counted di_total_bytes dm > 0 ->
     exists x y z,
       PyFloat.int_truediv (sum_counted di_total_bytes dm) (1024 ^ 3) = Ok x /\
       PyFloat.int_truediv (sum_counted di_used_bytes dm) (1024 ^ 3) = Ok y /\
       PyFloat.int_truediv (sum_counted di_used_bytes dm)
                           (sum_counted di_total_bytes dm) = Ok z /\
       totals = [ ("disk_total_all_gb", VFloat (PyFloat.round2 x));
                  ("disk_used_all_gb", VFloat (PyFloat.round2 y));
                  ("disk_percent_all",
                   VFloat (PyFloat.round2 (PyFloat.mul_int z 100))) ]) /\
    (sum_counted di_total_bytes dm <= 0 -> totals = []).
Proof.
  intros Hc.
  destruct (collect_metrics_ok _ _ _ Hc)
    as (fixed & dm & totals & Hdm & _ & Hk & Ht & Hm & _).
  exists fixed, dm, totals.
  do 3 (split; [ assumption | ]).
  split.
  { intros n info Hin.
    destruct (get_disk_metrics h) as [l r] eqn:Hg. cbn [outcome snd] in Hdm. subst r.
    destruct (get_disk_metrics_ok_inv _ _ _ Hg) as (parts & _ & -> & _).
    apply in_scan in Hin. destruct Hin as [[] | (p & _ & He & _)].
    destruct (entry_fstype _ _ _ He) as [-> Hsp]. exact Hsp. }
  split; [ exact counts_in_totals_spec | ].
  unfold disk_totals in Ht.
  destruct (sum_counted di_total_bytes dm >? 0) eqn:E.
  - split; [ | intros Hle; apply Z.gtb_lt in E; lia ].
    intros _.
    apply bind_ok_inv in Ht. destruct Ht as (l1 & x & l2 & Hx & Ht & _).
    apply bind_ok_inv in Ht. destruct Ht as (l3 & y & l4 & Hy & Ht & _).
    apply bind_ok_inv in Ht. destruct Ht as (l5 & z & l6 & Hz & Ht & _).
    apply ret_ok_inv in Ht. destruct Ht as [-> _].
    apply round_div_ok_inv in Hx. destruct Hx as (x' & Hx & -> & _).
    apply round_div_ok_inv in Hy. destruct Hy as (y' & Hy & -> & _).
    apply lift_ok_inv in Hz. destruct Hz as [Hz _].
    exists x', y', z. auto.
  - split; [ intros Hgt; rewrite Z.gtb_ltb in E; apply Z.ltb_ge in E; lia | ].
    intros _. apply ret_ok_inv in Ht. now destruct Ht as [-> _].
Qed.

Lemma aggregate_disk_totals_witness :
  In ("disk_percent_all", VFloat (PyFloat.of_Z 40)) (Examples.snapshot Examples.root_host).
Proof.
  destruct (aggregate_disk_totals Examples.root_host
              (events (collect_metrics Examples.root_host))
              (Examples.snapshot Examples.root_host))
    as (fixed & dm & totals & Hdm & Hk & Hm & _ & _ & Hpos & _).
  - vm_compute. reflexivity.
  - vm_compute in Hdm. inversion Hdm; subst dm. clear Hdm.
    destruct Hpos as (x & y & z & Hx & Hy & Hz & Ht).
    + vm_compute. reflexivity.
    + vm_compute in Hz. inversion Hz; subst z.
      rewrite Hm, Ht. apply in_or_app. right. apply in_or_app. right.
      apply in_or_app. left. right. right. left. vm_compute. reflexivity.
Defined.



(** C8 (mount-name sanitization).  A partition that makes an entry has its
    six columns in the snapshot under [disk_<name>_...], where the name is
    the mount point with every ['/'] and ['.'] made an underscore and its
    leading and trailing underscores removed, or ['root'] when nothing is
    left; no column name starts with [disk__], and the columns of the mount
    point ['/'] are the [disk_root_...] ones. *)
Theorem mount_name_sanitization (h : Host) (ev : list event) (m : ODict.t value)
    (parts : list sdiskpart) (p : sdiskpart) (info : disk_info) :
  collect_metrics h = (ev, Ok m) ->
  os_disk_partitions h = Ok parts ->
  In p parts ->
  entry_of h p = Some info ->
  (exists (a b : nat) (core : string),
     map_chars underscored (mountpoint p)
       = PyStr.repeat "_" a +++ core +++ PyStr.repeat "_" b /\
     (forall t, core <> String "_" t) /\
     (forall t, core <> t +++ "_") /\
     mount_name (mountpoint p) = match core with EmptyString => "root" | _ => core end) /\
  (forall k, In k (disk_keys (mount_name (mountpoint p))) ->
     In k (ODict.keys m) /\ String.prefix "disk__" k = false) /\
  (mountpoint p = "/" ->
   disk_keys (mount_name (mountpoint p)) =
   [ "disk_root_total_gb"; "disk_root_used_gb"; "disk_root_free_gb";
     "disk_root_percent"; "disk_root_device"; "disk_root_fstype" ]).
Proof.
  intros Hc Hparts Hin Hp.
  split; [ apply mount_name_spec | ].
  split.
  - intros k Hk. split.
    + destruct (collect_metrics_ok _ _ _ Hc)
        as (fixed & dm & totals & Hdm & _ & _ & _ & -> & _).
      rewrite (outcome_get_disk_metrics _ _ Hparts) in Hdm. inversion Hdm; subst dm.
      rewrite !ODictFacts.keys_app, !in_app_iff. right. left.
      apply in_keys_all_disk_columns. exists (mount_name (mountpoint p)).
      split; [ | assumption ].
      apply in_keys_scan. right. exists p. rewrite Hp.
      repeat split; auto. discriminate.
    + apply in_disk_keys in Hk. destruct Hk as (suffix & _ & ->).
      apply disk_key_no_double_underscore.
  - intros ->. reflexivity.
Qed.

Lemma mount_name_sanitization_witness :
  In "disk_root_total_gb" (ODict.keys (Examples.snapshot Examples.root_host)) /\
  String.prefix "disk__" "disk_root_total_gb" = false.
Proof.
  destruct (mount_name_sanitization Examples.root_host
              (events (collect_metrics Examples.root_host))
              (Examples.snapshot Examples.root_host)
              [Examples.root_part] Examples.root_part
              (match entry_of Examples.root_host Examples.root_part with
               | Some info => info
               | None => mk_info "" "" "" S754_nan S754_nan S754_nan S754_nan 0 0 0
               end))
    as (_ & Hkeys & Hroot).
  - vm_compute. reflexivity.
  - reflexivity.
  - left. reflexivity.
  - vm_compute. reflexivity.
  - apply Hkeys. rewrite Hroot by reflexivity. left. reflexivity.
Defined.



(** C10 (swap-absent zeroing).  Whenever the swap total that was read is 0,
    the snapshot maps [swap_total_gb], [swap_used_gb] and [swap_percent] to
    the int 0: not to [None] and not to a float, so not to NaN. *)
Theorem swap_absent_zeroing (h : Host) (ev : list event) (m : ODict.t value)
    (swap : sswap) :
  collect_metrics h = (ev, Ok m) ->
  os_swap_memory h = Ok swap ->
  sw_total swap = 0 ->
  ODict.get "swap_total_gb" m = Some (VInt 0) /\
  ODict.get "swap_used_gb" m = Some (VInt 0) /\
  ODict.get "swap_percent" m = Some (VInt 0).
Proof.
  intros Hc Hswap Hzero.
  destruct (collect_metrics_ok _ _ _ Hc) as (fixed & dm & totals & _ & _ & _ & _ & -> & _ & Hsw).
  destruct (Hsw swap Hswap Hzero) as (H1 & H2 & H3).
  repeat split; now apply snapshot_fixed_column.
Qed.

Lemma swap_absent_zeroing_witness :
  ODict.get "swap_total_gb" (Examples.snapshot Examples.root_host) = Some (VInt 0) /\
  ODict.get "swap_used_gb" (Examples.snapshot Examples.root_host) = Some (VInt 0) /\
  ODict.get "swap_percent" (Examples.snapshot Examples.root_host) = Some (VInt 0).
Proof.
  apply (swap_absent_zeroing Examples.root_host
           (events (collect_metrics Examples.root_host))
           (Examples.snapshot Examples.root_host)
           (mk_swap 0 0 (PyFloat.of_Z 0))).
  - vm_compute. reflexivity.
  - reflexivity.
  - reflexivity.
Defined.

(** * Further properties *)

(** Header and row have the same number of fields when no mount point has a
    comma or a double quote in its name and no text in the snapshot (host
    name, time stamp, device, type) has a double quote in it. *)
Theorem header_row_parity (float_repr : float -> string) (h : Host)
    (ev : list event) (m : ODict.t value) (parts : list sdiskpart) :
  (forall x, plain (float_repr x) = true) ->
  collect_metrics h = (ev, Ok m) ->
  os_disk_partitions h = Ok parts ->
  (forall line, os_stdout_write h line = Ok tt) ->
  (forall p, In p parts -> plain (mountpoint p) = true) ->
  (forall k s, In (k, VStr s) m -> PyStr.mem PyStr.dquote s = false) ->
  exists header row,
    stdout_of (events (print_csv_header h)) = [header] /\
    stdout_of (events (print_csv_row float_repr h)) = [row] /\
    csv_fields header = List.length (ODict.keys m) /\
    csv_fields row = List.length (ODict.keys m).
Proof.
  intros Hrepr Hc Hparts Hout Hmp Hvals.
  assert (Hm : outcome (collect_metrics h) = Ok m) by now rewrite Hc.
  destruct (header_field_count h m Hm Hout) as [Hh Hhn].
  { eapply plain_keys; eassumption. }
  destruct (row_field_count float_repr Hrepr h m Hm Hout Hvals) as [Hr Hrn].
  eauto 10.
Qed.

Lemma header_row_parity_witness :
  exists header row,
    stdout_of (events (print_csv_header Examples.root_host)) = [header] /\
    stdout_of (events (print_csv_row Examples.repr2 Examples.root_host)) = [row] /\
    csv_fields header = 30%nat /\
    csv_fields row = 30%nat.
Proof.
  apply (header_row_parity Examples.repr2 Examples.root_host
           (events (collect_metrics Examples.root_host))
           (Examples.snapshot Examples.root_host) [Examples.root_part]).
  - intros x. apply plain_format_fixed.
  - vm_compute. reflexivity.
  - reflexivity.
  - reflexivity.
  - intros p [<- | []]. reflexivity.
  - intros k s Hin. vm_compute in Hin.
    repeat (destruct Hin as [Hin | Hin]; [ inversion Hin; subst; reflexivity | ]).
    contradiction.
Defined.

(** What becomes of colliding names in general.  The columns of a name hold the
    readings of the last partition that makes an entry under it, whatever
    partitions came before; the keys of the snapshot stay pairwise different,
    so the name has its six columns once; [disk_count] counts names, not
    partitions; and making an entry, first or overwriting, writes nothing to
    the error stream. *)
Theorem colliding_names_last_wins (h : Host) (ev : list event) (m : ODict.t value)
    (l1 l2 : list sdiskpart) (q : sdiskpart) (info : disk_info) :
  collect_metrics h = (ev, Ok m) ->
  os_disk_partitions h = Ok (l1 ++ q :: l2) ->
  entry_of h q = Some info ->
  (forall r, In r l2 -> entry_of h r <> None ->
             mount_name (mountpoint r) <> mount_name (mountpoint q)) ->
  (forall k v, In (k, v) (disk_columns (mount_name (mountpoint q)) info) ->
               ODict.get k m = Some v) /\
  NoDup (ODict.keys m) /\
  ODict.get "disk_count" m
    = Some (VInt (Z.of_nat (List.length (entry_names h (l1 ++ q :: l2))))) /\
  ((forall p, In p (l1 ++ q :: l2) -> entry_of h p <> None) -> stderr_of ev = []).
Proof.
  intros Hc Hparts Hq Hl2.
  split; [ intros k v; eapply snapshot_of_partition; eassumption | ].
  split; [ eapply snapshot_keys_NoDup; eassumption | ].
  split; [ eapply snapshot_disk_count; eassumption | ].
  intros Hall.
  destruct (collect_metrics_ok _ _ _ Hc) as (_ & _ & _ & _ & _ & _ & _ & _ & -> & _).
  rewrite (events_get_disk_metrics _ _ Hparts), !stderr_of_app.
  change (stderr_of (Query QDiskPartitions :: flat_map (partition_events h) (l1 ++ q :: l2)))
    with (stderr_of (flat_map (partition_events h) (l1 ++ q :: l2))).
  now rewrite stderr_of_entries.
Qed.

Lemma colliding_names_last_wins_witness :
  ODict.get "disk_mnt_a_b_device"
    (Examples.snapshot (Examples.host [Examples.dot_part; Examples.slash_part]))
  = Some (VStr "sdc1").
Proof.
  destruct (colliding_names_last_wins
              (Examples.host [Examples.dot_part; Examples.slash_part])
              (events (collect_metrics (Examples.host [Examples.dot_part; Examples.slash_part])))
              (Examples.snapshot (Examples.host [Examples.dot_part; Examples.slash_part]))
              [Examples.dot_part] [] Examples.slash_part
              (match entry_of (Examples.host [Examples.dot_part; Examples.slash_part])
                              Examples.slash_part with
               | Some info => info
               | None => mk_info "" "" "" S754_nan S754_nan S754_nan S754_nan 0 0 0
               end))
    as (Hcols & _).
  - vm_compute. reflexivity.
  - reflexivity.
  - vm_compute. reflexivity.
  - intros r [].
  - apply Hcols. vm_compute. do 4 right. left. reflexivity.
Defined.

(** The keys of a snapshot, in order: the twenty keys of the dict literal;
    six keys for every name under which a partition makes an entry, the names
    in the order in which they are first met in the enumeration; the three
    totals when the summed size is positive; [disk_count].  So a snapshot has
    [21 + 6 n] keys, or [24 + 6 n] with the totals. *)
Theorem snapshot_key_order (h : Host) (ev : list event) (m : ODict.t value)
    (parts : list sdiskpart) :
  collect_metrics h = (ev, Ok m) ->
  os_disk_partitions h = Ok parts ->
  ODict.keys m =
    fixed_keys
      ++ flat_map disk_keys (first_names h parts)
      ++ (if sum_counted di_total_bytes (fold_left (record_partition h) parts []) >? 0
          then total_keys else [])
      ++ ["disk_count"] /\
  List.length m =
    (21 + 6 * List.length (first_names h parts)
     + (if sum_counted di_total_bytes (fold_left (record_partition h) parts []) >? 0
        then 3 else 0))%nat /\
  ODict.get "disk_count" m = Some (VInt (Z.of_nat (List.length (first_names h parts)))).
Proof.
  intros Hc Hparts. pose proof (snapshot_keys _ _ _ _ Hc Hparts) as Hk.
  split; [ exact Hk | ]. split.
  - rewrite <- (length_map fst). change (map fst m) with (ODict.keys m). rewrite Hk.
    rewrite !length_app, length_flat_map_disk_keys.
    destruct (_ >? 0); cbn [List.length fixed_keys total_keys]; lia.
  - rewrite (snapshot_disk_count _ _ _ _ Hc Hparts). do 3 f_equal.
    rewrite <- keys_scan_first_names. unfold ODict.keys. rewrite length_map.
    pose proof (len_scan h parts) as Hl. unfold ODict.len in Hl. lia.
Qed.

Lemma snapshot_key_order_witness :
  ODict.keys (Examples.snapshot
                (Examples.host [Examples.dot_part; Examples.root_part; Examples.slash_part]))
  = fixed_keys ++ disk_keys "mnt_a_b" ++ disk_keys "root" ++ total_keys ++ ["disk_count"].
Proof.
  destruct (snapshot_key_order
              (Examples.host [Examples.dot_part; Examples.root_part; Examples.slash_part])
              (events (collect_metrics
                 (Examples.host [Examples.dot_part; Examples.root_part; Examples.slash_part])))
              (Examples.snapshot
                 (Examples.host [Examples.dot_part; Examples.root_part; Examples.slash_part]))
              [Examples.dot_part; Examples.root_part; Examples.slash_part])
    as (Hk & _ & _).
  - vm_compute. reflexivity.
  - reflexivity.
  - rewrite Hk. vm_compute. reflexivity.
Defined.

(** A host on which no partition makes an entry (none is enumerated, or all
    are passed over or fail): the snapshot is complete all the same, with the
    twenty fixed keys and [disk_count], which is 0, and without totals. *)
Theorem snapshot_without_disks (h : Host) (ev : list event) (m : ODict.t value)
    (parts : list sdiskpart) :
  collect_metrics h = (ev, Ok m) ->
  os_disk_partitions h = Ok parts ->
  (forall p, In p parts -> entry_of h p = None) ->
  ODict.keys m = fixed_keys ++ ["disk_count"] /\
  ODict.get "disk_count" m = Some (VInt 0).
Proof.
  intros Hc Hparts Hnone.
  assert (Hf : filter (makes_entry h) parts = []).
  { clear Hparts Hc. induction parts as [ | p rest IH]; [ reflexivity | ].
    cbn [filter]. unfold makes_entry at 1. rewrite (Hnone p) by now left.
    apply IH. intros q Hq. apply Hnone. now right. }
  assert (Hdm : fold_left (record_partition h) parts [] = []).
  { pose proof (keys_scan_first_names h parts) as Hk.
    unfold first_names in Hk. rewrite Hf in Hk.
    destruct (fold_left (record_partition h) parts []); [ reflexivity | discriminate ]. }
  split.
  - rewrite (snapshot_keys _ _ _ _ Hc Hparts). unfold first_names. rewrite Hf, Hdm.
    reflexivity.
  - rewrite (snapshot_disk_count _ _ _ _ Hc Hparts). unfold entry_names. now rewrite Hf.
Qed.

Lemma snapshot_without_disks_witness :
  ODict.keys (Examples.snapshot (Examples.host [Examples.tmpfs_part]))
    = fixed_keys ++ ["disk_count"] /\
  ODict.get "disk_count" (Examples.snapshot (Examples.host [Examples.tmpfs_part]))
    = Some (VInt 0).
Proof.
  apply (snapshot_without_disks (Examples.host [Examples.tmpfs_part])
           (events (collect_metrics (Examples.host [Examples.tmpfs_part])))
           (Examples.snapshot (Examples.host [Examples.tmpfs_part]))
           [Examples.tmpfs_part]).
  - vm_compute. reflexivity.
  - reflexivity.
  - intros p [<- | []]. reflexivity.
Defined.


(** The queries of a collection: the clock, the CPU load twice (overall, then
    per core: two sampling intervals), the CPU count and frequency, memory and
    swap, the scan of the disks, the IO counters of disks and network, the
    load average, the process ids, and the host name last.  A collection that
    succeeds has made all of them; one that fails has made a prefix of them:
    nothing is asked after the query that failed. *)
Theorem collection_query_order (h : Host) :
  (exists rest,
     collection_queries h = queries_of (events (collect_metrics h)) ++ rest) /\
  (forall m, outcome (collect_metrics h) = Ok m ->
     queries_of (events (collect_metrics h)) = collection_queries h /\
     stderr_of (events (collect_metrics h)) = stderr_of (events (get_disk_metrics h))).
Proof.
  split; [ apply collect_metrics_query_prefix | ].
  intros m Hm.
  destruct (collect_metrics_ok h (events (collect_metrics h)) m)
    as (fixed & dm & totals & _ & _ & _ & _ & _ & Hev & _).
  { rewrite <- Hm. apply surjective_M. }
  rewrite Hev. split.
  - rewrite !queries_of_app. reflexivity.
  - rewrite !stderr_of_app. cbn [queries_before queries_after stderr_of flat_map app].
    now rewrite app_nil_r.
Qed.


(** The types of the values of a snapshot, by key: the time stamp, the host
    name and the device and file system of a mount are strings; the two
    counts are ints; the CPU count is an int or [None] and the CPU frequency
    a float or [None]; every other value is a float, but for the three swap
    values, which are floats when there is swap and the int 0 when there is
    none. *)
Theorem snapshot_value_types (h : Host) (ev : list event) (m : ODict.t value) :
  collect_metrics h = (ev, Ok m) ->
  (forall k v, In (k, v) m -> In (type_of v) (column_types k)) /\
  (forall swap k, os_swap_memory h = Ok swap ->
     In k ["swap_total_gb"; "swap_used_gb"; "swap_percent"] ->
     exists v, ODict.get k m = Some v /\
               (sw_total swap > 0 -> type_of v = TFloat) /\
               (sw_total swap <= 0 -> v = VInt 0)).
Proof.
  intros Hc.
  destruct (collect_metrics_typed _ _ _ Hc)
    as (fixed & dm & totals & _ & Ht & -> & _ & Hfixed & Hswap).
  split.
  - intros k v Hin. rewrite !in_app_iff in Hin.
    destruct Hin as [Hin | [Hin | [Hin | [Hin | []]]]].
    + now apply Hfixed.
    + now apply all_disk_columns_types in Hin.
    + now apply (disk_totals_types _ _ _ _ _ Ht).
    + inversion Hin; subst. vm_compute. tauto.
  - intros swap k Hsw Hk. destruct Hswap as (swap' & Hsw' & Hswap).
    rewrite Hsw' in Hsw. inversion Hsw; subst swap'.
    destruct (Hswap k Hk) as (v & Hv & Hcase).
    exists v. split.
    + rewrite ODictFacts.get_app, Hv. reflexivity.
    + destruct Hcase as [[E Hty] | [E ->]].
      * apply Z.gtb_lt in E. split; [ auto | lia ].
      * rewrite Z.gtb_ltb in E. apply Z.ltb_ge in E. split; [ lia | reflexivity ].
Qed.

Lemma snapshot_value_types_witness :
  In (type_of (VStr "sda1")) (column_types "disk_root_device").
Proof.
  destruct (snapshot_value_types Examples.root_host
              (events (collect_metrics Examples.root_host))
              (Examples.snapshot Examples.root_host)) as [Hty _].
  - vm_compute. reflexivity.
  - apply (Hty "disk_root_device" (VStr "sda1")).
    apply ODictFacts.get_some_in. vm_compute. reflexivity.
Defined.

(** [--once] changes nothing: with it or without it the script collects once,
    prints once and leaves with the same status, whatever the other
    arguments. *)
Theorem once_changes_nothing (float_repr : float -> string)
    (json_dumps : ODict.t value -> string) (h : Host) :
  (forall f o, run float_repr json_dumps h (mk_args f o)
               = run float_repr json_dumps h (mk_args f false)) /\
  (forall argv, main float_repr json_dumps h ("--once" :: argv)
                = main float_repr json_dumps h argv) /\
  (forall argv a, parse_args argv = Parsed a ->
     exists b, parse_args ("--once" :: argv) = Parsed b /\ format b = format a /\
               once b = true).
Proof.
  split; [ intros f o; apply run_once_irrelevant | ].
  split; [ apply main_once_irrelevant | ].
  intros argv a Ha. rewrite parse_args_once, Ha. eexists. repeat split.
Qed.

(** The name of a mount in the column names: it is never empty, holds no
    slash and no dot, neither starts nor ends with an underscore, and naming
    it again changes nothing.  Nothing else is cleaned: every other character
    of the mount point (a comma, a quote, a blank) is still in the name. *)
Theorem mount_name_is_clean_of_separators_only (mp : string) :
  mount_name mp <> "" /\
  PyStr.mem "/" (mount_name mp) = false /\
  PyStr.mem "." (mount_name mp) = false /\
  (forall t, mount_name mp <> String "_" t) /\
  (forall t, mount_name mp <> t +++ "_") /\
  mount_name (mount_name mp) = mount_name mp /\
  (forall c, c <> "/"%char -> c <> "."%char -> c <> "_"%char ->
     PyStr.mem c mp = true -> PyStr.mem c (mount_name mp) = true).
Proof.
  destruct (mount_name_no_separator mp) as [H1 H2].
  destruct (mount_name_edges mp) as (Hh & Ht & Hne).
  repeat split; try assumption.
  - apply mount_name_idempotent.
  - intros c. apply mount_name_keeps.
Qed.

(** Presentation cannot fail by itself.  On a host whose collection succeeds
    and whose standard output takes every line, each of the four presenters
    returns normally and the script leaves with status 0: every key the
    report reads is in the snapshot, and every value it formats with [.1f] or
    [.2f] is a float.  The report has twenty lines, one more when the swap
    total of the snapshot is positive, and four for every entry of the
    disks. *)
Theorem presentation_cannot_fail (float_repr : float -> string)
    (json_dumps : ODict.t value -> string) (h : Host)
    (ev : list event) (m : ODict.t value) :
  collect_metrics h = (ev, Ok m) ->
  (forall line, os_stdout_write h line = Ok tt) ->
  print_csv_header h = (ev ++ [Stdout (PyStr.join "," (ODict.keys m))], Ok tt) /\
  print_csv_row float_repr h
    = (ev ++ [Stdout (PyStr.join "," (map (fun item => csv_field float_repr (snd item)) m))],
       Ok tt) /\
  print_json json_dumps h = (ev ++ [Stdout (json_dumps m)], Ok tt) /\
  outcome (print_human_readable float_repr h) = Ok tt /\
  (exists dm,
     outcome (get_disk_metrics h) = Ok dm /\
     List.length (stdout_of (events (print_human_readable float_repr h)))
       = (20 + swap_lines m + 4 * List.length dm)%nat) /\
  (forall argv a, parse_args argv = Parsed a ->
     outcome (main float_repr json_dumps h argv) = Ok 0).
Proof.
  intros Hc Hout.
  assert (Hheader : print_csv_header h
                    = (ev ++ [Stdout (PyStr.join "," (ODict.keys m))], Ok tt)).
  { unfold print_csv_header. rewrite Hc. unfold bind, print. now rewrite Hout. }
  assert (Hrow : print_csv_row float_repr h
                 = (ev ++ [Stdout (PyStr.join ","
                                     (map (fun item => csv_field float_repr (snd item)) m))],
                    Ok tt)).
  { unfold print_csv_row. rewrite Hc. unfold bind, print, ODict.items. now rewrite Hout. }
  assert (Hjson : print_json json_dumps h = (ev ++ [Stdout (json_dumps m)], Ok tt)).
  { unfold print_json. rewrite Hc. unfold bind, print. now rewrite Hout. }
  destruct (collect_metrics_ok _ _ _ Hc) as (fixed & dm & totals & Hdm & _).
  assert (Hdm' : get_disk_metrics h = (events (get_disk_metrics h), Ok dm)).
  { rewrite <- Hdm. apply surjective_M. }
  destruct (human_report_prints float_repr h ev m _ dm Hc Hdm' Hout)
    as (lines & Hhuman & Hlen).
  repeat split; try assumption.
  - now rewrite Hhuman.
  - exists dm. split; [ assumption | ].
    rewrite Hhuman. cbn [events fst]. rewrite !stdout_of_app.
    assert (E1 : stdout_of ev = []).
    { pose proof (collect_metrics_stdout h) as E. now rewrite Hc in E. }
    rewrite E1, (stdout_of_nil _ (get_disk_metrics_not_stdout h)), stdout_of_map_Stdout.
    exact Hlen.
  - intros argv a Ha.
    assert (Hd : outcome (dispatch float_repr json_dumps h a) = Ok tt).
    { unfold dispatch.
      destruct (format_is (format a) "header"); [ now rewrite Hheader | ].
      destruct (format_is (format a) "json"); [ now rewrite Hjson | ].
      destruct (format_is (format a) "human"); [ now rewrite Hhuman | now rewrite Hrow ]. }
    rewrite (main_flushed _ _ _ _ _ Ha).
    + now rewrite (run_ok _ _ _ _ _ Hd).
    + apply dispatch_not_pending. intros line. left. exists tt. apply Hout.
Qed.

Lemma presentation_cannot_fail_witness :
  List.length (stdout_of (events (print_human_readable Examples.repr2 Examples.root_host)))
    = 24%nat /\
  outcome (main Examples.repr2 Examples.dumps_keys Examples.root_host []) = Ok 0.
Proof.
  destruct (presentation_cannot_fail Examples.repr2 Examples.dumps_keys Examples.root_host
              (events (collect_metrics Examples.root_host))
              (Examples.snapshot Examples.root_host))
    as (_ & _ & _ & _ & (dm & Hdm & Hlen) & Hmain).
  - vm_compute. reflexivity.
  - intros line. reflexivity.
  - split.
    + rewrite Hlen. vm_compute in Hdm. injection Hdm as <-. vm_compute. reflexivity.
    + apply (Hmain [] (mk_args "human" false)). reflexivity.
Defined.


(** In the report mode the disks are scanned twice, so what the scan writes
    on the error stream is written twice: a partition whose usage cannot be
    read (but for a missing path or a refused access) gives two
    [Error reading] lines, where the other modes give one. *)
Theorem human_report_logs_twice (float_repr : float -> string) (h : Host)
    (ev : list event) (m : ODict.t value) :
  collect_metrics h = (ev, Ok m) ->
  (forall line, os_stdout_write h line = Ok tt) ->
  stderr_of (events (print_human_readable float_repr h))
    = stderr_of (events (get_disk_metrics h)) ++ stderr_of (events (get_disk_metrics h)) /\
  stderr_of (events (print_csv_row float_repr h))
    = stderr_of (events (get_disk_metrics h)) /\
  stderr_of (events (print_csv_header h)) = stderr_of (events (get_disk_metrics h)).
Proof.
  intros Hc Hout.
  destruct (collect_metrics_ok _ _ _ Hc) as (fixed & dm & totals & Hdm & _).
  assert (Hdm' : get_disk_metrics h = (events (get_disk_metrics h), Ok dm)).
  { rewrite <- Hdm. apply surjective_M. }
  destruct (human_report_prints float_repr h ev m _ dm Hc Hdm' Hout)
    as (lines & Hhuman & _).
  pose proof (collect_metrics_stderr _ _ _ Hc) as Hev.
  split; [ | split ].
  - rewrite Hhuman. cbn [events fst].
    now rewrite !stderr_of_app, stderr_of_map_Stdout, app_nil_r, Hev.
  - unfold print_csv_row. rewrite Hc. unfold bind, print. rewrite Hout.
    cbn [events fst]. rewrite stderr_of_app, Hev. apply app_nil_r.
  - unfold print_csv_header. rewrite Hc. unfold bind, print. rewrite Hout.
    cbn [events fst]. rewrite stderr_of_app, Hev. apply app_nil_r.
Qed.

Lemma human_report_logs_twice_witness :
  stderr_of (events (print_human_readable Examples.repr2
                       (Examples.host [Examples.root_part;
                                       mk_part "/dev/sde1" "/bad" "ext4"])))
  = [ "Error reading /bad: [Errno 5] Input/output error: '/bad'";
      "Error reading /bad: [Errno 5] Input/output error: '/bad'" ].
Proof.
  destruct (human_report_logs_twice Examples.repr2
              (Examples.host [Examples.root_part; mk_part "/dev/sde1" "/bad" "ext4"])
              (events (collect_metrics
                 (Examples.host [Examples.root_part; mk_part "/dev/sde1" "/bad" "ext4"])))
              (Examples.snapshot
                 (Examples.host [Examples.root_part; mk_part "/dev/sde1" "/bad" "ext4"])))
    as (H & _).
  - vm_compute. reflexivity.
  - intros line. reflexivity.
  - rewrite H. vm_compute. reflexivity.
Defined.




